(** * Google search through a driven browser: model and properties

    A shallow embedding of the search orchestration of [google_search]
    (engine.py), of the search executor (search_executor.py), of the
    fingerprint derivation (fingerprint.py) and of the state persistence
    (browser_manager.py).

    - Python [str] is [string]; characters stand for the code units the
      source compares.  Python [int] is [Z].
    - The browser is an environment that answers every primitive the code
      calls (launch, goto, wait_for_selector, evaluate, storage_state ...)
      with a value or with an exception.
    - Code that raises or mutates shared objects runs in the monad [M]:
      a state ([World]: the shared [SavedState] object, the files on disk,
      the trace of browser calls) and a Python exception with its message.
    - Logging calls are omitted: they have no effect on control flow. *)

From Stdlib Require Import ZArith String List Bool Lia.
From stdpp Require Import base gmap sets list strings.

Open Scope string_scope.
Open Scope Z_scope.

(** ** Python and JavaScript string primitives *)

(** [pat in s] (Python) and [s.includes(pat)] (JavaScript). *)
Fixpoint contains (pat s : string) : bool :=
  String.prefix pat s ||
  match s with
  | EmptyString => false
  | String _ s' => contains pat s'
  end.

(** [s.startsWith(pat)]. *)
Definition starts_with (pat s : string) : bool := String.prefix pat s.

(** [str.replace(old, new)] for a non-empty [old]: every occurrence,
    left to right, without overlap.  [skip] counts the characters of a
    match that remain to be dropped. *)
Fixpoint replace_from (old new : string) (skip : nat) (s : string) : string :=
  match s with
  | EmptyString => EmptyString
  | String c s' =>
      match skip with
      | S k => replace_from old new k s'
      | O =>
          if String.prefix old s
          then new +:+ replace_from old new (Nat.pred (String.length old)) s'
          else String c (replace_from old new O s')
      end
  end.

Definition str_replace (old new s : string) : string := replace_from old new O s.

(** White space removed by [String.prototype.trim] (the ASCII part). *)
Definition is_space (c : Ascii.ascii) : bool :=
  let n := Ascii.nat_of_ascii c in
  ((9 <=? n) && (n <=? 13))%nat || (n =? 32)%nat.

Fixpoint trim_left (s : string) : string :=
  match s with
  | EmptyString => EmptyString
  | String c s' => if is_space c then trim_left s' else s
  end.

Fixpoint trim_right (s : string) : string :=
  match s with
  | EmptyString => EmptyString
  | String c s' =>
      match trim_right s' with
      | EmptyString => if is_space c then EmptyString else String c EmptyString
      | r => String c r
      end
  end.

Definition trim (s : string) : string := trim_right (trim_left s).

(** Truth value of a string: empty is falsy. *)
Definition nonempty (s : string) : bool :=
  match s with EmptyString => false | _ => true end.

(** [x or default] on an optional integer, string and boolean: [None] and
    the falsy value of the type both give the default. *)
Definition or_int (x : option Z) (d : Z) : Z :=
  match x with
  | Some v => if v =? 0 then d else v
  | None => d
  end.

Definition or_str (x : option string) (d : string) : string :=
  match x with
  | Some v => if nonempty v then v else d
  | None => d
  end.

Definition or_bool (x : option bool) (d : bool) : bool :=
  match x with
  | Some true => true
  | _ => d
  end.

(** ** common/types.py *)

Record SearchResult := mkSearchResult {
  title : string;
  link : string;
  snippet : string
}.

Record SearchResponse := mkSearchResponse {
  query : string;
  results : list SearchResult
}.

Record CommandOptions := mkCommandOptions {
  opt_limit : option Z;
  opt_timeout : option Z;
  opt_state_file : option string;
  opt_no_save_state : option bool;
  opt_locale : option string;
  opt_headless : option bool
}.

(** [CommandOptions()] : every field absent. *)
Definition default_options : CommandOptions :=
  mkCommandOptions None None None None None None.

Record FingerprintConfig := mkFingerprintConfig {
  device_name : string;
  locale : string;
  timezone_id : string;
  color_scheme : string;
  reduced_motion : string;
  forced_colors : string
}.

Record SavedState := mkSavedState {
  fingerprint : option FingerprintConfig;
  google_domain : option string
}.

(** ** JSON values, as [json.load] returns them and [json.dump] takes them *)

Unset Elimination Schemes.
Inductive json :=
| JNull
| JBool (b : bool)
| JNum (n : Z)
| JStr (s : string)
| JArr (items : list json)
| JObj (fields : list (string * json)).
Set Elimination Schemes.

(** Truth value of a loaded value. *)
Definition json_truthy (v : json) : bool :=
  match v with
  | JNull => false
  | JBool b => b
  | JNum n => negb (n =? 0)
  | JStr s => nonempty s
  | JArr items => match items with [] => false | _ => true end
  | JObj fields => match fields with [] => false | _ => true end
  end.

Fixpoint assoc {A} (k : string) (l : list (string * A)) : option A :=
  match l with
  | [] => None
  | (k', v) :: l' => if String.eqb k k' then Some v else assoc k l'
  end.

(** Results of the primitives of the environment and of Python calls:
    a value or an exception with its message. *)
Inductive result (A : Type) :=
| Ok (a : A)
| Exn (msg : string).
Arguments Ok {A} a.
Arguments Exn {A} msg.

(** [d.get(key)] : [None] of Python is [JNull]; only a dict has [get]. *)
Definition dict_get (d : json) (key : string) : result json :=
  match d with
  | JObj fields => Ok (default JNull (assoc key fields))
  | _ => Exn "AttributeError: object has no attribute 'get'"
  end.

(** ** search_executor.py: the block predicate *)

Definition sorry_patterns : list string :=
  [ "google.com/sorry/index";
    "google.com/sorry";
    "recaptcha";
    "captcha";
    "unusual traffic" ].

Definition search_input_selectors : list string :=
  [ "textarea[name='q']";
    "input[name='q']";
    "textarea[title='Search']";
    "input[title='Search']";
    "textarea[aria-label='Search']";
    "input[aria-label='Search']";
    "textarea" ].

Definition search_result_selectors : list string :=
  [ "#search";
    "#rso";
    ".g";
    "[data-sokoban-container]";
    "div[role='main']" ].

(** [any(pattern in url or (response_url and pattern in response_url)
        for pattern in self.sorry_patterns)] *)
Definition is_blocked_page (url : string) (response_url : option string) : bool :=
  existsb
    (fun pattern =>
       contains pattern url ||
       match response_url with
       | Some r => nonempty r && contains pattern r
       | None => false
       end)
    sorry_patterns.

(** ** fingerprint.py *)

Record DeviceDescriptor := mkDevice {
  user_agent : string;
  viewport_width : Z;
  viewport_height : Z;
  device_scale_factor : Z;
  is_mobile : bool;
  has_touch : bool
}.

(** The device table the module defines when Playwright's own table cannot
    be imported. *)
Definition playwright_devices : list (string * DeviceDescriptor) :=
  [ ("Desktop Chrome",
     mkDevice "Mozilla/5.0 (Windows NT 10.0; Win64; x64) AppleWebKit/537.36 (KHTML, like Gecko) Chrome/120.0.0.0 Safari/537.36"
              1920 1080 1 false false);
    ("Desktop Edge",
     mkDevice "Mozilla/5.0 (Windows NT 10.0; Win64; x64) AppleWebKit/537.36 (KHTML, like Gecko) Chrome/120.0.0.0 Safari/537.36 Edg/120.0.0.0"
              1920 1080 1 false false);
    ("Desktop Firefox",
     mkDevice "Mozilla/5.0 (Windows NT 10.0; Win64; x64; rv:120.0) Gecko/20100101 Firefox/120.0"
              1920 1080 1 false false);
    ("Desktop Safari",
     mkDevice "Mozilla/5.0 (Macintosh; Intel Mac OS X 10_15_7) AppleWebKit/605.1.15 (KHTML, like Gecko) Version/17.0 Safari/605.1.15"
              1920 1080 1 false false) ].

(** What the host machine answers: [os.getenv("LANG")], [time.timezone]
    (seconds west of UTC), [datetime.now().hour] and
    [platform.system().lower()]. *)
Record Host := mkHost {
  h_lang : option string;
  h_timezone : Z;
  h_hour : Z;
  h_platform : string
}.

Definition get_host_machine_config (host : Host) (user_locale : option string)
  : FingerprintConfig :=
  let system_locale :=
    match user_locale with
    | Some l => if nonempty l then l else default "zh-CN" (h_lang host)
    | None => default "zh-CN" (h_lang host)
    end in
  let timezone_offset := (- h_timezone host) / 60 in
  let timezone_id :=
    if (-600 <? timezone_offset) && (timezone_offset <=? -480) then "Asia/Shanghai"
    else if timezone_offset <=? -540 then "Asia/Tokyo"
    else if (-480 <? timezone_offset) && (timezone_offset <=? -420) then "Asia/Bangkok"
    else if (-60 <? timezone_offset) && (timezone_offset <=? 0) then "Europe/London"
    else if (0 <? timezone_offset) && (timezone_offset <=? 60) then "Europe/Berlin"
    else if (240 <? timezone_offset) && (timezone_offset <=? 300) then "America/New_York"
    else "Asia/Shanghai" in
  let hour := h_hour host in
  let color_scheme := if (19 <=? hour) || (hour <? 7) then "dark" else "light" in
  let reduced_motion := "no-preference" in
  let forced_colors := "none" in
  let platform_name := h_platform host in
  let device_name := "Desktop Chrome" in
  let device_name :=
    if String.eqb platform_name "darwin" then "Desktop Safari"
    else if String.eqb platform_name "windows" then "Desktop Edge"
    else if String.eqb platform_name "linux" then "Desktop Firefox"
    else device_name in
  let device_name := "Desktop Chrome" in
  mkFingerprintConfig device_name system_locale timezone_id color_scheme
                      reduced_motion forced_colors.

Definition device_list : list string :=
  [ "Desktop Chrome"; "Desktop Edge"; "Desktop Firefox"; "Desktop Safari" ].

(** [random.choice(l)] with the draw [r] of the generator. *)
Definition random_choice (r : nat) (l : list string) : string :=
  nth (r mod List.length l)%nat l EmptyString.

(** [playwright_devices[name]] *)
Definition device_of (name : string) : result DeviceDescriptor :=
  match assoc name playwright_devices with
  | Some d => Ok d
  | None => Exn ("KeyError: " +:+ name)
  end.

Definition get_device_config (saved_state_fingerprint : option FingerprintConfig)
    (r : nat) : result (string * DeviceDescriptor) :=
  let reuse :=
    match saved_state_fingerprint with
    | Some fp =>
        if nonempty (device_name fp) &&
           bool_decide (is_Some (assoc (device_name fp) playwright_devices))
        then Some (device_name fp) else None
    | None => None
    end in
  match reuse with
  | Some name =>
      match device_of name with
      | Ok d => Ok (name, d)
      | Exn m => Exn m
      end
  | None =>
      let random_device := random_choice r device_list in
      match device_of random_device with
      | Ok d => Ok (random_device, d)
      | Exn m => Exn m
      end
  end.

(** ** search_executor.py: the script of [extract_search_results]

    The script runs inside the page.  The document is what its queries
    return: for a container, the element found by a selector; for the
    document, the containers of a selector and the anchors in document
    order. *)

(** The title element [container.querySelector('h3')]: its text, the [href]
    of an anchor inside it, and the [href] of the nearest enclosing element
    with tag [A] when that element is an [HTMLAnchorElement]. *)
Record TitleElement := mkTitle {
  t_text : string;
  t_inner_link : option string;
  t_enclosing_link : option string
}.

Record Container := mkContainer {
  c_title : option TitleElement;
  (** [container.querySelector('a').href] *)
  c_first_link : option string;
  (** [container.querySelector(sel).textContent] *)
  c_text_of : string -> option string;
  (** every [div] below the container: whether it holds an [h3], and its
      text *)
  c_divs : list (bool * string)
}.

Record Anchor := mkAnchor {
  a_href_attr : option string;   (** the [href] attribute as written *)
  a_href : string;               (** the [href] property: the resolved URL *)
  a_text : string;
  a_ancestors : list string      (** text of the parent, of its parent, ... *)
}.

Record Dom := mkDom {
  d_containers : string -> list Container;
  d_anchors : list Anchor
}.

Record RawResult := mkRaw {
  raw_title : string;
  raw_link : string;
  raw_snippet : string
}.

Record SelectorSet := mkSelectors {
  sel_container : string;
  sel_title : string;
  sel_snippet : string
}.

(** A selector [prefix"value"suffix], with the double quotes of the
    script. *)
Definition quoted (before value after : string) : string :=
  before +:+ String (Ascii.ascii_of_nat 34) value +:+
  String (Ascii.ascii_of_nat 34) after.

Definition selectorSets : list SelectorSet :=
  [ mkSelectors "#search div[data-hveid]" "h3" ".VwiC3b";
    mkSelectors "#rso div[data-hveid]" "h3" (quoted "[data-sncf=" "1" "]");
    mkSelectors ".g" "h3" (quoted "div[style*=" "webkit-line-clamp" "]");
    mkSelectors "div[jscontroller][data-hveid]" "h3" (quoted "div[role=" "text" "]") ].

Definition alternativeSnippetSelectors : list string :=
  [ ".VwiC3b";
    quoted "[data-sncf=" "1" "]";
    quoted "div[style*=" "webkit-line-clamp" "]";
    quoted "div[role=" "text" "]" ].

(** The state of the script: [results] in push order and [seenUrls]. *)
Record Scan := mkScan {
  sc_results : list RawResult;
  sc_seen : gset string
}.

Definition scan_push (r : RawResult) (st : Scan) : Scan :=
  mkScan (sc_results st ++ [r]) ({[ raw_link r ]} ∪ sc_seen st).

(** [results.length >= maxResults] *)
Definition reached (maxResults : Z) (st : Scan) : bool :=
  maxResults <=? Z.of_nat (List.length (sc_results st)).

(** The link of a container: inside the title, else around it, else the
    first anchor of the container, else empty. *)
Definition container_link (t : TitleElement) (c : Container) : string :=
  match t_inner_link t with
  | Some h => h
  | None =>
      match t_enclosing_link t with
      | Some h => h
      | None => default EmptyString (c_first_link c)
      end
  end.

(** The first alternative selector that finds an element gives the
    snippet, even an empty one. *)
Fixpoint first_alternative (c : Container) (alts : list string) : string :=
  match alts with
  | [] => EmptyString
  | alt :: rest =>
      match c_text_of c alt with
      | Some t => trim t
      | None => first_alternative c rest
      end
  end.

Definition container_snippet (sel : SelectorSet) (c : Container) : string :=
  match c_text_of c (sel_snippet sel) with
  | Some t => trim t
  | None =>
      let snippet := first_alternative c alternativeSnippetSelectors in
      if nonempty snippet then snippet
      else
        let textNodes :=
          List.filter
            (fun d => negb (fst d) && (20 <? String.length (trim (snd d)))%nat)
            (c_divs c) in
        match textNodes with
        | d :: _ => trim (snd d)
        | [] => snippet
        end
  end.

(** One turn of the loop over the containers (after the limit test). *)
Definition visit_container (sel : SelectorSet) (c : Container) (st : Scan) : Scan :=
  match c_title c with
  | None => st
  | Some titleElement =>
      let title := trim (t_text titleElement) in
      let link := container_link titleElement c in
      if negb (nonempty link) || negb (starts_with "http" link) ||
         bool_decide (link ∈ sc_seen st)
      then st
      else
        let snippet := container_snippet sel c in
        if nonempty title && nonempty link
        then scan_push (mkRaw title link snippet) st
        else st
  end.

Fixpoint scan_containers (maxResults : Z) (sel : SelectorSet)
    (containers : list Container) (st : Scan) : Scan :=
  match containers with
  | [] => st
  | c :: rest =>
      if reached maxResults st then st
      else scan_containers maxResults sel rest (visit_container sel c st)
  end.

Fixpoint scan_selector_sets (maxResults : Z) (dom : Dom)
    (sets : list SelectorSet) (st : Scan) : Scan :=
  match sets with
  | [] => st
  | sel :: rest =>
      if reached maxResults st then st
      else
        scan_selector_sets maxResults dom rest
          (scan_containers maxResults sel (d_containers dom (sel_container sel)) st)
  end.

(** [document.querySelectorAll("a[href^='http']")] *)
Definition http_anchors (dom : Dom) : list Anchor :=
  List.filter
    (fun a => match a_href_attr a with
              | Some h => starts_with "http" h
              | None => false
              end)
    (d_anchors dom).

(** The text of the first of at most three ancestors that is longer than
    20 and differs from the title. *)
Definition anchor_snippet (title : string) (a : Anchor) : string :=
  match List.filter
          (fun text => (20 <? String.length text)%nat && negb (String.eqb text title))
          (List.map trim (firstn 3 (a_ancestors a))) with
  | text :: _ => text
  | [] => EmptyString
  end.

Definition visit_anchor (el : Anchor) (st : Scan) : Scan :=
  let link := a_href el in
  if negb (nonempty link) || bool_decide (link ∈ sc_seen st) ||
     contains "google.com/" link || contains "accounts.google" link ||
     contains "support.google" link
  then st
  else
    let title := trim (a_text el) in
    if negb (nonempty title) then st
    else scan_push (mkRaw title link (anchor_snippet title el)) st.

Fixpoint scan_anchors (maxResults : Z) (anchors : list Anchor) (st : Scan) : Scan :=
  match anchors with
  | [] => st
  | el :: rest =>
      if reached maxResults st then st
      else scan_anchors maxResults rest (visit_anchor el st)
  end.

(** [results.slice(0, maxResults)]: a negative end counts from the back. *)
Definition js_slice_to {A} (l : list A) (n : Z) : list A :=
  if n <? 0 then firstn (Z.to_nat (Z.of_nat (List.length l) + n)) l
  else firstn (Z.to_nat n) l.

Definition scan_document (maxResults : Z) (dom : Dom) : Scan :=
  let st := scan_selector_sets maxResults dom selectorSets (mkScan [] ∅) in
  if Z.of_nat (List.length (sc_results st)) <? maxResults
  then scan_anchors maxResults (http_anchors dom) st
  else st.

(** The value of the script for [maxResults] on a document. *)
Definition extract_script (maxResults : Z) (dom : Dom) : list RawResult :=
  js_slice_to (sc_results (scan_document maxResults dom)) maxResults.

Definition convert_to_search_results (raw_results : list RawResult)
  : list SearchResult :=
  List.map (fun r => mkSearchResult (raw_title r) (raw_link r) (raw_snippet r))
           raw_results.

(** ** The environment and the monad of the orchestration *)

(** A file on disk: JSON text, given by the value it loads to, or text that
    [json.load] rejects. *)
Inductive file :=
| FJson (v : json)
| FText (s : string).

(** The options handed to [browser.new_context]. *)
Record ContextOptions := mkContextOptions {
  co_device : DeviceDescriptor;
  co_locale : string;
  co_timezone_id : string;
  co_color_scheme : string;
  co_reduced_motion : string;
  co_forced_colors : string;
  co_is_mobile : bool;
  co_has_touch : bool;
  co_storage_state : option string
}.

(** What the browser answers during one run of
    [_perform_search_with_browser].  Closing a page, a context or a browser
    and the timers ([wait_for_timeout]) always return. *)
Record Attempt := mkAttempt {
  e_launch : result unit;                    (** [chromium.launch] *)
  e_random_device : nat;                     (** draw of [random.choice(device_list)] *)
  e_new_context : result unit;               (** [browser.new_context], [add_init_script] *)
  e_new_page : result unit;                  (** [context.new_page], [add_init_script] *)
  e_random_domain : nat;                     (** draw of [random.choice(google_domains)] *)
  e_goto : result (string * option string);  (** [page.url] and [response.url] after [goto] *)
  e_wait_for_url_nav : result unit;          (** [wait_for_url] after navigation *)
  e_find_input : string -> result bool;      (** [wait_for_selector] of an input: found or not *)
  e_type_query : result unit;                (** click, fill, type *)
  e_press_enter : result string;             (** [page.url] after Enter and load *)
  e_click_button : result (option string);   (** no button, or [page.url] after the click *)
  e_submit_form : result (option string);    (** no form, or [page.url] after the submit *)
  e_url_after_submit : string;               (** [page.url] at the end of [execute_search] *)
  e_load_state : result unit;                (** [wait_for_load_state] after the query *)
  e_search_url : string;                     (** [page.url] after the query *)
  e_wait_for_url_search : result unit;       (** [wait_for_url] after the query *)
  e_wait_selector : string -> nat -> Z -> result unit;
                                             (** selector, round, timeout: visible in time or not *)
  e_results_url : string;                    (** [page.url] when no selector was found *)
  e_evaluate : result Dom;                   (** [page.evaluate]: the document the script sees *)
  e_storage_state : result json;             (** [context.storage_state(path)]: what it writes *)
  e_write_sidecar : result unit              (** [open] and [json.dump] of the sidecar *)
}.

Record Env := mkEnv {
  env_host : Host;
  env_attempt : nat -> Attempt
}.

(** The four steps of a search named by the specification. *)
Inductive step := Navigate | ExecuteQuery | WaitResults | Extract.

Inductive event :=
| EvStartPlaywright
| EvLaunch (headless : bool) (timeout : Z)
| EvNewContext (opts : ContextOptions)
| EvNewPage
| EvGoto (url : string) (timeout : Z)
| EvWaitForUrl (timeout : Z)
| EvFindInput (selector : string)
| EvTypeQuery (q : string)
| EvPressEnter
| EvClickButton
| EvSubmitForm
| EvWaitLoadState (timeout : Z)
| EvWaitSelector (selector : string) (timeout : Z)
| EvPause (ms : Z)
| EvEvaluate (maxResults : Z)
| EvStorageState (path : string)
| EvWriteSidecar (path : string) (data : json)
| EvClosePage
| EvCloseContext
| EvCloseBrowser
| EvStopPlaywright
| EvRestart                           (** [restart_callback()] is called *)
| EvFailed (s : step) (msg : string)  (** the step raised [msg] *).

Record World := mkWorld {
  w_saved : SavedState;         (** the one [SavedState] object of the call *)
  w_files : gmap string file;
  w_trace : list event
}.

(** A computation: [None] when the fuel of a loop ran out, else a value or
    an exception, and the state it leaves. *)
Definition M (A : Type) : Type := World -> option (result A * World).

Definition ret {A} (a : A) : M A := fun w => Some (Ok a, w).

Definition raise {A} (msg : string) : M A := fun w => Some (Exn msg, w).

Definition out_of_fuel {A} : M A := fun _ => None.

Definition bind {A B} (m : M A) (f : A -> M B) : M B :=
  fun w =>
    match m w with
    | Some (Ok a, w') => f a w'
    | Some (Exn msg, w') => Some (Exn msg, w')
    | None => None
    end.

Declare Scope prog_scope.
Delimit Scope prog_scope with prog.
Notation "x <- m ;; k" := (bind m (fun x => k))
  (at level 100, m at next level, right associativity) : prog_scope.
Notation "m ;; k" := (bind m (fun _ => k))
  (at level 100, right associativity) : prog_scope.
Open Scope prog_scope.

(** [try: m except Exception as e: handler(e)] *)
Definition try_catch {A} (m : M A) (handler : string -> M A) : M A :=
  fun w =>
    match m w with
    | Some (Exn msg, w') => handler msg w'
    | r => r
    end.

(** [try: m finally: cleanup] *)
Definition finally {A} (m : M A) (cleanup : M unit) : M A :=
  fun w =>
    match m w with
    | Some (r, w') =>
        match cleanup w' with
        | Some (Ok _, w'') => Some (r, w'')
        | Some (Exn msg, w'') => Some (Exn msg, w'')
        | None => None
        end
    | None => None
    end.

(** The answer of the environment to a call. *)
Definition call {A} (r : result A) : M A := fun w => Some (r, w).

Definition emit (ev : event) : M unit :=
  fun w => Some (Ok tt, mkWorld (w_saved w) (w_files w) (w_trace w ++ [ev])).

Definition get_saved : M SavedState := fun w => Some (Ok (w_saved w), w).

Definition set_saved (s : SavedState) : M unit :=
  fun w => Some (Ok tt, mkWorld s (w_files w) (w_trace w)).

Definition get_files : M (gmap string file) := fun w => Some (Ok (w_files w), w).

Definition write_file (path : string) (f : file) : M unit :=
  fun w => Some (Ok tt, mkWorld (w_saved w) (<[path := f]> (w_files w)) (w_trace w)).

(** A step of the search: its failure is recorded in the trace before it
    propagates.  The record only serves the properties; the code has no
    such call. *)
Definition in_step {A} (s : step) (m : M A) : M A :=
  try_catch m (fun msg => emit (EvFailed s msg) ;; raise msg).

(** ** search_executor.py: [execute_search] and [wait_for_search_results] *)

(** The loop over [search_input_selectors]: an exception of
    [wait_for_selector] moves on to the next selector. *)
Fixpoint find_search_input (e : Attempt) (selectors : list string) : M bool :=
  match selectors with
  | [] => ret false
  | selector :: rest =>
      emit (EvFindInput selector) ;;
      match e_find_input e selector with
      | Ok true => ret true
      | _ => find_search_input e rest
      end
  end.

(** One way of submitting: [Ok (Some url)] leaves the page at [url], which
    counts when it is not blocked; anything else does not count. *)
Definition submitted (r : result (option string)) : bool :=
  match r with
  | Ok (Some current_url) => negb (is_blocked_page current_url None)
  | _ => false
  end.

Definition execute_search (e : Attempt) (query : string) : M bool :=
  search_input <- find_search_input e search_input_selectors ;;
  if negb search_input then raise "无法找到搜索框"
  else
    emit (EvTypeQuery query) ;;
    call (e_type_query e) ;;
    emit EvPressEnter ;;
    let search_executed :=
      submitted (match e_press_enter e with
                 | Ok u => Ok (Some u)
                 | Exn m => Exn m
                 end) in
    search_executed <-
      (if negb search_executed
       then emit EvClickButton ;; ret (submitted (e_click_button e))
       else ret search_executed) ;;
    search_executed <-
      (if negb search_executed
       then emit EvSubmitForm ;; ret (submitted (e_submit_form e))
       else ret search_executed) ;;
    if negb search_executed then
      let final_url := e_url_after_submit e in
      if is_blocked_page final_url None
      then raise "所有搜索执行方式都遇到了人机验证页面"
      else raise "所有搜索执行方式都失败了"
    else ret true.

Definition max_attempts : Z := 3.

(** The [while attempts < max_attempts] loop for one selector.  It returns
    whether the selector was found, and raises the last error when the
    last round fails. *)
Fixpoint selector_rounds (fuel : nat) (e : Attempt) (selector : string)
    (attempts selector_timeout : Z) : M bool :=
  if attempts <? max_attempts then
    match fuel with
    | O => out_of_fuel
    | S fuel' =>
        emit (EvWaitSelector selector selector_timeout) ;;
        match e_wait_selector e selector (Z.to_nat attempts) selector_timeout with
        | Ok _ => ret true
        | Exn msg =>
            let attempts := attempts + 1 in
            if max_attempts <=? attempts then raise msg
            else
              let selector_timeout := Z.min (selector_timeout * 2) 15000 in
              emit (EvPause 1000) ;;
              selector_rounds fuel' e selector attempts selector_timeout
        end
    end
  else ret false.

(** The loop over [search_result_selectors]: the error of a selector is
    kept for the log and the next selector is tried. *)
Fixpoint wait_selectors (e : Attempt) (selectors : list string) : M bool :=
  match selectors with
  | [] => ret false
  | selector :: rest =>
      results_found <-
        try_catch (selector_rounds (Z.to_nat max_attempts) e selector 0 5000)
                  (fun _ => ret false) ;;
      if results_found then ret true else wait_selectors e rest
  end.

Definition wait_for_search_results (e : Attempt) (timeout : Z) : M bool :=
  results_found <- wait_selectors e search_result_selectors ;;
  if negb results_found then
    let current_url := e_results_url e in
    let is_blocked_during_results := is_blocked_page current_url None in
    if is_blocked_during_results
    then raise "检测到人机验证页面"
    else raise "无法找到搜索结果元素"
  else ret true.

Definition extract_search_results (e : Attempt) (limit : Z) : M (list RawResult) :=
  emit (EvEvaluate limit) ;;
  dom <- call (e_evaluate e) ;;
  ret (extract_script limit dom).

(** ** browser_manager.py *)

Definition google_domains : list string :=
  [ "https://www.google.com";
    "https://www.google.co.uk";
    "https://www.google.ca";
    "https://www.google.com.au" ].

Definition launch_browser (e : Attempt) (headless : bool) (timeout : Z) : M unit :=
  emit EvStartPlaywright ;;
  emit (EvLaunch headless (timeout * 2)) ;;
  call (e_launch e).

Definition context_options (d : DeviceDescriptor) (fp : FingerprintConfig)
    (storage : option string) : ContextOptions :=
  mkContextOptions d (locale fp) (timezone_id fp) (color_scheme fp)
                   (reduced_motion fp) (forced_colors fp) false false storage.

Definition create_context (host : Host) (e : Attempt) (state_file : string)
    (locale : string) : M unit :=
  saved_state <- get_saved ;;
  dc <- call (get_device_config (fingerprint saved_state) (e_random_device e)) ;;
  let device_name' := fst dc in
  let device_config := snd dc in
  files <- get_files ;;
  let storage :=
    if nonempty state_file && bool_decide (is_Some (files !! state_file))
    then Some state_file else None in
  opts <-
    match fingerprint saved_state with
    | Some fp => ret (context_options device_config fp storage)
    | None =>
        let host_config := get_host_machine_config host (Some locale) in
        let device_config :=
          if negb (String.eqb (device_name host_config) device_name')
          then default device_config (assoc (device_name host_config) playwright_devices)
          else device_config in
        set_saved (mkSavedState (Some host_config) (google_domain saved_state)) ;;
        ret (context_options device_config host_config storage)
    end ;;
  emit (EvNewContext opts) ;;
  call (e_new_context e).

Definition create_page (e : Attempt) : M unit :=
  emit EvNewPage ;;
  call (e_new_page e).

Definition get_google_domain (e : Attempt) : M string :=
  saved_state <- get_saved ;;
  let saved :=
    match google_domain saved_state with
    | Some d => if nonempty d then Some d else None
    | None => None
    end in
  match saved with
  | Some selected_domain => ret selected_domain
  | None =>
      let selected_domain := random_choice (e_random_domain e) google_domains in
      set_saved (mkSavedState (fingerprint saved_state) (Some selected_domain)) ;;
      ret selected_domain
  end.

(** The dictionary written to the sidecar. *)
Definition fingerprint_data (saved_state : SavedState) : json :=
  JObj
    [ ("fingerprint",
       match fingerprint saved_state with
       | Some fp =>
           JObj [ ("device_name", JStr (device_name fp));
                  ("locale", JStr (locale fp));
                  ("timezone_id", JStr (timezone_id fp));
                  ("color_scheme", JStr (color_scheme fp));
                  ("reduced_motion", JStr (reduced_motion fp));
                  ("forced_colors", JStr (forced_colors fp)) ]
       | None => JNull
       end);
      ("google_domain",
       match google_domain saved_state with
       | Some d => JStr d
       | None => JNull
       end) ].

(** [context.storage_state(path=state_file)], after the directory is made. *)
Definition storage_state (e : Attempt) (state_file : string) : M unit :=
  emit (EvStorageState state_file) ;;
  blob <- call (e_storage_state e) ;;
  write_file state_file (FJson blob).

(** [open(fingerprint_file, 'w')] and [json.dump(fingerprint_data, f)]; a
    failure leaves the file as it was. *)
Definition dump_fingerprint (e : Attempt) (fingerprint_file : string) : M unit :=
  saved_state <- get_saved ;;
  let data := fingerprint_data saved_state in
  emit (EvWriteSidecar fingerprint_file data) ;;
  call (e_write_sidecar e) ;;
  write_file fingerprint_file (FJson data).

Definition save_browser_state (e : Attempt) (state_file fingerprint_file : string)
    (no_save_state : bool) : M unit :=
  try_catch
    (if negb no_save_state then
       storage_state e state_file ;;
       try_catch (dump_fingerprint e fingerprint_file) (fun _ => ret tt)
     else ret tt)
    (fun _ => ret tt).

Definition fingerprint_fields : list string :=
  [ "device_name"; "locale"; "timezone_id"; "color_scheme"; "reduced_motion";
    "forced_colors" ].

Definition str_field (fields : list (string * json)) (k : string) : result string :=
  match assoc k fields with
  | Some (JStr s) => Ok s
  | Some _ => Exn ("TypeError: field is not a str: " +:+ k)
  | None => Exn ("TypeError: missing required argument: " +:+ k)
  end.

Definition result_bind {A B} (r : result A) (f : A -> result B) : result B :=
  match r with
  | Ok a => f a
  | Exn m => Exn m
  end.

(** [FingerprintConfig] called with the keyword dictionary [d]: [d] is a
    dictionary whose keys are the six fields, all of them.  A value that is not a string has no counterpart
    in the declared field type; the model raises there. *)
Definition FingerprintConfig_of (d : json) : result FingerprintConfig :=
  match d with
  | JObj fields =>
      if forallb (fun kv => bool_decide (fst kv ∈ fingerprint_fields)) fields then
        result_bind (str_field fields "device_name") (fun device_name =>
        result_bind (str_field fields "locale") (fun locale =>
        result_bind (str_field fields "timezone_id") (fun timezone_id =>
        result_bind (str_field fields "color_scheme") (fun color_scheme =>
        result_bind (str_field fields "reduced_motion") (fun reduced_motion =>
        result_bind (str_field fields "forced_colors") (fun forced_colors =>
        Ok (mkFingerprintConfig device_name locale timezone_id color_scheme
                                reduced_motion forced_colors)))))))
      else Exn "TypeError: unexpected keyword argument"
  | _ => Exn "TypeError: keyword argument must be a mapping"
  end.

(** The [SavedState] built from the loaded sidecar.  As for the fields of
    the fingerprint, a domain that is neither a string nor null has no
    counterpart in the declared type; the model raises there. *)
Definition saved_state_of (fingerprint_data : json) : result SavedState :=
  result_bind (dict_get fingerprint_data "fingerprint") (fun fp =>
  result_bind (if json_truthy fp
               then result_bind (FingerprintConfig_of fp) (fun c => Ok (Some c))
               else Ok None) (fun fingerprint =>
  result_bind (dict_get fingerprint_data "google_domain") (fun d =>
  match d with
  | JNull => Ok (mkSavedState fingerprint None)
  | JStr s => Ok (mkSavedState fingerprint (Some s))
  | _ => Exn "TypeError: google_domain is not a str"
  end))).

(** [json.load] of a file. *)
Definition json_load (f : file) : result json :=
  match f with
  | FJson v => Ok v
  | FText _ => Exn "JSONDecodeError"
  end.

Definition load_saved_state (files : gmap string file) (state_file : string)
  : option string * SavedState * string :=
  let saved_state := mkSavedState None None in
  let fingerprint_file := str_replace ".json" "-fingerprint.json" state_file in
  match files !! state_file with
  | Some _ =>
      let storage_state := Some state_file in
      match files !! fingerprint_file with
      | Some f =>
          match result_bind (json_load f) saved_state_of with
          | Ok loaded => (storage_state, loaded, fingerprint_file)
          | Exn _ => (storage_state, saved_state, fingerprint_file)
          end
      | None => (storage_state, saved_state, fingerprint_file)
      end
  | None => (None, saved_state, fingerprint_file)
  end.

(** ** engine.py *)

(** The response of the [except] branch of [_perform_search_with_browser]. *)
Definition failure_response (query error : string) : SearchResponse :=
  mkSearchResponse query
    [ mkSearchResult "搜索失败" "" ("无法完成搜索，错误信息: " +:+ error) ].

(** [safe_close_browser(browser)] unless the caller supplied the browser. *)
Definition close_own_browser (browser_was_provided : bool) : M unit :=
  if negb browser_was_provided then emit EvCloseBrowser else ret tt.

(** From [wait_for_search_results] to the response. *)
Definition finish_search (e : Attempt) (query : string) (limit timeout : Z)
    (state_file : string) (no_save_state : bool) (fingerprint_file : string)
    (browser_was_provided : bool) : M SearchResponse :=
  in_step WaitResults (wait_for_search_results e timeout) ;;
  raw_results <- in_step Extract (extract_search_results e limit) ;;
  let search_results := convert_to_search_results raw_results in
  save_browser_state e state_file fingerprint_file no_save_state ;;
  close_own_browser browser_was_provided ;;
  ret (mkSearchResponse query search_results).

(** From [execute_search] on: the query, the second block test, the
    results. *)
Definition search_after_navigation (e : Attempt) (query : string) (limit timeout : Z)
    (state_file : string) (no_save_state : bool) (fingerprint_file : string)
    (headless browser_was_provided : bool) (restart_callback : M SearchResponse)
  : M SearchResponse :=
  in_step ExecuteQuery (execute_search e query) ;;
  emit (EvWaitLoadState timeout) ;;
  call (e_load_state e) ;;
  let search_url := e_search_url e in
  if is_blocked_page search_url None then
    if headless then
      emit EvClosePage ;;
      emit EvCloseContext ;;
      close_own_browser browser_was_provided ;;
      emit EvRestart ;;
      restart_callback
    else
      emit (EvWaitForUrl (timeout * 2)) ;;
      call (e_wait_for_url_search e) ;;
      finish_search e query limit timeout state_file no_save_state
                    fingerprint_file browser_was_provided
  else
    finish_search e query limit timeout state_file no_save_state
                  fingerprint_file browser_was_provided.

(** The [try] block once the context exists. *)
Definition search_with_context (e : Attempt) (query : string) (limit timeout : Z)
    (state_file : string) (no_save_state : bool) (fingerprint_file : string)
    (headless browser_was_provided : bool) (restart_callback : M SearchResponse)
  : M SearchResponse :=
  create_page e ;;
  selected_domain <- get_google_domain e ;;
  response <- in_step Navigate (emit (EvGoto selected_domain timeout) ;; call (e_goto e)) ;;
  let current_url := fst response in
  let is_blocked := is_blocked_page current_url (snd response) in
  if is_blocked then
    if headless then
      emit EvClosePage ;;
      emit EvCloseContext ;;
      if browser_was_provided then raise "需要以有头模式重新启动"
      else
        emit EvCloseBrowser ;;
        emit EvRestart ;;
        restart_callback
    else
      emit (EvWaitForUrl (timeout * 2)) ;;
      call (e_wait_for_url_nav e) ;;
      search_after_navigation e query limit timeout state_file no_save_state
                              fingerprint_file headless browser_was_provided
                              restart_callback
  else
    search_after_navigation e query limit timeout state_file no_save_state
                            fingerprint_file headless browser_was_provided
                            restart_callback.

(** The [except] branch: a last attempt to save, whose own failures are
    dropped, then the failure response.  [context] is unbound when
    [create_context] raised, and using it raises in turn. *)
Definition on_search_error (e : Attempt) (query : string) (state_file : string)
    (no_save_state : bool) (fingerprint_file : string)
    (browser_was_provided context_bound : bool) (error : string)
  : M SearchResponse :=
  try_catch
    (if negb no_save_state then
       (if context_bound then storage_state e state_file
        else raise "NameError: context") ;;
       try_catch (dump_fingerprint e fingerprint_file) (fun _ => ret tt)
     else ret tt)
    (fun _ => ret tt) ;;
  close_own_browser browser_was_provided ;;
  ret (failure_response query error).

Definition _perform_search_with_browser (host : Host) (e : Attempt)
    (query : string) (limit timeout : Z) (state_file : string)
    (no_save_state : bool) (locale : string) (fingerprint_file : string)
    (headless browser_was_provided : bool) (restart_callback : M SearchResponse)
  : M SearchResponse :=
  try_catch
    (create_context host e state_file locale ;;
     try_catch
       (search_with_context e query limit timeout state_file no_save_state
                            fingerprint_file headless browser_was_provided
                            restart_callback)
       (on_search_error e query state_file no_save_state fingerprint_file
                        browser_was_provided true))
    (on_search_error e query state_file no_save_state fingerprint_file
                     browser_was_provided false).

(** [attempt] numbers the runs of the call: the environment answers the
    first run with [env_attempt env 0], a restart with the next one.  The
    recursion through [restart_callback] is bounded by [fuel]. *)
Fixpoint _perform_search_internal (fuel : nat) (env : Env) (attempt : nat)
    (query : string) (limit timeout : Z) (state_file : string)
    (no_save_state : bool) (locale : string) (fingerprint_file : string)
    (headless existing_browser : bool) : M SearchResponse :=
  match fuel with
  | O => out_of_fuel
  | S fuel' =>
      let e := env_attempt env attempt in
      let restart_callback :=
        _perform_search_internal fuel' env (S attempt) query limit timeout
          state_file no_save_state locale fingerprint_file false false in
      if existing_browser then
        try_catch
          (_perform_search_with_browser (env_host env) e query limit timeout
             state_file no_save_state locale fingerprint_file headless true
             restart_callback)
          (fun error => raise error)
      else
        emit EvStartPlaywright ;;
        finally
          (launch_browser e headless timeout ;;
           finally
             (_perform_search_with_browser (env_host env) e query limit timeout
                state_file no_save_state locale fingerprint_file headless false
                restart_callback)
             (emit EvCloseBrowser))
          (emit EvStopPlaywright)
  end.

(** The options after defaulting, as [google_search] computes them. *)
Definition effective_limit (options : CommandOptions) : Z :=
  or_int (opt_limit options) 10.

Definition effective_timeout (options : CommandOptions) : Z :=
  or_int (opt_timeout options) 60000.

Definition effective_state_file (options : CommandOptions) : string :=
  or_str (opt_state_file options) "./browser-state.json".

Definition effective_no_save_state (options : CommandOptions) : bool :=
  or_bool (opt_no_save_state options) false.

Definition effective_locale (options : CommandOptions) : string :=
  or_str (opt_locale options) "zh-CN".

(** [google_search(query, options, existing_browser)] on the files [files]:
    the result, and the world it leaves.  The caller's [headless] option is
    ignored: the first run is headless.  [fuel] bounds the recursion of
    [_perform_search_internal]; [search_fuel] is enough for every call. *)
Definition google_search (fuel : nat) (env : Env) (files : gmap string file)
    (query : string) (options : option CommandOptions) (existing_browser : bool)
  : option (result SearchResponse * World) :=
  let options := default default_options options in
  let limit := effective_limit options in
  let timeout := effective_timeout options in
  let state_file := effective_state_file options in
  let no_save_state := effective_no_save_state options in
  let locale := effective_locale options in
  let use_headless := true in
  let loaded := load_saved_state files state_file in
  let saved_state := snd (fst loaded) in
  let fingerprint_file := snd loaded in
  _perform_search_internal fuel env 0 query limit timeout state_file
    no_save_state locale fingerprint_file use_headless existing_browser
    (mkWorld saved_state files []).

(** The recursion depth a call can reach: the headless run and one
    restart. *)
Definition search_fuel : nat := 2.

(** ** Observations on traces *)

Definition is_restart (ev : event) : bool :=
  match ev with EvRestart => true | _ => false end.

Definition is_headful_launch (ev : event) : bool :=
  match ev with EvLaunch false _ => true | _ => false end.

(** How often the run restarted itself, and how often it launched a
    headful browser. *)
Definition relaunches (tr : list event) : nat :=
  List.length (List.filter is_restart tr).

Definition headful_launches (tr : list event) : nat :=
  List.length (List.filter is_headful_launch tr).

(** The timeouts of the waits on [selector], in order. *)
Fixpoint selector_timeouts (selector : string) (tr : list event) : list Z :=
  match tr with
  | [] => []
  | EvWaitSelector s t :: rest =>
      if String.eqb s selector then t :: selector_timeouts selector rest
      else selector_timeouts selector rest
  | _ :: rest => selector_timeouts selector rest
  end.

(** ** Notions used to state the properties *)

(** [pat] occurs in [s]. *)
Definition substring_of (pat s : string) : Prop :=
  exists before after, s = before +:+ pat +:+ after.

(** The options with another limit and timeout. *)
Definition with_limit_timeout (o : CommandOptions) (l t : option Z) : CommandOptions :=
  mkCommandOptions l t (opt_state_file o) (opt_no_save_state o) (opt_locale o)
                   (opt_headless o).

(** An option that is absent ([true]) or zero ([false]). *)
Definition absent_or_zero (absent : bool) : option Z :=
  if absent then None else Some 0.

(** The events a computation added to the trace of [w]. *)
Definition new_events (w w' : World) : list event :=
  drop (List.length (w_trace w)) (w_trace w').

(** The world with more events. *)
Definition add_events (w : World) (evs : list event) : World :=
  mkWorld (w_saved w) (w_files w) (w_trace w ++ evs).

(** The world a call starts in. *)
Definition initial_world (files : gmap string file) (options : option CommandOptions)
  : World :=
  mkWorld
    (snd (fst (load_saved_state files
                 (effective_state_file (default default_options options)))))
    files [].

(** The sidecar path of a state file. *)
Definition sidecar_path (state_file : string) : string :=
  str_replace ".json" "-fingerprint.json" state_file.

(** The browser resolves an [href] attribute that begins with http to a
    URL that begins with http. *)
Definition resolves_http (dom : Dom) : Prop :=
  forall el h,
    In el (d_anchors dom) -> a_href_attr el = Some h ->
    starts_with "http" h = true -> starts_with "http" (a_href el) = true.

(** Every link is non-empty and begins with http, and no two results
    share a link. *)
Definition links_wellformed (resp : SearchResponse) : Prop :=
  Forall (fun r => nonempty (link r) = true /\ starts_with "http" (link r) = true)
         (results resp) /\
  NoDup (List.map link (results resp)).

(** The fingerprint names Desktop Chrome. *)
Definition is_chrome : FingerprintConfig -> Prop :=
  fun fp => device_name fp = "Desktop Chrome".

(** The dictionary of a sidecar records Desktop Chrome as its device. *)
Definition records_chrome (data : json) : Prop :=
  exists fpv,
    dict_get data "fingerprint" = Ok fpv /\
    dict_get fpv "device_name" = Ok (JStr "Desktop Chrome").

(** ** The script as a scan of candidates

    What a container or an anchor offers does not depend on the state of
    the scan; the state only decides whether the offer is taken. *)

Definition container_candidate (sel : SelectorSet) (c : Container) : option RawResult :=
  match c_title c with
  | None => None
  | Some titleElement =>
      let title := trim (t_text titleElement) in
      let link := container_link titleElement c in
      if nonempty link && starts_with "http" link && nonempty title
      then Some (mkRaw title link (container_snippet sel c))
      else None
  end.

Definition anchor_candidate (el : Anchor) : option RawResult :=
  let link := a_href el in
  let title := trim (a_text el) in
  if nonempty link && nonempty title &&
     negb (contains "google.com/" link || contains "accounts.google" link ||
           contains "support.google" link)
  then Some (mkRaw title link (anchor_snippet title el))
  else None.

(** A candidate is taken unless its link was seen. *)
Definition offer (o : option RawResult) (st : Scan) : Scan :=
  match o with
  | Some r => if bool_decide (raw_link r ∈ sc_seen st) then st else scan_push r st
  | None => st
  end.

Fixpoint scan_offers (maxResults : Z) (offers : list (option RawResult))
    (st : Scan) : Scan :=
  match offers with
  | [] => st
  | o :: rest =>
      if reached maxResults st then st
      else scan_offers maxResults rest (offer o st)
  end.

(** The candidates of a document in the order the script meets them. *)
Definition structural_offers (dom : Dom) (sets : list SelectorSet)
  : list (option RawResult) :=
  flat_map
    (fun sel => List.map (container_candidate sel)
                         (d_containers dom (sel_container sel)))
    sets.

Definition document_offers (dom : Dom) : list (option RawResult) :=
  structural_offers dom selectorSets ++ List.map anchor_candidate (http_anchors dom).

Definition discovery_order (dom : Dom) : list RawResult :=
  omap id (document_offers dom).

(** The links of the results are distinct and all in [seenUrls]. *)
Definition scan_inv (st : Scan) : Prop :=
  NoDup (List.map raw_link (sc_results st)) /\
  forall r, r ∈ sc_results st -> raw_link r ∈ sc_seen st.

(** ** What a run adds to the trace *)

(** The messages of the failed steps of a trace. *)
Fixpoint fail_msgs (evs : list event) : list string :=
  match evs with
  | [] => []
  | EvFailed _ msg :: rest => msg :: fail_msgs rest
  | _ :: rest => fail_msgs rest
  end.

(** Events of the browser that are neither a restart, a launch, a failed
    step nor a write of the sidecar. *)
Definition quiet_event (ev : event) : bool :=
  match ev with
  | EvRestart | EvFailed _ _ | EvWriteSidecar _ _ | EvLaunch _ _ => false
  | _ => true
  end.

(** The sidecar is written from a state whose fingerprint satisfies [G]. *)
Definition sidecar_ok (G : FingerprintConfig -> Prop) (ev : event) : Prop :=
  match ev with
  | EvWriteSidecar _ data =>
      exists st fp, data = fingerprint_data st /\ fingerprint st = Some fp /\ G fp
  | _ => True
  end.

(** Events that change nothing for the properties below. *)
Definition calm (G : FingerprintConfig -> Prop) (evs : list event) : Prop :=
  relaunches evs = 0%nat /\ headful_launches evs = 0%nat /\
  fail_msgs evs = [] /\ Forall (sidecar_ok G) evs.

(** The state holds a fingerprint, and it satisfies [G]. *)
Definition fp_some (G : FingerprintConfig -> Prop) (w : World) : Prop :=
  exists fp, fingerprint (w_saved w) = Some fp /\ G fp.

(** The fingerprint of the state, if any, satisfies [G]. *)
Definition fp_inv (G : FingerprintConfig -> Prop) (w : World) : Prop :=
  forall fp, fingerprint (w_saved w) = Some fp -> G fp.

(** No condition on the fingerprint. *)
Definition any_fp : FingerprintConfig -> Prop := fun _ => True.

(** A response is the failure response, or the records the script found
    in the document of one of the runs. *)
Definition shape (query : string) (limit : Z) (env : Env) (resp : SearchResponse)
  : Prop :=
  (exists msg, resp = failure_response query msg) \/
  (exists k dom,
      e_evaluate (env_attempt env k) = Ok dom /\
      resp = mkSearchResponse query
               (convert_to_search_results (extract_script limit dom))).

(** What a run of the search may add to the trace, and its result: at most
    [nr] restarts and [nl] headful launches; a failed step decides the
    result. *)
Definition outcome_ok (G : FingerprintConfig -> Prop) (query : string) (limit : Z)
    (env : Env) (nr nl : nat) (evs : list event) (r : result SearchResponse)
  : Prop :=
  (relaunches evs <= nr)%nat /\ (headful_launches evs <= nl)%nat /\
  Forall (sidecar_ok G) evs /\
  match r with
  | Ok resp =>
      Forall (fun msg => resp = failure_response query msg) (fail_msgs evs) /\
      shape query limit env resp
  | Exn m => Forall (fun msg => m = msg) (fail_msgs evs)
  end.

Definition quiet {A} (m : M A) : Prop :=
  forall w, exists r evs,
    m w = Some (r, add_events w evs) /\ forallb quiet_event evs = true.

(** [m], started in a world that satisfies [P], returns; [Q] relates the
    events it added, its result and the world it leaves. *)
Definition runs {A} (P : World -> Prop) (m : M A)
    (Q : list event -> result A -> World -> Prop) : Prop :=
  forall w, P w ->
    exists r evs w',
      m w = Some (r, w') /\ w_trace w' = (w_trace w ++ evs)%list /\ Q evs r w'.

(** ** Concrete pages *)

(** A run whose launch, context and page succeed; the arguments give the
    navigation, the search input, the URL after the query, the visibility
    of the result selectors, the URL when none was found, and the
    document.  The query is submitted with Enter. *)
Definition page (goto : result (string * option string))
    (input : string -> result bool) (search_url : string)
    (visible : string -> nat -> Z -> result unit) (results_url : string)
    (document : result Dom) : Attempt :=
  mkAttempt (Ok tt) 0 (Ok tt) (Ok tt) 0 goto (Ok tt)
    input (Ok tt)
    (Ok "https://www.google.com/search?q=test") (Ok None) (Ok None)
    "https://www.google.com/search?q=test" (Ok tt)
    search_url (Ok tt) visible results_url document (Ok JNull) (Ok tt).

(** A page where no selector ever becomes visible. *)
Definition never_visible : Attempt :=
  mkAttempt (Ok tt) 0 (Ok tt) (Ok tt) 0
    (Ok ("https://www.google.com/", None)) (Ok tt)
    (fun _ => Ok true) (Ok tt)
    (Ok "https://www.google.com/search?q=test") (Ok None) (Ok None)
    "https://www.google.com/search?q=test" (Ok tt)
    "https://www.google.com/search?q=test" (Ok tt)
    (fun _ _ _ => Exn "Timeout exceeded")
    "https://www.google.com/search?q=test"
    (Exn "not reached") (Ok JNull) (Ok tt).

Definition a_host : Host := mkHost (Some "en_US.UTF-8") (-28800) 10 "linux".

Definition result_container (t l : string) : Container :=
  mkContainer (Some (mkTitle t (Some l) None)) (Some l) (fun _ => None) [].

(** A results page with two results. *)
Definition two_results : Dom :=
  mkDom (fun sel =>
           if String.eqb sel "#search div[data-hveid]"
           then [ result_container "Rust ownership" "https://doc.rust-lang.org/book/";
                  result_container "Ownership model" "https://example.org/ownership" ]
           else [])
        [].

Definition home : result (string * option string) :=
  Ok ("https://www.google.com/", Some "https://www.google.com/").

Definition results_url_ok : string := "https://www.google.com/search?q=test".

Definition sorry_url : string := "https://www.google.com/sorry/index?continue=x".

Definition found : string -> result bool := fun _ => Ok true.

Definition visible_at_once : string -> nat -> Z -> result unit := fun _ _ _ => Ok tt.

Definition never : string -> nat -> Z -> result unit :=
  fun _ _ _ => Exn "Timeout exceeded".

(** Every run finds the two results. *)
Definition env_two_results : Env :=
  mkEnv a_host
    (fun _ => page home found results_url_ok visible_at_once results_url_ok
                   (Ok two_results)).

(** The navigation of every run lands on the sorry page; the results
    follow once the page is left. *)
Definition env_blocked : Env :=
  mkEnv a_host
    (fun _ => page (Ok (sorry_url, Some sorry_url)) found results_url_ok
                   visible_at_once results_url_ok (Ok two_results)).

(** The navigation times out. *)
Definition env_navigation_fails : Env :=
  mkEnv a_host
    (fun _ => page (Exn "Timeout 60000ms exceeded") found results_url_ok
                   visible_at_once results_url_ok (Ok two_results)).

(** No search input is found. *)
Definition env_no_input : Env :=
  mkEnv a_host
    (fun _ => page home (fun _ => Exn "Timeout 5000ms exceeded") results_url_ok
                   visible_at_once results_url_ok (Ok two_results)).

(** No result selector becomes visible, on a page that is not blocked. *)
Definition env_no_results : Env :=
  mkEnv a_host
    (fun _ => page home found results_url_ok never results_url_ok (Ok two_results)).

(** The script fails. *)
Definition env_script_fails : Env :=
  mkEnv a_host
    (fun _ => page home found results_url_ok visible_at_once results_url_ok
                   (Exn "Execution context was destroyed")).

(** No result selector becomes visible and the page is now the sorry
    page. *)
Definition env_block_at_results : Env :=
  mkEnv a_host
    (fun _ => page home found results_url_ok never sorry_url (Ok two_results)).

(** The page is the sorry page right after the query, in the headless run
    only. *)
Definition env_block_after_query : Env :=
  mkEnv a_host
    (fun k => match k with
              | O => page home found sorry_url visible_at_once results_url_ok
                          (Ok two_results)
              | S _ => page home found results_url_ok visible_at_once results_url_ok
                            (Ok two_results)
              end).

(** The run [a] with another draw of the device. *)
Definition draw_device (r : nat) (a : Attempt) : Attempt :=
  mkAttempt (e_launch a) r (e_new_context a) (e_new_page a) (e_random_domain a)
    (e_goto a) (e_wait_for_url_nav a) (e_find_input a) (e_type_query a)
    (e_press_enter a) (e_click_button a) (e_submit_form a) (e_url_after_submit a)
    (e_load_state a) (e_search_url a) (e_wait_for_url_search a) (e_wait_selector a)
    (e_results_url a) (e_evaluate a) (e_storage_state a) (e_write_sidecar a).

(** A Linux host, and a generator that draws Desktop Firefox. *)
Definition env_firefox_draw : Env :=
  mkEnv a_host (fun k => draw_device 2 (env_attempt env_two_results k)).

Definition no_save : option CommandOptions :=
  Some (mkCommandOptions None None None (Some true) None None).

Definition no_save_limit (l : Z) : option CommandOptions :=
  Some (mkCommandOptions (Some l) None None (Some true) None None).

(** * Further notions

    ** Waiting for the results and executing the query, in closed form *)




(** A search input is found by one of the selectors. *)
Definition input_found (e : Attempt) : bool :=
  existsb (fun s => match e_find_input e s with Ok true => true | _ => false end)
          search_input_selectors.

(** The three ways of submitting, in order. *)
Definition by_enter (e : Attempt) : bool :=
  match e_press_enter e with
  | Ok u => negb (is_blocked_page u None)
  | Exn _ => false
  end.

Definition by_button (e : Attempt) : bool := submitted (e_click_button e).

Definition by_form (e : Attempt) : bool := submitted (e_submit_form e).

(** What [execute_search] returns. *)
Definition execute_search_result (e : Attempt) : result bool :=
  if negb (input_found e) then Exn "无法找到搜索框"
  else
    match e_type_query e with
    | Exn m => Exn m
    | Ok _ =>
        if by_enter e || by_button e || by_form e then Ok true
        else if is_blocked_page (e_url_after_submit e) None
             then Exn "所有搜索执行方式都遇到了人机验证页面"
             else Exn "所有搜索执行方式都失败了"
    end.

(** ** The script in closed form *)

(** The candidates whose link is neither in [seen] nor the link of an
    earlier candidate of the list. *)
Fixpoint first_by_link (seen : gset string) (l : list RawResult) : list RawResult :=
  match l with
  | [] => []
  | r :: rest =>
      if bool_decide (raw_link r ∈ seen) then first_by_link seen rest
      else r :: first_by_link ({[ raw_link r ]} ∪ seen) rest
  end.

(** ** The footprint of a call

    What a call with given arguments may do: the events it may add to the
    trace, in the state it adds them in, and the changes it may make to the
    saved state and to the files. *)

Record SearchArgs := mkSearchArgs {
  sa_host : Host;
  sa_query : string;
  sa_limit : Z;
  sa_timeout : Z;
  sa_state_file : string;
  sa_no_save_state : bool;
  sa_locale : string;
  sa_fingerprint_file : string
}.

(** The options of a context are those of the fingerprint [fp]: its
    values, never a mobile or touch device, the descriptor of its device
    when the table has one, and no other storage than the state file. *)
Definition context_of (c : SearchArgs) (fp : FingerprintConfig) (opts : ContextOptions)
  : Prop :=
  co_locale opts = locale fp /\
  co_timezone_id opts = timezone_id fp /\
  co_color_scheme opts = color_scheme fp /\
  co_reduced_motion opts = reduced_motion fp /\
  co_forced_colors opts = forced_colors fp /\
  co_is_mobile opts = false /\
  co_has_touch opts = false /\
  (forall d, device_of (device_name fp) = Ok d -> co_device opts = d) /\
  (co_storage_state opts = None \/ co_storage_state opts = Some (sa_state_file c)).

Definition allowed (c : SearchArgs) (w : World) (ev : event) : Prop :=
  match ev with
  | EvLaunch _ t => t = sa_timeout c * 2
  | EvNewContext opts =>
      exists fp, fingerprint (w_saved w) = Some fp /\ context_of c fp opts
  | EvGoto url t =>
      t = sa_timeout c /\ google_domain (w_saved w) = Some url /\ nonempty url = true
  | EvWaitForUrl t => t = sa_timeout c * 2
  | EvFindInput s => In s search_input_selectors
  | EvTypeQuery q => q = sa_query c
  | EvWaitLoadState t => t = sa_timeout c
  | EvWaitSelector s t => In s search_result_selectors /\ In t [5000; 10000; 15000]
  | EvPause ms => ms = 1000
  | EvEvaluate n => n = sa_limit c
  | EvStorageState p => p = sa_state_file c /\ sa_no_save_state c = false
  | EvWriteSidecar p data =>
      p = sa_fingerprint_file c /\ sa_no_save_state c = false /\
      data = fingerprint_data (w_saved w)
  | _ => True
  end.

(** One change to the world. *)
Inductive atom (c : SearchArgs) : World -> World -> Prop :=
| atom_emit (w : World) (ev : event) :
    allowed c w ev -> atom c w (add_events w [ev])
| atom_fingerprint (w : World) :
    fingerprint (w_saved w) = None ->
    atom c w
      (mkWorld
         (mkSavedState
            (Some (get_host_machine_config (sa_host c) (Some (sa_locale c))))
            (google_domain (w_saved w)))
         (w_files w) (w_trace w))
| atom_domain (w : World) (d : string) :
    google_domain (w_saved w) = None \/ google_domain (w_saved w) = Some "" ->
    In d google_domains ->
    atom c w
      (mkWorld (mkSavedState (fingerprint (w_saved w)) (Some d))
               (w_files w) (w_trace w))
| atom_state_file (w : World) (blob : json) :
    sa_no_save_state c = false ->
    atom c w
      (mkWorld (w_saved w) (<[sa_state_file c := FJson blob]> (w_files w))
               (w_trace w))
| atom_sidecar (w : World) :
    sa_no_save_state c = false ->
    atom c w
      (mkWorld (w_saved w)
               (<[sa_fingerprint_file c := FJson (fingerprint_data (w_saved w))]>
                  (w_files w))
               (w_trace w)).

(** Started in [w], the computation only makes such changes. *)
Definition fits_at {A} (c : SearchArgs) (w : World) (m : M A) : Prop :=
  forall r w', m w = Some (r, w') -> rtc (atom c) w w'.

(** The arguments [google_search] works with. *)
Definition search_args (env : Env) (files : gmap string file) (query : string)
    (options : option CommandOptions) : SearchArgs :=
  let options := default default_options options in
  let state_file := effective_state_file options in
  mkSearchArgs (env_host env) query (effective_limit options)
               (effective_timeout options) state_file
               (effective_no_save_state options) (effective_locale options)
               (snd (load_saved_state files state_file)).

(** The domain the sidecar gave, when it holds one. *)
Definition loaded_domain (files : gmap string file) (options : option CommandOptions)
  : option string :=
  google_domain (w_saved (initial_world files options)).

(** The fingerprint of the session: the saved one, or the host's when
    none is saved yet. *)
Definition session_fingerprint (c : SearchArgs) (w : World) : FingerprintConfig :=
  default (get_host_machine_config (sa_host c) (Some (sa_locale c)))
          (fingerprint (w_saved w)).


(** What is typed is the query, the script runs with the limit, and the
    selectors come from the two lists. *)
Definition inputs_ok (query : string) (limit : Z) (ev : event) : Prop :=
  match ev with
  | EvTypeQuery q => q = query
  | EvEvaluate n => n = limit
  | EvFindInput s => In s search_input_selectors
  | EvWaitSelector s _ => In s search_result_selectors
  | _ => True
  end.


(** * The capture of the results page

    ** html_extractor.py *)

Record HtmlResponse := mkHtmlResponse {
  hr_query : string;
  hr_html : string;
  hr_url : string;
  hr_saved_path : option string;
  hr_screenshot_path : option string;
  hr_original_html_length : option Z
}.

(** [self.google_domains] of [HtmlExtractor]. *)
Definition html_google_domains : list string :=
  [ "https://www.google.com";
    "https://www.google.co.uk";
    "https://www.google.ca";
    "https://www.google.com.au" ].

(** Strings hold the UTF-8 bytes of their characters.  A byte from 128 to
    191 continues a character; every other byte begins one. *)
Definition is_continuation (c : Ascii.ascii) : bool :=
  let n := Ascii.nat_of_ascii c in (128 <=? n)%nat && (n <? 192)%nat.

(** [len(s)]: the number of characters. *)
Fixpoint py_len (s : string) : Z :=
  match s with
  | EmptyString => 0
  | String c s' => (if is_continuation c then 0 else 1) + py_len s'
  end.

(** [a-zA-Z0-9] *)
Definition is_alnum (c : Ascii.ascii) : bool :=
  let n := Ascii.nat_of_ascii c in
  ((48 <=? n) && (n <=? 57) || (65 <=? n) && (n <=? 90) ||
   (97 <=? n) && (n <=? 122))%nat.

Definition underscore : Ascii.ascii := Ascii.ascii_of_nat 95.

(** [re.sub(r'[^a-zA-Z0-9]', "_", s)]: every character that is not an
    ASCII letter or digit becomes one underscore, whatever the number of
    its bytes. *)
Fixpoint sanitize (s : string) : string :=
  match s with
  | EmptyString => EmptyString
  | String c s' =>
      if is_alnum c then String c (sanitize s')
      else if is_continuation c then sanitize s'
      else String underscore (sanitize s')
  end.

(** [s[:n]] on a string of one-byte characters. *)
Fixpoint str_take (n : nat) (s : string) : string :=
  match n, s with
  | S n', String c s' => String c (str_take n' s')
  | _, _ => EmptyString
  end.

Definition sanitized_query (query : string) : string :=
  str_take 50 (sanitize query).

(** [datetime.now().isoformat().replace(":", "-").replace(".", "-")] on
    the text [now] of the clock. *)
Definition timestamp (now : string) : string :=
  str_replace "." "-" (str_replace ":" "-" now).

(** [f"{sanitized_query}-{timestamp}.html"] *)
Definition generated_name (now query : string) : string :=
  sanitized_query query +:+ "-" +:+ timestamp now +:+ ".html".

(** What the libraries compute: the three [re.sub] that strip style
    elements, stylesheet links and script elements, and [pathlib].  Paths
    are held as the text [str] gives for them. *)
Record Library := mkLibrary {
  clean_html : string -> string;
  path_of : string -> string;                (** [str(Path(s))] *)
  path_suffix : string -> string;            (** [Path(s).suffix] *)
  path_join : string -> string -> string;    (** [str(Path(dir) / name)] *)
  path_parent : string -> string             (** [str(Path(s).parent)] *)
}.

(** What the browser, the clock and the file system answer during
    [extract_html].  Closing the browser and the timers always return; a
    write that fails leaves the file as it was. *)
Record HtmlAttempt := mkHtmlAttempt {
  x_launch : result unit;            (** [chromium.launch] *)
  x_new_context : result unit;       (** [browser.new_context()] *)
  x_new_page : result unit;          (** [context.new_page()] *)
  x_random_domain : nat;             (** draw of [random.choice] *)
  x_goto : result unit;              (** [page.goto] *)
  x_find_input : result unit;        (** [wait_for_selector] of the input *)
  x_click : result unit;             (** [search_input.click()] *)
  x_type : result unit;              (** [keyboard.type] *)
  x_press_enter : result unit;       (** [keyboard.press("Enter")] *)
  x_load_state_1 : result unit;      (** the first [wait_for_load_state] *)
  x_url : string;                    (** [page.url] *)
  x_load_state_2 : result unit;      (** the second [wait_for_load_state] *)
  x_content : result string;         (** [page.content()] *)
  x_now : string;                    (** [datetime.now().isoformat()] *)
  x_is_dir : string -> bool;         (** [Path.is_dir] *)
  x_mkdir : string -> result unit;   (** [Path.mkdir] *)
  x_write_html : result unit;        (** [open] and [write] of the page *)
  x_screenshot : result string;      (** [page.screenshot]: the image it writes *)
  x_storage_state : result json;     (** [context.storage_state]: what it writes *)
  x_write_sidecar : result unit      (** [open] and [json.dump] of the sidecar *)
}.

Inductive hevent :=
| HvLaunch (headless : bool) (timeout : Z)
| HvNewContext
| HvNewPage
| HvGoto (url : string) (timeout : Z)
| HvFindInput (selector : string) (timeout : Z)
| HvClick
| HvType (q : string)
| HvPressEnter
| HvWaitLoadState (timeout : Z)
| HvPause (ms : Z)
| HvContent
| HvMkdir (path : string)
| HvWriteHtml (path : string)
| HvScreenshot (path : string)
| HvStorageState (path : string)
| HvWriteSidecar (path : string) (data : json)
| HvCloseBrowser.

Record HWorld := mkHWorld {
  hw_saved : SavedState;
  hw_files : gmap string file;
  hw_trace : list hevent
}.

(** A computation of the capture: a value or an exception, and the state
    it leaves.  The capture has no loop. *)
Definition H (A : Type) : Type := HWorld -> result A * HWorld.

Definition hret {A} (a : A) : H A := fun w => (Ok a, w).

Definition hraise {A} (msg : string) : H A := fun w => (Exn msg, w).

Definition hbind {A B} (m : H A) (f : A -> H B) : H B :=
  fun w =>
    match m w with
    | (Ok a, w') => f a w'
    | (Exn msg, w') => (Exn msg, w')
    end.

Declare Scope capture_scope.
Delimit Scope capture_scope with capture.
Notation "x <- m ;; k" := (hbind m (fun x => k))
  (at level 100, m at next level, right associativity) : capture_scope.
Notation "m ;; k" := (hbind m (fun _ => k))
  (at level 100, right associativity) : capture_scope.
Open Scope capture_scope.

Definition htry {A} (m : H A) (handler : string -> H A) : H A :=
  fun w =>
    match m w with
    | (Exn msg, w') => handler msg w'
    | r => r
    end.

Definition hfinally {A} (m : H A) (cleanup : H unit) : H A :=
  fun w =>
    match m w with
    | (r, w') =>
        match cleanup w' with
        | (Ok _, w'') => (r, w'')
        | (Exn msg, w'') => (Exn msg, w'')
        end
    end.

Definition hcall {A} (r : result A) : H A := fun w => (r, w).

Definition hemit (ev : hevent) : H unit :=
  fun w => (Ok tt, mkHWorld (hw_saved w) (hw_files w) (hw_trace w ++ [ev])).

Definition hget_saved : H SavedState := fun w => (Ok (hw_saved w), w).

Definition hset_saved (s : SavedState) : H unit :=
  fun w => (Ok tt, mkHWorld s (hw_files w) (hw_trace w)).

Definition hwrite (path : string) (f : file) : H unit :=
  fun w => (Ok tt, mkHWorld (hw_saved w) (<[path := f]> (hw_files w)) (hw_trace w)).

(** The saved domain when it is not empty, else a drawn one, which is
    recorded. *)
Definition html_select_domain (x : HtmlAttempt) : H string :=
  saved_state <- hget_saved ;;
  let saved :=
    match google_domain saved_state with
    | Some d => if nonempty d then Some d else None
    | None => None
    end in
  match saved with
  | Some selected_domain => hret selected_domain
  | None =>
      let selected_domain := random_choice (x_random_domain x) html_google_domains in
      hset_saved (mkSavedState (fingerprint saved_state) (Some selected_domain)) ;;
      hret selected_domain
  end.

(** The path of the page: a generated name in the default directory or in
    the directory given, or the path given when it has a suffix and is not
    a directory. *)
Definition html_output_path (L : Library) (x : HtmlAttempt) (query : string)
    (output_path : option string) : H string :=
  match output_path with
  | Some (String c p) =>
      let output_path := path_of L (String c p) in
      if x_is_dir x output_path || negb (nonempty (path_suffix L output_path)) then
        (if x_is_dir x output_path then hret tt
         else hemit (HvMkdir output_path) ;; hcall (x_mkdir x output_path)) ;;
        hret (path_join L output_path (generated_name (x_now x) query))
      else hret output_path
  | _ =>
      let output_dir := path_of L "./google-search-html" in
      hemit (HvMkdir output_dir) ;;
      hcall (x_mkdir x output_dir) ;;
      hret (path_join L output_dir (generated_name (x_now x) query))
  end.

(** The block under [if save_to_file]: the page, then the screenshot. *)
Definition html_save_files (L : Library) (x : HtmlAttempt) (query html : string)
    (output_path : option string) : H (option string * option string) :=
  output_path <- html_output_path L x query output_path ;;
  let file_dir := path_parent L output_path in
  hemit (HvMkdir file_dir) ;;
  hcall (x_mkdir x file_dir) ;;
  hemit (HvWriteHtml output_path) ;;
  hcall (x_write_html x) ;;
  hwrite output_path (FText html) ;;
  let saved_file_path := output_path in
  let screenshot_file_path := str_replace ".html" ".png" output_path in
  hemit (HvScreenshot screenshot_file_path) ;;
  image <- hcall (x_screenshot x) ;;
  hwrite screenshot_file_path (FText image) ;;
  hret (Some saved_file_path, Some screenshot_file_path).

(** The block that saves the storage state and the sidecar; nothing it
    raises leaves it.  As in [storage_state], the answer of
    [x_storage_state] covers the making of the directory. *)
Definition html_save_state (x : HtmlAttempt) (state_file fingerprint_file : string)
    (no_save_state : bool) : H unit :=
  htry
    (if negb no_save_state then
       hemit (HvStorageState state_file) ;;
       blob <- hcall (x_storage_state x) ;;
       hwrite state_file (FJson blob) ;;
       htry
         (saved_state <- hget_saved ;;
          let data := fingerprint_data saved_state in
          hemit (HvWriteSidecar fingerprint_file data) ;;
          hcall (x_write_sidecar x) ;;
          hwrite fingerprint_file (FJson data))
         (fun _ => hret tt)
     else hret tt)
    (fun _ => hret tt).

(** The [try] block of [extract_html].  The pauses of random length
    between the keystrokes and before Enter leave no event. *)
Definition html_capture (L : Library) (x : HtmlAttempt) (query : string)
    (timeout : Z) (state_file : string) (no_save_state : bool)
    (fingerprint_file : string) (save_to_file : bool) (output_path : option string)
  : H HtmlResponse :=
  hemit HvNewContext ;;
  hcall (x_new_context x) ;;
  hemit HvNewPage ;;
  hcall (x_new_page x) ;;
  selected_domain <- html_select_domain x ;;
  hemit (HvGoto selected_domain timeout) ;;
  hcall (x_goto x) ;;
  hemit (HvFindInput "textarea[name='q'], input[name='q']" 5000) ;;
  hcall (x_find_input x) ;;
  hemit HvClick ;;
  hcall (x_click x) ;;
  hemit (HvType query) ;;
  hcall (x_type x) ;;
  hemit HvPressEnter ;;
  hcall (x_press_enter x) ;;
  hemit (HvWaitLoadState timeout) ;;
  hcall (x_load_state_1 x) ;;
  let final_url := x_url x in
  hemit (HvPause 1000) ;;
  hemit (HvWaitLoadState timeout) ;;
  hcall (x_load_state_2 x) ;;
  hemit HvContent ;;
  full_html <- hcall (x_content x) ;;
  let html := clean_html L full_html in
  paths <-
    (if save_to_file then html_save_files L x query html output_path
     else hret (None, None)) ;;
  html_save_state x state_file fingerprint_file no_save_state ;;
  hret (mkHtmlResponse query html final_url (fst paths) (snd paths)
                       (Some (py_len full_html))).

Definition extract_html (L : Library) (x : HtmlAttempt) (query : string)
    (timeout : Z) (state_file : string) (no_save_state : bool)
    (fingerprint_file : string) (save_to_file : bool) (output_path : option string)
  : H HtmlResponse :=
  hemit (HvLaunch true (timeout * 2)) ;;
  hcall (x_launch x) ;;
  hfinally
    (htry
       (html_capture L x query timeout state_file no_save_state fingerprint_file
                     save_to_file output_path)
       (fun error => hraise ("获取Google搜索页面HTML失败: " +:+ error)))
    (hemit HvCloseBrowser).

(** ** engine.py: [get_google_search_page_html] *)


Close Scope capture_scope.


(** A character of a generated name that comes from the query. *)
Definition name_char (c : Ascii.ascii) : bool :=
  is_alnum c || Ascii.eqb c underscore.

Fixpoint string_forallb (p : Ascii.ascii -> bool) (s : string) : bool :=
  match s with
  | EmptyString => true
  | String c s' => p c && string_forallb p s'
  end.

(** A capture whose page steps all succeed. *)
Definition page_ok (x : HtmlAttempt) (full_html : string) : Prop :=
  x_launch x = Ok tt /\ x_new_context x = Ok tt /\ x_new_page x = Ok tt /\
  x_goto x = Ok tt /\ x_find_input x = Ok tt /\ x_click x = Ok tt /\
  x_type x = Ok tt /\ x_press_enter x = Ok tt /\ x_load_state_1 x = Ok tt /\
  x_load_state_2 x = Ok tt /\ x_content x = Ok full_html.

(** The path [html_output_path] gives when the directories can be made. *)
Definition resolved_path (L : Library) (x : HtmlAttempt) (query : string)
    (output_path : option string) : string :=
  match output_path with
  | Some (String c p) =>
      let given := path_of L (String c p) in
      if x_is_dir x given || negb (nonempty (path_suffix L given))
      then path_join L given (generated_name (x_now x) query)
      else given
  | _ => path_join L (path_of L "./google-search-html")
                   (generated_name (x_now x) query)
  end.

(** The event saves the storage state or writes the sidecar. *)
Definition hpersists (ev : hevent) : bool :=
  match ev with
  | HvStorageState _ | HvWriteSidecar _ _ => true
  | _ => false
  end.

(** A library that leaves texts and paths as they are, and a capture where
    everything succeeds. *)
Definition plain_library : Library :=
  mkLibrary (fun s => s) (fun s => s) (fun _ => ".txt")
            (fun d n => d +:+ "/" +:+ n) (fun _ => ".").

Definition capture_ok (screenshot : result string) : HtmlAttempt :=
  mkHtmlAttempt (Ok tt) (Ok tt) (Ok tt) 2 (Ok tt) (Ok tt) (Ok tt) (Ok tt) (Ok tt)
    (Ok tt) "https://www.google.ca/search?q=rust" (Ok tt)
    (Ok "<html><body>rust</body></html>") "2025-01-02T03:04:05.678901"
    (fun _ => false) (fun _ => Ok tt) (Ok tt) screenshot (Ok JNull) (Ok tt).


(** When the computation returns, it returns a value. *)
Definition never_raises {A} (m : M A) : Prop :=
  forall w r w', m w = Some (r, w') -> exists a, r = Ok a.

(** * Closing down

    ** utils.py *)

Inductive log_level := LogInfo | LogDebug | LogWarn.

(** [system] is [platform.system().lower()]. *)
Definition is_windows (system : string) : bool := String.eqb system "windows".

Definition is_macos (system : string) : bool := String.eqb system "darwin".

Definition is_linux (system : string) : bool := String.eqb system "linux".

(** The levels of the records [safe_close_browser] logs, in order; it
    raises nothing.  [close] is the answer of [browser.close()], [lower] is
    [str.lower]. *)
Definition safe_close_browser (system : string) (lower : string -> string)
    (close : result unit) : list log_level :=
  match close with
  | Ok _ => [LogInfo; LogInfo]
  | Exn e =>
      let error_msg := lower e in
      if is_windows system &&
         (contains "pipe" error_msg || contains "closed" error_msg)
      then [LogInfo; LogDebug]
      else if is_macos system &&
              (contains "bad file descriptor" error_msg ||
               contains "connection reset" error_msg)
      then [LogInfo; LogDebug]
      else if is_linux system &&
              (contains "broken pipe" error_msg ||
               contains "connection reset" error_msg)
      then [LogInfo; LogDebug]
      else [LogInfo; LogWarn]
  end.

(** * Properties *)

(** ** Strings *)

Lemma prefix_app (p t : string) : String.prefix p (p +:+ t) = true.
Proof.
  induction p as [|c p IH]; simpl.
  - now destruct t.
  - destruct (Ascii.ascii_dec c c); [exact IH | congruence].
Qed.

Lemma prefix_split (p s : string) :
  String.prefix p s = true -> exists t, s = p +:+ t.
Proof.
  revert s. induction p as [|c p IH]; intros s H.
  - exists s. reflexivity.
  - destruct s as [|d s]; simpl in H; [discriminate|].
    destruct (Ascii.ascii_dec c d) as [->|]; [|discriminate].
    destruct (IH s H) as [t ->]. exists t. reflexivity.
Qed.

Lemma contains_unfold (pat s : string) :
  contains pat s =
  String.prefix pat s ||
  match s with
  | EmptyString => false
  | String _ s' => contains pat s'
  end.
Proof. destruct s; reflexivity. Qed.

Lemma contains_intro (before pat after : string) :
  contains pat (before +:+ pat +:+ after) = true.
Proof.
  induction before as [|c b IH].
  - change (contains pat (pat +:+ after) = true).
    rewrite contains_unfold, prefix_app. reflexivity.
  - change (contains pat (String c (b +:+ pat +:+ after)) = true).
    rewrite contains_unfold, IH. apply orb_true_r.
Qed.

Lemma contains_elim (pat s : string) :
  contains pat s = true -> substring_of pat s.
Proof.
  induction s as [|c s IH]; rewrite contains_unfold; intros H.
  - rewrite orb_false_r in H. destruct (prefix_split _ _ H) as [t Ht].
    exists EmptyString, t. exact Ht.
  - apply orb_true_iff in H as [H|H].
    + destruct (prefix_split _ _ H) as [t Ht]. exists EmptyString, t. exact Ht.
    + destruct (IH H) as (b & a & ->). exists (String c b), a. reflexivity.
Qed.

Lemma contains_spec (pat s : string) :
  contains pat s = true <-> substring_of pat s.
Proof.
  split; [apply contains_elim|].
  intros (b & a & ->). apply contains_intro.
Qed.

Lemma substring_of_empty (pat : string) :
  substring_of pat EmptyString -> pat = EmptyString.
Proof.
  intros (b & a & H). destruct b; [|discriminate].
  destruct pat; [reflexivity | discriminate].
Qed.

Lemma sorry_patterns_nonempty (p : string) :
  In p sorry_patterns -> p <> EmptyString.
Proof.
  unfold sorry_patterns. simpl.
  intros H; repeat (destruct H as [<-|H]; [discriminate|]); contradiction.
Qed.

(** ** The block predicate *)

(** C2. [is_blocked_page url response_url] is true exactly when one of the
    configured markers occurs in the navigated URL or in the response URL,
    when one is given; the sorry page is blocked and a plain search URL is
    not. *)
Theorem is_blocked_page_exact :
  (forall (url : string) (response_url : option string),
      is_blocked_page url response_url = true <->
      exists pattern,
        In pattern sorry_patterns /\
        (substring_of pattern url \/
         exists r, response_url = Some r /\ substring_of pattern r)) /\
  is_blocked_page "https://www.google.com/sorry/index?continue=..." None = true /\
  is_blocked_page "https://www.google.com/search?q=test" None = false.
Proof.
  split; [|split; reflexivity].
  intros url response_url. unfold is_blocked_page.
  rewrite existsb_exists. split.
  - intros (p & Hin & H). exists p. split; [exact Hin|].
    apply orb_true_iff in H as [H|H].
    + left. now apply contains_spec.
    + right. destruct response_url as [r|]; [|discriminate].
      apply andb_true_iff in H as [_ H]. exists r. split; [reflexivity|].
      now apply contains_spec.
  - intros (p & Hin & [H | (r & -> & H)]); exists p; (split; [exact Hin|]).
    + apply orb_true_iff. left. now apply contains_spec.
    + apply orb_true_iff. right. apply andb_true_iff. split.
      * destruct r; [|reflexivity].
        apply substring_of_empty in H. now apply sorry_patterns_nonempty in Hin.
      * now apply contains_spec.
Qed.

(** ** Defaulting of the options *)

(** C9. A limit of 0 and a timeout of 0 are replaced by the defaults 10 and
    60000 like absent values, and a call with them is the same call as
    with absent ones. *)
Theorem falsy_options_are_absent :
  forall (o : CommandOptions) (l t : bool),
    effective_limit (with_limit_timeout o (Some 0) (absent_or_zero t)) = 10 /\
    effective_timeout (with_limit_timeout o (absent_or_zero l) (Some 0)) = 60000 /\
    effective_limit (with_limit_timeout o None (absent_or_zero t)) = 10 /\
    effective_timeout (with_limit_timeout o (absent_or_zero l) None) = 60000 /\
    forall fuel env files query existing_browser,
      google_search fuel env files query
        (Some (with_limit_timeout o (absent_or_zero l) (absent_or_zero t)))
        existing_browser =
      google_search fuel env files query
        (Some (with_limit_timeout o None None)) existing_browser.
Proof.
  intros o l t. repeat split.
  intros fuel env files query existing_browser.
  destruct l, t; reflexivity.
Qed.

(** ** The fingerprint of the host *)

Lemma host_device_is_chrome (host : Host) (user_locale : option string) :
  device_name (get_host_machine_config host user_locale) = "Desktop Chrome".
Proof. reflexivity. Qed.

(** ** Progressive timeouts *)

Lemma new_events_add (w : World) (evs : list event) :
  new_events w (add_events w evs) = evs.
Proof. unfold new_events, add_events. simpl. apply drop_app_length. Qed.

Lemma emit_add (ev : event) (w : World) :
  emit ev w = Some (Ok tt, add_events w [ev]).
Proof. reflexivity. Qed.

Lemma add_events_add (w : World) (a b : list event) :
  add_events (add_events w a) b = add_events w (a ++ b).
Proof. unfold add_events. simpl. now rewrite <- app_assoc. Qed.

Lemma add_events_nil (w : World) : add_events w [] = w.
Proof. destruct w. unfold add_events. simpl. now rewrite app_nil_r. Qed.

Lemma bind_emit {A} (ev : event) (k : unit -> M A) (w : World) :
  bind (emit ev) k w = k tt (add_events w [ev]).
Proof. reflexivity. Qed.

Lemma selector_rounds_step (fuel : nat) (e : Attempt) (selector : string)
    (attempts selector_timeout : Z) (w : World) :
  attempts < max_attempts ->
  selector_rounds (S fuel) e selector attempts selector_timeout w =
  match e_wait_selector e selector (Z.to_nat attempts) selector_timeout with
  | Ok _ => Some (Ok true, add_events w [EvWaitSelector selector selector_timeout])
  | Exn msg =>
      if max_attempts <=? attempts + 1
      then Some (Exn msg, add_events w [EvWaitSelector selector selector_timeout])
      else selector_rounds fuel e selector (attempts + 1)
             (Z.min (selector_timeout * 2) 15000)
             (add_events w [EvWaitSelector selector selector_timeout; EvPause 1000])
  end.
Proof.
  intros Hlt. simpl. apply Z.ltb_lt in Hlt. rewrite Hlt, bind_emit.
  destruct (e_wait_selector e selector (Z.to_nat attempts) selector_timeout);
    [reflexivity|].
  destruct (max_attempts <=? attempts + 1); [reflexivity|].
  rewrite bind_emit, add_events_add. reflexivity.
Qed.

(** The rounds of one selector always end, and the events they add are
    waits on that selector with the first timeouts of the progression,
    separated by pauses. *)
Lemma selector_rounds_runs (e : Attempt) (selector : string) (w : World) :
  exists r evs,
    selector_rounds (Z.to_nat max_attempts) e selector 0 5000 w =
      Some (r, add_events w evs) /\
    (evs = [EvWaitSelector selector 5000] \/
     evs = [EvWaitSelector selector 5000; EvPause 1000;
            EvWaitSelector selector 10000] \/
     evs = [EvWaitSelector selector 5000; EvPause 1000;
            EvWaitSelector selector 10000; EvPause 1000;
            EvWaitSelector selector 15000]).
Proof.
  change (Z.to_nat max_attempts) with 3%nat.
  rewrite selector_rounds_step by reflexivity.
  destruct (e_wait_selector e selector (Z.to_nat 0) 5000) as [u|m0].
  { eexists _, _. split; [reflexivity | left; reflexivity]. }
  change (max_attempts <=? 0 + 1) with false. cbv iota.
  rewrite selector_rounds_step by reflexivity.
  destruct (e_wait_selector e selector (Z.to_nat (0 + 1)) _) as [u|m1].
  { eexists _, _. split; [rewrite !add_events_add; reflexivity |].
    right; left; reflexivity. }
  change (max_attempts <=? 0 + 1 + 1) with false. cbv iota.
  rewrite selector_rounds_step by reflexivity.
  change (max_attempts <=? 0 + 1 + 1 + 1) with true. cbv iota.
  destruct (e_wait_selector e selector (Z.to_nat (0 + 1 + 1)) _) as [u|m2];
    eexists _, _; (split; [rewrite !add_events_add; reflexivity |]);
    right; right; reflexivity.
Qed.

Lemma selector_timeouts_self (selector : string) (t : Z) (rest : list event) :
  selector_timeouts selector (EvWaitSelector selector t :: rest) =
  t :: selector_timeouts selector rest.
Proof. simpl. now rewrite String.eqb_refl. Qed.

(** C6. When the first two rounds of a selector fail, its three rounds
    wait 5000, 10000 and 15000 ms, in this order. *)
Theorem progressive_timeouts (e : Attempt) (selector : string) (w : World)
    (m0 m1 : string)
    (Hfirst : e_wait_selector e selector 0 5000 = Exn m0)
    (Hsecond : e_wait_selector e selector 1 10000 = Exn m1) :
  exists r w',
    selector_rounds (Z.to_nat max_attempts) e selector 0 5000 w = Some (r, w') /\
    selector_timeouts selector (new_events w w') = [5000; 10000; 15000].
Proof.
  change (Z.to_nat max_attempts) with 3%nat.
  rewrite selector_rounds_step by reflexivity.
  change (Z.to_nat 0) with 0%nat. rewrite Hfirst.
  change (max_attempts <=? 0 + 1) with false. cbv iota.
  rewrite selector_rounds_step by reflexivity.
  change (Z.to_nat (0 + 1)) with 1%nat.
  change (Z.min (5000 * 2) 15000) with 10000. rewrite Hsecond.
  change (max_attempts <=? 0 + 1 + 1) with false. cbv iota.
  rewrite selector_rounds_step by reflexivity.
  change (max_attempts <=? 0 + 1 + 1 + 1) with true. cbv iota.
  change (Z.min (10000 * 2) 15000) with 15000.
  destruct (e_wait_selector e selector _ 15000) as [u|m2];
    rewrite !add_events_add; eexists _, _;
    (split; [reflexivity|]); rewrite new_events_add; simpl;
    rewrite !String.eqb_refl; reflexivity.
Qed.

Lemma progressive_timeouts_witness :
  exists r w',
    selector_rounds (Z.to_nat max_attempts) never_visible "#search" 0 5000
      (mkWorld (mkSavedState None None) ∅ []) = Some (r, w') /\
    selector_timeouts "#search"
      (new_events (mkWorld (mkSavedState None None) ∅ []) w') =
    [5000; 10000; 15000].
Proof.
  apply (progressive_timeouts never_visible "#search"
           (mkWorld (mkSavedState None None) ∅ [])
           "Timeout exceeded" "Timeout exceeded"); reflexivity.
Defined.

(** On a page where nothing becomes visible, each of the five result
    selectors is waited for with the three timeouts. *)
Lemma every_selector_gets_three_rounds :
  exists r w',
    wait_for_search_results (env_attempt env_no_results 0) 60000
      (mkWorld (mkSavedState None None) ∅ []) = Some (r, w') /\
    Forall (fun selector =>
              selector_timeouts selector (w_trace w') = [5000; 10000; 15000])
           search_result_selectors.
Proof.
  eexists _, _. split; [vm_compute; reflexivity|].
  repeat constructor.
Qed.

(** ** Extraction: the script as a scan of candidates *)

Lemma visit_container_offer (sel : SelectorSet) (c : Container) (st : Scan) :
  visit_container sel c st = offer (container_candidate sel c) st.
Proof.
  unfold visit_container, container_candidate, offer.
  destruct (c_title c) as [t|]; [|reflexivity].
  destruct (nonempty (container_link t c)); simpl; [|reflexivity].
  destruct (starts_with "http" (container_link t c)); simpl; [|reflexivity].
  destruct (nonempty (trim (t_text t))); simpl.
  - now destruct (bool_decide _).
  - now destruct (bool_decide _).
Qed.

Lemma visit_anchor_offer (el : Anchor) (st : Scan) :
  visit_anchor el st = offer (anchor_candidate el) st.
Proof.
  unfold visit_anchor, anchor_candidate, offer.
  destruct (nonempty (a_href el)); simpl; [|reflexivity].
  destruct (nonempty (trim (a_text el))); simpl.
  - destruct (contains "google.com/" (a_href el)); simpl;
      [now rewrite orb_true_r|].
    destruct (contains "accounts.google" (a_href el)); simpl;
      [now rewrite orb_true_r|].
    destruct (contains "support.google" (a_href el)); simpl;
      [now rewrite orb_true_r|].
    rewrite orb_false_r. now destruct (bool_decide _).
  - now destruct (_ || _).
Qed.

Lemma scan_containers_offers (n : Z) (sel : SelectorSet) (cs : list Container)
    (st : Scan) :
  scan_containers n sel cs st =
  scan_offers n (List.map (container_candidate sel) cs) st.
Proof.
  revert st. induction cs as [|c cs IH]; intros st; simpl; [reflexivity|].
  destruct (reached n st); [reflexivity|].
  now rewrite visit_container_offer, IH.
Qed.

Lemma scan_anchors_offers (n : Z) (anchors : list Anchor) (st : Scan) :
  scan_anchors n anchors st = scan_offers n (List.map anchor_candidate anchors) st.
Proof.
  revert st. induction anchors as [|a l IH]; intros st; simpl; [reflexivity|].
  destruct (reached n st); [reflexivity|].
  now rewrite visit_anchor_offer, IH.
Qed.

Lemma scan_offers_reached (n : Z) (offers : list (option RawResult)) (st : Scan) :
  reached n st = true -> scan_offers n offers st = st.
Proof. intros H. destruct offers; simpl; [reflexivity | now rewrite H]. Qed.

Lemma scan_offers_app (n : Z) (a b : list (option RawResult)) (st : Scan) :
  scan_offers n (a ++ b) st = scan_offers n b (scan_offers n a st).
Proof.
  revert st. induction a as [|o a IH]; intros st; simpl; [reflexivity|].
  destruct (reached n st) eqn:E; [|apply IH].
  symmetry. now apply scan_offers_reached.
Qed.

Lemma scan_selector_sets_offers (n : Z) (dom : Dom) (sets : list SelectorSet)
    (st : Scan) :
  scan_selector_sets n dom sets st = scan_offers n (structural_offers dom sets) st.
Proof.
  revert st. induction sets as [|sel sets IH]; intros st; [reflexivity|].
  simpl scan_selector_sets. unfold structural_offers. simpl flat_map.
  rewrite scan_offers_app. fold (structural_offers dom sets).
  destruct (reached n st) eqn:E.
  - rewrite (scan_offers_reached n _ st E). now rewrite (scan_offers_reached n _ st E).
  - now rewrite IH, scan_containers_offers.
Qed.

Lemma scan_document_offers (n : Z) (dom : Dom) :
  scan_document n dom = scan_offers n (document_offers dom) (mkScan [] ∅).
Proof.
  unfold scan_document, document_offers.
  rewrite scan_offers_app, scan_selector_sets_offers.
  set (st := scan_offers n (structural_offers dom selectorSets) _).
  destruct (Z.of_nat (List.length (sc_results st)) <? n) eqn:E.
  - apply scan_anchors_offers.
  - symmetry. apply scan_offers_reached. unfold reached.
    apply Z.leb_le. apply Z.ltb_ge in E. exact E.
Qed.

Lemma scan_inv_init : scan_inv (mkScan [] ∅).
Proof. split; [constructor | intros r H; inversion H]. Qed.

Lemma offer_inv (o : option RawResult) (st : Scan) :
  scan_inv st -> scan_inv (offer o st).
Proof.
  intros [Hnd Hseen]. destruct o as [r|]; simpl; [|now split].
  case_bool_decide as Hin; [now split|].
  unfold scan_push; split; simpl.
  - rewrite map_app. simpl. apply NoDup_app. split; [exact Hnd|]. split.
    + intros l Hl ->%list_elem_of_singleton. apply Hin.
      apply list_elem_of_fmap in Hl as (r' & -> & Hr'). now apply Hseen.
    + apply NoDup_singleton.
  - intros r' [Hr'|Hr']%elem_of_app.
    + apply elem_of_union_r. now apply Hseen.
    + apply list_elem_of_singleton in Hr' as ->. apply elem_of_union_l.
      now apply elem_of_singleton.
Qed.

Lemma scan_offers_inv (n : Z) (offers : list (option RawResult)) (st : Scan) :
  scan_inv st -> scan_inv (scan_offers n offers st).
Proof.
  revert st. induction offers as [|o os IH]; intros st H; simpl; [exact H|].
  destruct (reached n st); [exact H|]. apply IH. now apply offer_inv.
Qed.

(** The scan appends taken candidates in the order of the offers. *)
Lemma scan_offers_results (n : Z) (offers : list (option RawResult)) (st : Scan) :
  exists added : list RawResult,
    sc_results (scan_offers n offers st) = (sc_results st ++ added)%list /\
    added `sublist_of` omap id offers.
Proof.
  revert st. induction offers as [|o os IH]; intros st; simpl.
  - exists []. split; [now rewrite app_nil_r | constructor].
  - destruct (reached n st).
    + exists []. split; [now rewrite app_nil_r | apply sublist_nil_l].
    + destruct (IH (offer o st)) as (added & Heq & Hsub).
      destruct o as [r|]; simpl in *.
      * case_bool_decide.
        -- exists added. split; [exact Heq | now apply sublist_cons].
        -- exists (r :: added). split; [| now apply sublist_skip].
           rewrite Heq. simpl. now rewrite <- app_assoc.
      * exists added. split; [exact Heq | exact Hsub].
Qed.

Lemma offer_length (o : option RawResult) (st : Scan) :
  (List.length (sc_results (offer o st)) <= S (List.length (sc_results st)))%nat.
Proof.
  destruct o as [r|]; simpl; [|lia].
  case_bool_decide; simpl; [lia|]. rewrite length_app. simpl. lia.
Qed.

(** The scan never holds more results than the limit, unless it started
    with more. *)
Lemma scan_offers_length (n : Z) (offers : list (option RawResult)) (st : Scan) :
  Z.of_nat (List.length (sc_results (scan_offers n offers st))) <=
  Z.max n (Z.of_nat (List.length (sc_results st))).
Proof.
  revert st. induction offers as [|o os IH]; intros st; simpl; [lia|].
  destruct (reached n st) eqn:E; [lia|].
  unfold reached in E. apply Z.leb_gt in E.
  specialize (IH (offer o st)). pose proof (offer_length o st). lia.
Qed.

Lemma js_slice_to_sublist {A} (l : list A) (n : Z) :
  js_slice_to l n `sublist_of` l.
Proof. unfold js_slice_to. destruct (n <? 0); apply sublist_take. Qed.

Lemma js_slice_to_length {A} (l : list A) (n : Z) :
  0 <= n -> Z.of_nat (List.length (js_slice_to l n)) <= n.
Proof.
  intros Hn. unfold js_slice_to.
  destruct (n <? 0) eqn:E; [apply Z.ltb_lt in E; lia|].
  rewrite length_take. lia.
Qed.

(** The script returns at most [maxResults] records, none for a negative
    limit. *)
Lemma extract_script_length (n : Z) (dom : Dom) :
  Z.of_nat (List.length (extract_script n dom)) <= Z.max 0 n.
Proof.
  unfold extract_script. destruct (Z.le_gt_cases 0 n) as [Hn|Hn].
  - pose proof (js_slice_to_length (sc_results (scan_document n dom)) n Hn). lia.
  - pose proof (scan_offers_length n (document_offers dom) (mkScan [] ∅)) as H.
    rewrite <- scan_document_offers in H. simpl in H.
    destruct (sc_results (scan_document n dom)) as [|r l]; simpl in H; [|lia].
    unfold js_slice_to. destruct (n <? 0); simpl; rewrite take_nil; simpl; lia.
Qed.

(** The script returns its records in discovery order. *)
Lemma extract_script_discovery_order (n : Z) (dom : Dom) :
  extract_script n dom `sublist_of` discovery_order dom.
Proof.
  unfold extract_script, discovery_order. rewrite scan_document_offers.
  destruct (scan_offers_results n (document_offers dom) (mkScan [] ∅))
    as (added & Heq & Hsub).
  simpl in Heq. rewrite Heq.
  etransitivity; [apply js_slice_to_sublist | exact Hsub].
Qed.

(** No two records of the script share a link. *)
Lemma extract_script_NoDup (n : Z) (dom : Dom) :
  NoDup (List.map raw_link (extract_script n dom)).
Proof.
  unfold extract_script.
  eapply sublist_NoDup;
    [|apply (fmap_sublist raw_link), js_slice_to_sublist].
  rewrite scan_document_offers.
  apply (scan_offers_inv n (document_offers dom) _ scan_inv_init).
Qed.

Lemma container_candidate_link (sel : SelectorSet) (c : Container) (r : RawResult) :
  container_candidate sel c = Some r ->
  nonempty (raw_link r) = true /\ starts_with "http" (raw_link r) = true /\
  nonempty (raw_title r) = true.
Proof.
  unfold container_candidate. destruct (c_title c) as [t|]; [|discriminate].
  destruct (nonempty (container_link t c)) eqn:E1; [|discriminate].
  destruct (starts_with "http" (container_link t c)) eqn:E2; [|discriminate].
  destruct (nonempty (trim (t_text t))) eqn:E3; [|discriminate].
  simpl. intros [= <-]. simpl. auto.
Qed.

Lemma anchor_candidate_link (el : Anchor) (r : RawResult) :
  anchor_candidate el = Some r ->
  nonempty (raw_link r) = true /\ raw_link r = a_href el /\
  nonempty (raw_title r) = true.
Proof.
  unfold anchor_candidate.
  destruct (nonempty (a_href el)) eqn:E1; [|discriminate].
  destruct (nonempty (trim (a_text el))) eqn:E2; [|discriminate].
  simpl. destruct (negb _); [|discriminate].
  intros [= <-]. simpl. auto.
Qed.

(** Every candidate of a document has a title and a link, and the link
    begins with http: by the test of the script for a container, by the
    selector of the anchors and the resolution of their [href] else. *)
Lemma discovery_order_links (dom : Dom) (r : RawResult) :
  resolves_http dom -> r ∈ discovery_order dom ->
  nonempty (raw_link r) = true /\ starts_with "http" (raw_link r) = true /\
  nonempty (raw_title r) = true.
Proof.
  intros Hres Hr. unfold discovery_order in Hr.
  apply list_elem_of_omap in Hr as (o & Ho & Hsome). simpl in Hsome. subst o.
  unfold document_offers in Ho. apply elem_of_app in Ho as [Ho|Ho].
  - unfold structural_offers in Ho. apply list_elem_of_In, in_flat_map in Ho.
    destruct Ho as (sel & _ & Ho). apply in_map_iff in Ho as (c & Hc & _).
    now apply container_candidate_link in Hc.
  - apply list_elem_of_In, in_map_iff in Ho as (el & Hel & Hin).
    apply anchor_candidate_link in Hel as (H1 & H2 & H3).
    split; [exact H1|]. split; [|exact H3].
    unfold http_anchors in Hin. apply filter_In in Hin as [Hin Hattr].
    destruct (a_href_attr el) as [h|] eqn:Eh; [|discriminate].
    rewrite H2. now apply (Hres el h).
Qed.

Lemma extract_script_links (n : Z) (dom : Dom) (r : RawResult) :
  resolves_http dom -> r ∈ extract_script n dom ->
  nonempty (raw_link r) = true /\ starts_with "http" (raw_link r) = true /\
  nonempty (raw_title r) = true.
Proof.
  intros Hres Hr. apply (discovery_order_links dom r Hres).
  eapply elem_of_sublist; [exact Hr|]. apply extract_script_discovery_order.
Qed.

(** ** Persistence of the fingerprint *)

(** Loading the dictionary that [fingerprint_data] builds gives the state
    back. *)
Lemma saved_state_of_fingerprint_data (st : SavedState) :
  saved_state_of (fingerprint_data st) = Ok st.
Proof.
  destruct st as [[fp|] [d|]]; try destruct fp; reflexivity.
Qed.

Lemma load_saved_state_sidecar (files : gmap string file) (state_file : string)
    (st : SavedState) :
  is_Some (files !! state_file) ->
  files !! sidecar_path state_file = Some (FJson (fingerprint_data st)) ->
  load_saved_state files state_file =
  (Some state_file, st, sidecar_path state_file).
Proof.
  intros [f Hs] Hf. unfold load_saved_state. fold (sidecar_path state_file).
  rewrite Hs, Hf. simpl. now rewrite saved_state_of_fingerprint_data.
Qed.

(** C8. Saving a fingerprint and a domain and loading them again gives the
    same fingerprint, field for field, and the same domain: when the save
    is not suppressed and the two writes succeed, [load_saved_state] on the
    files left by [save_browser_state] returns the saved state. *)
Theorem fingerprint_round_trip (e : Attempt) (fp : FingerprintConfig)
    (domain : option string) (files : gmap string file) (tr : list event)
    (state_file : string) (blob : json)
    (Hstorage : e_storage_state e = Ok blob)
    (Hsidecar : e_write_sidecar e = Ok tt) :
  exists w',
    save_browser_state e state_file (sidecar_path state_file) false
      (mkWorld (mkSavedState (Some fp) domain) files tr) = Some (Ok tt, w') /\
    exists loaded,
      load_saved_state (w_files w') state_file =
        (Some state_file, mkSavedState (Some loaded) domain, sidecar_path state_file) /\
      device_name loaded = device_name fp /\
      locale loaded = locale fp /\
      timezone_id loaded = timezone_id fp /\
      color_scheme loaded = color_scheme fp /\
      reduced_motion loaded = reduced_motion fp /\
      forced_colors loaded = forced_colors fp.
Proof.
  unfold save_browser_state, storage_state, dump_fingerprint, try_catch, bind,
    call, emit, write_file, get_saved.
  simpl. rewrite Hstorage, Hsidecar. simpl.
  eexists. split; [reflexivity|]. exists fp. simpl. split; [|repeat split].
  apply load_saved_state_sidecar.
  - (* when the two paths coincide the sidecar has overwritten the state
       file, which still exists *)
    rewrite lookup_insert. case_decide; [eauto|].
    rewrite lookup_insert_eq. eauto.
  - apply lookup_insert_eq.
Qed.

(** The sidecar of the default state file. *)
Lemma sidecar_path_default :
  sidecar_path "./browser-state.json" = "./browser-state-fingerprint.json".
Proof. reflexivity. Qed.

Lemma fingerprint_round_trip_witness :
  exists w',
    save_browser_state (env_attempt env_two_results 0) "./browser-state.json"
      (sidecar_path "./browser-state.json") false
      (mkWorld (mkSavedState (Some (get_host_machine_config a_host None))
                             (Some "https://www.google.ca")) ∅ []) =
      Some (Ok tt, w') /\
    exists loaded,
      load_saved_state (w_files w') "./browser-state.json" =
        (Some "./browser-state.json",
         mkSavedState (Some loaded) (Some "https://www.google.ca"),
         sidecar_path "./browser-state.json") /\
      device_name loaded = device_name (get_host_machine_config a_host None) /\
      locale loaded = locale (get_host_machine_config a_host None) /\
      timezone_id loaded = timezone_id (get_host_machine_config a_host None) /\
      color_scheme loaded = color_scheme (get_host_machine_config a_host None) /\
      reduced_motion loaded = reduced_motion (get_host_machine_config a_host None) /\
      forced_colors loaded = forced_colors (get_host_machine_config a_host None).
Proof.
  apply (fingerprint_round_trip (env_attempt env_two_results 0)
           (get_host_machine_config a_host None) (Some "https://www.google.ca")
           ∅ [] "./browser-state.json" JNull);
    reflexivity.
Defined.

(** ** The orchestration: what a run adds to the trace *)

Lemma relaunches_app (a b : list event) :
  relaunches (a ++ b) = (relaunches a + relaunches b)%nat.
Proof. unfold relaunches. now rewrite List.filter_app, length_app. Qed.

Lemma headful_launches_app (a b : list event) :
  headful_launches (a ++ b) = (headful_launches a + headful_launches b)%nat.
Proof. unfold headful_launches. now rewrite List.filter_app, length_app. Qed.

Lemma fail_msgs_app (a b : list event) :
  fail_msgs (a ++ b) = (fail_msgs a ++ fail_msgs b)%list.
Proof.
  induction a as [|ev a IH]; [reflexivity|].
  destruct ev; simpl; now rewrite ?IH.
Qed.

Section Runs.

Variable G : FingerprintConfig -> Prop.

Lemma calm_nil : calm G [].
Proof. repeat split. constructor. Qed.

Lemma calm_app (a b : list event) : calm G a -> calm G b -> calm G (a ++ b).
Proof.
  intros (Ha1 & Ha2 & Ha3 & Ha4) (Hb1 & Hb2 & Hb3 & Hb4). repeat split.
  - rewrite relaunches_app. lia.
  - rewrite headful_launches_app. lia.
  - now rewrite fail_msgs_app, Ha3, Hb3.
  - apply Forall_app. now split.
Qed.

Lemma quiet_calm (evs : list event) :
  forallb quiet_event evs = true -> calm G evs.
Proof.
  induction evs as [|ev evs IH]; intros H; [apply calm_nil|].
  simpl in H. apply andb_true_iff in H as [Hev H].
  apply (calm_app [ev] evs); [|now apply IH].
  destruct ev; try discriminate; repeat split; repeat constructor.
Qed.

Lemma calm_one (ev : event) : quiet_event ev = true -> calm G [ev].
Proof. intros H. apply quiet_calm. simpl. now rewrite H. Qed.

End Runs.

(** ** Computations that only add quiet events *)

Lemma quiet_ret {A} (a : A) : quiet (ret a).
Proof. intros w. exists (Ok a), []. now rewrite add_events_nil. Qed.

Lemma quiet_raise {A} (msg : string) : quiet (@raise A msg).
Proof. intros w. exists (Exn msg), []. now rewrite add_events_nil. Qed.

Lemma quiet_call {A} (r : result A) : quiet (call r).
Proof. intros w. exists r, []. now rewrite add_events_nil. Qed.

Lemma quiet_emit (ev : event) : quiet_event ev = true -> quiet (emit ev).
Proof. intros H w. exists (Ok tt), [ev]. simpl. now rewrite H. Qed.

Lemma quiet_bind {A B} (m : M A) (f : A -> M B) :
  quiet m -> (forall a, quiet (f a)) -> quiet (bind m f).
Proof.
  intros Hm Hf w. destruct (Hm w) as (r & e1 & Hrun & He1).
  unfold bind. rewrite Hrun. destruct r as [a|msg].
  - destruct (Hf a (add_events w e1)) as (r2 & e2 & Hrun2 & He2).
    exists r2, (e1 ++ e2)%list. rewrite Hrun2, add_events_add. split; [reflexivity|].
    rewrite forallb_app. now rewrite He1, He2.
  - exists (Exn msg), e1. now split.
Qed.

Lemma quiet_try_catch {A} (m : M A) (h : string -> M A) :
  quiet m -> (forall msg, quiet (h msg)) -> quiet (try_catch m h).
Proof.
  intros Hm Hh w. destruct (Hm w) as (r & e1 & Hrun & He1).
  unfold try_catch. rewrite Hrun. destruct r as [a|msg].
  - exists (Ok a), e1. now split.
  - destruct (Hh msg (add_events w e1)) as (r2 & e2 & Hrun2 & He2).
    exists r2, (e1 ++ e2)%list. rewrite Hrun2, add_events_add. split; [reflexivity|].
    rewrite forallb_app. now rewrite He1, He2.
Qed.

(** Splits a computation into its parts; what remains are the events to
    check and the calls of other functions. *)
Ltac quiet_steps :=
  repeat first
    [ apply quiet_bind; [|intros ?]
    | apply quiet_try_catch; [|intros ?]
    | apply quiet_emit; reflexivity
    | apply quiet_ret
    | apply quiet_raise
    | apply quiet_call
    | match goal with
      | |- quiet (if ?b then _ else _) => destruct b
      | |- quiet (match ?x with _ => _ end) => destruct x
      end ].

Lemma quiet_find_search_input (e : Attempt) (selectors : list string) :
  quiet (find_search_input e selectors).
Proof.
  induction selectors as [|s l IH]; simpl; quiet_steps; exact IH.
Qed.

Lemma quiet_execute_search (e : Attempt) (query : string) :
  quiet (execute_search e query).
Proof.
  unfold execute_search.
  apply quiet_bind; [apply quiet_find_search_input | intros found].
  quiet_steps.
Qed.

Lemma quiet_selector_rounds (e : Attempt) (selector : string) :
  quiet (selector_rounds (Z.to_nat max_attempts) e selector 0 5000).
Proof.
  intros w. destruct (selector_rounds_runs e selector w) as (r & evs & Hrun & Hevs).
  exists r, evs. split; [exact Hrun|].
  destruct Hevs as [->|[->| ->]]; reflexivity.
Qed.

Lemma quiet_wait_selectors (e : Attempt) (selectors : list string) :
  quiet (wait_selectors e selectors).
Proof.
  induction selectors as [|s l IH]; simpl; [apply quiet_ret|].
  apply quiet_bind.
  - apply quiet_try_catch; [apply quiet_selector_rounds | intros; apply quiet_ret].
  - intros [|]; [apply quiet_ret | exact IH].
Qed.

Lemma quiet_wait_for_search_results (e : Attempt) (timeout : Z) :
  quiet (wait_for_search_results e timeout).
Proof.
  unfold wait_for_search_results.
  apply quiet_bind; [apply quiet_wait_selectors | intros found].
  quiet_steps.
Qed.

Lemma quiet_extract_search_results (e : Attempt) (limit : Z) :
  quiet (extract_search_results e limit).
Proof. unfold extract_search_results. quiet_steps. Qed.

Lemma quiet_create_page (e : Attempt) : quiet (create_page e).
Proof. unfold create_page. quiet_steps. Qed.

(** ** Composition of runs *)

Section Outcome.

Variable G : FingerprintConfig -> Prop.
Variable query : string.
Variable limit : Z.
Variable env : Env.

Lemma outcome_calm_l (nr nl : nat) (a b : list event) (r : result SearchResponse) :
  calm G a -> outcome_ok G query limit env nr nl b r ->
  outcome_ok G query limit env nr nl (a ++ b) r.
Proof.
  intros (Ha1 & Ha2 & Ha3 & Ha4) (Hb1 & Hb2 & Hb3 & Hb4). repeat split.
  - rewrite relaunches_app. lia.
  - rewrite headful_launches_app. lia.
  - apply Forall_app. now split.
  - rewrite fail_msgs_app, Ha3. exact Hb4.
Qed.

Lemma outcome_calm_r (nr nl : nat) (a b : list event) (r : result SearchResponse) :
  outcome_ok G query limit env nr nl a r -> calm G b ->
  outcome_ok G query limit env nr nl (a ++ b) r.
Proof.
  intros (Ha1 & Ha2 & Ha3 & Ha4) (Hb1 & Hb2 & Hb3 & Hb4). repeat split.
  - rewrite relaunches_app. lia.
  - rewrite headful_launches_app. lia.
  - apply Forall_app. now split.
  - rewrite fail_msgs_app, Hb3, app_nil_r. exact Ha4.
Qed.

Lemma outcome_exn_calm (nr nl : nat) (a : list event) (msg : string) :
  calm G a -> outcome_ok G query limit env nr nl a (Exn msg).
Proof.
  intros (Ha1 & Ha2 & Ha3 & Ha4). repeat split; [lia | lia | exact Ha4 |].
  rewrite Ha3. constructor.
Qed.

Lemma outcome_failed (nr nl : nat) (a : list event) (s : step) (msg : string) :
  calm G a -> outcome_ok G query limit env nr nl (a ++ [EvFailed s msg]) (Exn msg).
Proof.
  intros (Ha1 & Ha2 & Ha3 & Ha4). repeat split.
  - rewrite relaunches_app, Ha1. unfold relaunches. simpl. lia.
  - rewrite headful_launches_app, Ha2. unfold headful_launches. simpl. lia.
  - apply Forall_app. split; [exact Ha4 | repeat constructor].
  - rewrite fail_msgs_app, Ha3. repeat constructor.
Qed.

(** The [except] branch turns the exception into the failure response. *)
Lemma outcome_handle (nr nl : nat) (a : list event) (msg : string) :
  outcome_ok G query limit env nr nl a (Exn msg) ->
  outcome_ok G query limit env nr nl a (Ok (failure_response query msg)).
Proof.
  intros (Ha1 & Ha2 & Ha3 & Ha4). repeat split; try assumption.
  - eapply Forall_impl; [exact Ha4|]. now intros m ->.
  - left. now exists msg.
Qed.

Lemma outcome_mono (nr nl nr' nl' : nat) (a : list event) (r : result SearchResponse) :
  (nr <= nr')%nat -> (nl <= nl')%nat ->
  outcome_ok G query limit env nr nl a r ->
  outcome_ok G query limit env nr' nl' a r.
Proof. intros H1 H2 (Ha1 & Ha2 & Ha3 & Ha4). repeat split; try assumption; lia. Qed.

Lemma outcome_restart (nl : nat) (a b : list event) (r : result SearchResponse) :
  calm G a -> outcome_ok G query limit env 0 nl b r ->
  outcome_ok G query limit env 1 nl (a ++ EvRestart :: b) r.
Proof.
  intros (Ha1 & Ha2 & Ha3 & Ha4) (Hb1 & Hb2 & Hb3 & Hb4). repeat split.
  - rewrite relaunches_app, Ha1. change (relaunches (EvRestart :: b)) with (S (relaunches b)).
    lia.
  - rewrite headful_launches_app, Ha2.
    change (headful_launches (EvRestart :: b)) with (headful_launches b). lia.
  - apply Forall_app. split; [exact Ha4|]. constructor; [exact I | exact Hb3].
  - rewrite fail_msgs_app, Ha3. exact Hb4.
Qed.

Lemma outcome_success (nr nl k : nat) (a : list event) (dom : Dom) :
  calm G a -> e_evaluate (env_attempt env k) = Ok dom ->
  outcome_ok G query limit env nr nl a
    (Ok (mkSearchResponse query
           (convert_to_search_results (extract_script limit dom)))).
Proof.
  intros (Ha1 & Ha2 & Ha3 & Ha4) Hdom. repeat split; [lia | lia | exact Ha4 | |].
  - rewrite Ha3. constructor.
  - right. now exists k, dom.
Qed.

(** Events before a run that hold no restart, no failed step and no bad
    write, such as the launch of the browser. *)
Lemma outcome_prefix (nr nl : nat) (a b : list event) (r : result SearchResponse) :
  relaunches a = 0%nat -> fail_msgs a = [] -> Forall (sidecar_ok G) a ->
  outcome_ok G query limit env nr nl b r ->
  outcome_ok G query limit env nr (headful_launches a + nl) (a ++ b) r.
Proof.
  intros Ha1 Ha3 Ha4 (Hb1 & Hb2 & Hb3 & Hb4). repeat split.
  - rewrite relaunches_app. lia.
  - rewrite headful_launches_app. lia.
  - apply Forall_app. now split.
  - rewrite fail_msgs_app, Ha3. exact Hb4.
Qed.

(** A step made of quiet calls either succeeds, or ends with the record
    of its failure. *)
Lemma in_step_quiet {A} (s : step) (m : M A) (w : World) :
  quiet m ->
  exists r evs,
    in_step s m w = Some (r, add_events w evs) /\
    match r with
    | Ok _ => calm G evs
    | Exn msg => exists a, calm G a /\ evs = (a ++ [EvFailed s msg])%list
    end.
Proof.
  intros Hm. destruct (Hm w) as (r & evs & Hrun & Hq).
  unfold in_step, try_catch. rewrite Hrun. destruct r as [a|msg].
  - exists (Ok a), evs. split; [reflexivity | now apply quiet_calm].
  - exists (Exn msg), (evs ++ [EvFailed s msg])%list. split.
    + unfold bind. rewrite emit_add, add_events_add. reflexivity.
    + exists evs. split; [now apply quiet_calm | reflexivity].
Qed.

End Outcome.

Lemma bind_ok {A B} (m : M A) (f : A -> M B) (w w' : World) (a : A) :
  m w = Some (Ok a, w') -> bind m f w = f a w'.
Proof. intros H. unfold bind. now rewrite H. Qed.

Lemma bind_exn {A B} (m : M A) (f : A -> M B) (w w' : World) (msg : string) :
  m w = Some (Exn msg, w') -> bind m f w = Some (Exn msg, w').
Proof. intros H. unfold bind. now rewrite H. Qed.

Lemma try_catch_ok {A} (m : M A) (h : string -> M A) (w w' : World) (a : A) :
  m w = Some (Ok a, w') -> try_catch m h w = Some (Ok a, w').
Proof. intros H. unfold try_catch. now rewrite H. Qed.

Lemma try_catch_exn {A} (m : M A) (h : string -> M A) (w w' : World) (msg : string) :
  m w = Some (Exn msg, w') -> try_catch m h w = h msg w'.
Proof. intros H. unfold try_catch. now rewrite H. Qed.

Lemma fp_some_add (G : FingerprintConfig -> Prop) (w : World) (evs : list event) :
  fp_some G w -> fp_some G (add_events w evs).
Proof. intros H. exact H. Qed.

Lemma fp_some_inv (G : FingerprintConfig -> Prop) (w : World) :
  fp_some G w -> fp_inv G w.
Proof. intros (fp & Hfp & HG) fp' Hfp'. congruence. Qed.

Lemma finally_emit {A} (m : M A) (ev : event) (w w' : World) (r : result A) :
  m w = Some (r, w') -> finally m (emit ev) w = Some (r, add_events w' [ev]).
Proof. intros H. unfold finally. now rewrite H. Qed.

Lemma bind_assoc {A B C} (m : M A) (f : A -> M B) (g : B -> M C) (w : World) :
  bind (bind m f) g w = bind m (fun a => bind (f a) g) w.
Proof. unfold bind. destruct (m w) as [[[a|msg] w']|]; reflexivity. Qed.

Ltac trace_eq :=
  simpl; rewrite <- ?app_assoc; simpl;
  first [reflexivity | symmetry; apply app_nil_r].

Lemma bind_call {A B} (r : result A) (f : A -> M B) (w : World) :
  bind (call r) f w =
  match r with
  | Ok a => f a w
  | Exn msg => Some (Exn msg, w)
  end.
Proof. unfold bind, call. now destruct r. Qed.

Ltac calm_parts :=
  repeat apply calm_app; try assumption;
  apply quiet_calm; first [assumption | reflexivity].

Ltac calm_events :=
  split; [reflexivity | split; [reflexivity | split; [reflexivity |]]].

Section Persist.

Variable G : FingerprintConfig -> Prop.

(** Saving never raises, and writes the sidecar from the state. *)
Lemma save_browser_state_runs (e : Attempt) (state_file fingerprint_file : string)
    (no_save_state : bool) :
  runs (fp_some G) (save_browser_state e state_file fingerprint_file no_save_state)
       (fun evs r w' => r = Ok tt /\ calm G evs /\ fp_some G w').
Proof.
  intros w (fp & Hfp & HG).
  assert (Hside : forall p, sidecar_ok G (EvWriteSidecar p (fingerprint_data (w_saved w)))).
  { intros p. now exists (w_saved w), fp. }
  unfold save_browser_state, storage_state, dump_fingerprint, try_catch, bind,
    emit, call, write_file, get_saved, ret.
  destruct no_save_state; simpl.
  { exists (Ok tt), [], w. split; [reflexivity|]. split; [trace_eq|].
    split; [reflexivity|]. split; [apply calm_nil | now exists fp]. }
  destruct (e_storage_state e) as [blob|m]; simpl.
  - destruct (e_write_sidecar e) as [u|m]; simpl;
      eexists (Ok tt), _, _; (split; [reflexivity|]); (split; [trace_eq|]);
      (split; [reflexivity|]);
      (split; [calm_events; repeat constructor; apply Hside | now exists fp]).
  - eexists (Ok tt), _, _. split; [reflexivity|]. split; [trace_eq|].
    split; [reflexivity|]. split; [calm_events; repeat constructor | now exists fp].
Qed.

(** The [except] branch returns the failure response; with a context it
    may write the sidecar from the state. *)
Lemma on_search_error_runs (e : Attempt) (query state_file : string)
    (no_save_state : bool) (fingerprint_file : string) (provided : bool)
    (error : string) :
  runs (fp_some G)
       (on_search_error e query state_file no_save_state fingerprint_file
                        provided true error)
       (fun evs r w' =>
          r = Ok (failure_response query error) /\ calm G evs /\ fp_some G w').
Proof.
  intros w (fp & Hfp & HG).
  assert (Hside : forall p, sidecar_ok G (EvWriteSidecar p (fingerprint_data (w_saved w)))).
  { intros p. now exists (w_saved w), fp. }
  unfold on_search_error, close_own_browser, storage_state, dump_fingerprint,
    try_catch, bind, emit, call, write_file, get_saved, ret.
  destruct no_save_state; simpl.
  { destruct provided; simpl; eexists (Ok _), _, _; (split; [reflexivity|]);
      (split; [trace_eq|]); (split; [reflexivity|]);
      (split; [first [apply calm_nil | calm_events; repeat constructor]
              | now exists fp]). }
  destruct (e_storage_state e) as [blob|m]; simpl.
  - destruct (e_write_sidecar e) as [u|m]; destruct provided; simpl;
      eexists (Ok _), _, _; (split; [reflexivity|]); (split; [trace_eq|]);
      (split; [reflexivity|]);
      (split; [calm_events; repeat constructor; apply Hside | now exists fp]).
  - destruct provided; simpl;
      eexists (Ok _), _, _; (split; [reflexivity|]); (split; [trace_eq|]);
      (split; [reflexivity|]);
      (split; [calm_events; repeat constructor | now exists fp]).
Qed.

(** Without a context nothing is written. *)
Lemma on_search_error_unbound (e : Attempt) (query state_file : string)
    (no_save_state : bool) (fingerprint_file : string) (provided : bool)
    (error : string) (w : World) :
  exists evs,
    on_search_error e query state_file no_save_state fingerprint_file
                    provided false error w =
      Some (Ok (failure_response query error), add_events w evs) /\
    forallb quiet_event evs = true.
Proof.
  unfold on_search_error, close_own_browser, try_catch, bind, emit, raise, ret.
  destruct no_save_state, provided; simpl;
    first [ exists []; rewrite add_events_nil; split; reflexivity
          | exists [EvCloseBrowser]; split; reflexivity ].
Qed.

End Persist.

Section Orchestration.

Variable G : FingerprintConfig -> Prop.
Hypothesis G_host : forall host user_locale, G (get_host_machine_config host user_locale).

Variable env : Env.
Variable query : string.
Variables limit timeout : Z.
Variables state_file locale fingerprint_file : string.
Variable no_save_state : bool.

(** Creating the context only adds quiet events; a state without
    fingerprint gets the fingerprint of the host before the context is
    made. *)
Lemma create_context_runs (e : Attempt) (w : World) :
  fp_inv G w ->
  exists r evs w',
    create_context (env_host env) e state_file locale w = Some (r, w') /\
    w_trace w' = (w_trace w ++ evs)%list /\
    forallb quiet_event evs = true /\
    fp_inv G w' /\
    (r = Ok tt -> fp_some G w') /\
    (fp_some G w -> fp_some G w').
Proof.
  intros Hinv. unfold create_context, bind, get_saved, get_files, set_saved,
    call, emit, ret.
  destruct (get_device_config (fingerprint (w_saved w)) (e_random_device e))
    as [dc|m].
  2: { exists (Exn m), [], w. split; [reflexivity|]. split; [trace_eq|].
       split; [reflexivity|]. split; [exact Hinv|]. split; [discriminate | auto]. }
  destruct (fingerprint (w_saved w)) as [fp|] eqn:Hfp; simpl.
  - destruct (e_new_context e) as [[]|m]; eexists _, _, _;
      (split; [reflexivity|]); (split; [trace_eq|]); (split; [reflexivity|]).
    + split; [exact Hinv|]. split; [intros _ | intros _]; exists fp; auto.
    + split; [exact Hinv|]. split; [discriminate | intros _; exists fp; auto].
  - assert (Hnew : forall f t,
               fp_some G (mkWorld (mkSavedState
                                     (Some (get_host_machine_config (env_host env)
                                                                    (Some locale)))
                                     (google_domain (w_saved w))) f t)).
    { intros f t. eexists. split; [reflexivity | apply G_host]. }
    destruct (e_new_context e) as [[]|m]; eexists _, _, _;
      (split; [reflexivity|]); (split; [trace_eq|]); (split; [reflexivity|]).
    + split; [apply fp_some_inv, Hnew|]. split; intros _; apply Hnew.
    + split; [apply fp_some_inv, Hnew|]. split; [discriminate | intros _; apply Hnew].
Qed.

(** Choosing the domain leaves the trace and the fingerprint alone. *)
Lemma get_google_domain_runs (e : Attempt) (w : World) :
  exists d w',
    get_google_domain e w = Some (Ok d, w') /\
    w_trace w' = w_trace w /\
    fingerprint (w_saved w') = fingerprint (w_saved w).
Proof.
  unfold get_google_domain, bind, get_saved, set_saved, ret.
  destruct (google_domain (w_saved w)) as [d|]; [destruct (nonempty d)|];
    eexists _, _; split; reflexivity || (split; reflexivity).
Qed.

Lemma in_step_extract (e : Attempt) (w : World) :
  exists r evs,
    in_step Extract (extract_search_results e limit) w =
      Some (r, add_events w evs) /\
    match r with
    | Ok raw =>
        calm G evs /\
        exists dom, e_evaluate e = Ok dom /\ raw = extract_script limit dom
    | Exn msg => exists a, calm G a /\ evs = (a ++ [EvFailed Extract msg])%list
    end.
Proof.
  unfold in_step, extract_search_results, try_catch, bind, emit, call, ret, raise.
  destruct (e_evaluate e) as [dom|msg]; simpl.
  - exists (Ok (extract_script limit dom)), [EvEvaluate limit].
    split; [reflexivity|]. split; [now apply calm_one | now exists dom].
  - exists (Exn msg), [EvEvaluate limit; EvFailed Extract msg].
    split; [unfold add_events; simpl; now rewrite <- app_assoc|].
    exists [EvEvaluate limit]. split; [now apply calm_one | reflexivity].
Qed.

Lemma close_own_browser_runs (provided : bool) (w : World) :
  exists evs,
    close_own_browser provided w = Some (Ok tt, add_events w evs) /\
    forallb quiet_event evs = true.
Proof.
  destruct provided; simpl.
  - exists []. now rewrite add_events_nil.
  - exists [EvCloseBrowser]. split; reflexivity.
Qed.

(** From the results on: a failed step ends the run with its message; else
    the response holds what the script found. *)
Lemma finish_search_runs (k : nat) (provided : bool) :
  runs (fp_some G)
       (finish_search (env_attempt env k) query limit timeout state_file
                      no_save_state fingerprint_file provided)
       (fun evs r w' => outcome_ok G query limit env 0 0 evs r /\ fp_some G w').
Proof.
  intros w HP. unfold finish_search. set (e := env_attempt env k).
  destruct (in_step_quiet G WaitResults (wait_for_search_results e timeout) w
              (quiet_wait_for_search_results e timeout)) as (r1 & e1 & Hrun1 & H1).
  destruct r1 as [b|msg].
  2: { rewrite (bind_exn _ _ _ _ _ Hrun1). destruct H1 as (a & Ha & ->).
       eexists _, _, _. split; [reflexivity|]. split; [reflexivity|].
       split; [now apply outcome_failed | exact HP]. }
  rewrite (bind_ok _ _ _ _ _ Hrun1).
  destruct (in_step_extract e (add_events w e1)) as (r2 & e2 & Hrun2 & H2).
  destruct r2 as [raw|msg].
  2: { rewrite (bind_exn _ _ _ _ _ Hrun2). destruct H2 as (a & Ha & ->).
       eexists _, _, _. split; [reflexivity|]. split; [trace_eq|].
       split; [| exact HP].
       apply outcome_calm_l; [exact H1 | now apply outcome_failed]. }
  rewrite (bind_ok _ _ _ _ _ Hrun2). destruct H2 as (Hc2 & dom & Hdom & ->).
  destruct (save_browser_state_runs G e state_file fingerprint_file no_save_state
              (add_events (add_events w e1) e2) HP)
    as (r3 & e3 & w3 & Hrun3 & Htr3 & -> & Hc3 & HP3).
  rewrite (bind_ok _ _ _ _ _ Hrun3).
  destruct (close_own_browser_runs provided w3) as (e4 & Hrun4 & Hq4).
  rewrite (bind_ok _ _ _ _ _ Hrun4).
  eexists _, _, _. split; [reflexivity|]. split.
  { simpl. rewrite Htr3. trace_eq. }
  split; [| exact HP3].
  apply (outcome_success G query limit env 0 0 k); [| exact Hdom].
  calm_parts.
Qed.

(** After the navigation: in a headless run a block after the query calls
    [restart_callback] once; a headful run never calls it. *)
Lemma search_after_navigation_runs (k nl : nat) (headless provided : bool)
    (restart_callback : M SearchResponse) :
  (headless = true ->
   runs (fp_some G) restart_callback
        (fun evs r w' => outcome_ok G query limit env 0 nl evs r /\ fp_some G w')) ->
  runs (fp_some G)
       (search_after_navigation (env_attempt env k) query limit timeout state_file
          no_save_state fingerprint_file headless provided restart_callback)
       (fun evs r w' =>
          outcome_ok G query limit env (if headless then 1 else 0)
                     (if headless then nl else 0) evs r /\ fp_some G w').
Proof.
  intros Hcb w HP. unfold search_after_navigation. set (e := env_attempt env k).
  destruct (in_step_quiet G ExecuteQuery (execute_search e query) w
              (quiet_execute_search e query)) as (r1 & e1 & Hrun1 & H1).
  destruct r1 as [b|msg].
  2: { rewrite (bind_exn _ _ _ _ _ Hrun1). destruct H1 as (a & Ha & ->).
       eexists _, _, _. split; [reflexivity|]. split; [reflexivity|].
       split; [now apply outcome_failed | exact HP]. }
  rewrite (bind_ok _ _ _ _ _ Hrun1), bind_emit, add_events_add, bind_call.
  assert (Hc1 : calm G (e1 ++ [EvWaitLoadState timeout])).
  { apply calm_app; [exact H1 | now apply calm_one]. }
  destruct (e_load_state e) as [[]|msg].
  2: { eexists _, _, _. split; [reflexivity|]. split; [reflexivity|].
       split; [now apply outcome_exn_calm | exact HP]. }
  assert (Hfinish : forall a w0,
             calm G a -> fp_some G w0 -> w_trace w0 = (w_trace w ++ a)%list ->
             exists r evs w',
               finish_search e query limit timeout state_file no_save_state
                             fingerprint_file provided w0 = Some (r, w') /\
               w_trace w' = (w_trace w ++ evs)%list /\
               outcome_ok G query limit env (if headless then 1 else 0)
                          (if headless then nl else 0) evs r /\ fp_some G w').
  { intros a w0 Ha HP0 Htr0.
    destruct (finish_search_runs k provided w0 HP0) as (r & ef & w' & Hrun & Htr & Ho & HP').
    exists r, (a ++ ef)%list, w'. split; [exact Hrun|]. split.
    { rewrite Htr, Htr0. trace_eq. }
    split; [| exact HP'].
    apply outcome_calm_l; [exact Ha|].
    eapply outcome_mono; [| | exact Ho]; lia. }
  destruct (is_blocked_page (e_search_url e) None).
  - destruct headless.
    + rewrite !bind_emit, !add_events_add.
      destruct (close_own_browser_runs provided
                  (add_events w ((e1 ++ [EvWaitLoadState timeout]) ++
                                 [EvClosePage] ++ [EvCloseContext])))
        as (e4 & Hrun4 & Hq4).
      rewrite (bind_ok _ _ _ _ _ Hrun4), bind_emit, !add_events_add.
      match goal with
      | |- context [restart_callback ?w0] =>
          destruct (Hcb eq_refl w0 HP) as (r & ecb & w' & Hrun & Htr & Ho & HP')
      end.
      exists r,
        (((e1 ++ [EvWaitLoadState timeout]) ++ [EvClosePage; EvCloseContext] ++ e4)
           ++ EvRestart :: ecb)%list, w'.
      split; [exact Hrun|]. split.
      { rewrite Htr. trace_eq. }
      split; [| exact HP'].
      apply outcome_restart; [| exact Ho].
      calm_parts.
    + rewrite bind_emit, add_events_add, bind_call.
      assert (Hc2 : calm G ((e1 ++ [EvWaitLoadState timeout]) ++
                            [EvWaitForUrl (timeout * 2)])).
      { apply calm_app; [exact Hc1 | now apply calm_one]. }
      destruct (e_wait_for_url_search e) as [[]|msg].
      * eapply Hfinish; [exact Hc2 | exact HP | reflexivity].
      * eexists _, _, _. split; [reflexivity|]. split; [reflexivity|].
        split; [now apply outcome_exn_calm | exact HP].
  - eapply Hfinish; [exact Hc1 | exact HP | reflexivity].
Qed.

(** With a context: a block of the navigation in a headless run that owns
    its browser calls [restart_callback] once. *)
Lemma search_with_context_runs (k nl : nat) (headless provided : bool)
    (restart_callback : M SearchResponse) :
  (headless = true ->
   runs (fp_some G) restart_callback
        (fun evs r w' => outcome_ok G query limit env 0 nl evs r /\ fp_some G w')) ->
  runs (fp_some G)
       (search_with_context (env_attempt env k) query limit timeout state_file
          no_save_state fingerprint_file headless provided restart_callback)
       (fun evs r w' =>
          outcome_ok G query limit env (if headless then 1 else 0)
                     (if headless then nl else 0) evs r /\ fp_some G w').
Proof.
  intros Hcb w HP. unfold search_with_context. set (e := env_attempt env k).
  destruct (quiet_create_page e w) as (r0 & e0 & Hrun0 & Hq0).
  apply (quiet_calm G) in Hq0.
  destruct r0 as [[]|msg].
  2: { rewrite (bind_exn _ _ _ _ _ Hrun0).
       eexists _, _, _. split; [reflexivity|]. split; [reflexivity|].
       split; [now apply outcome_exn_calm | exact HP]. }
  rewrite (bind_ok _ _ _ _ _ Hrun0).
  destruct (get_google_domain_runs e (add_events w e0)) as (d & w1 & Hrun1 & Htr1 & Hfp1).
  rewrite (bind_ok _ _ _ _ _ Hrun1).
  assert (HP1 : fp_some G w1).
  { destruct HP as (fp & Hfp & HG). exists fp. split; [|exact HG].
    rewrite Hfp1. exact Hfp. }
  assert (Hnav : quiet (emit (EvGoto d timeout) ;; call (e_goto e)))
    by quiet_steps.
  destruct (in_step_quiet G Navigate _ w1 Hnav) as (r2 & e2 & Hrun2 & H2).
  destruct r2 as [response|msg].
  2: { rewrite (bind_exn _ _ _ _ _ Hrun2). destruct H2 as (a & Ha & ->).
       eexists _, (e0 ++ a ++ [EvFailed Navigate msg])%list, _.
       split; [reflexivity|]. split; [simpl; rewrite Htr1; trace_eq|].
       split; [| exact HP1].
       apply outcome_calm_l; [exact Hq0 | now apply outcome_failed]. }
  rewrite (bind_ok _ _ _ _ _ Hrun2).
  assert (Hrest : forall a w0 hl,
             calm G a -> fp_some G w0 -> w_trace w0 = (w_trace w ++ a)%list ->
             (hl = headless \/ hl = false) ->
             exists r evs w',
               search_after_navigation e query limit timeout state_file
                 no_save_state fingerprint_file hl provided restart_callback w0 =
                 Some (r, w') /\
               w_trace w' = (w_trace w ++ evs)%list /\
               outcome_ok G query limit env (if headless then 1 else 0)
                          (if headless then nl else 0) evs r /\ fp_some G w').
  { intros a w0 hl Ha HP0 Htr0 Hhl.
    assert (Hcb' : hl = true ->
              runs (fp_some G) restart_callback
                (fun evs r w' => outcome_ok G query limit env 0 nl evs r /\ fp_some G w')).
    { intros ->. destruct Hhl as [<-|]; [now apply Hcb | discriminate]. }
    destruct (search_after_navigation_runs k nl hl provided restart_callback Hcb' w0 HP0)
      as (r & ef & w' & Hrun & Htr & Ho & HP').
    exists r, (a ++ ef)%list, w'. split; [exact Hrun|]. split.
    { rewrite Htr, Htr0. trace_eq. }
    split; [| exact HP'].
    apply outcome_calm_l; [exact Ha|].
    destruct Hhl as [->| ->]; [exact Ho|].
    eapply outcome_mono; [| | exact Ho]; lia. }
  assert (Htr2 : w_trace (add_events w1 e2) = (w_trace w ++ e0 ++ e2)%list).
  { simpl. rewrite Htr1. trace_eq. }
  assert (Hc2 : calm G (e0 ++ e2)) by (apply calm_app; assumption).
  destruct (is_blocked_page (fst response) (snd response)).
  - destruct headless.
    + rewrite !bind_emit, !add_events_add. destruct provided.
      * eexists _, (e0 ++ e2 ++ [EvClosePage] ++ [EvCloseContext])%list, _.
        split; [reflexivity|]. split; [simpl; rewrite Htr1; trace_eq|].
        split; [| exact HP1]. apply outcome_exn_calm. calm_parts.
      * rewrite !bind_emit, !add_events_add.
        match goal with
        | |- context [restart_callback ?w0] =>
            destruct (Hcb eq_refl w0 HP1) as (r & ecb & w' & Hrun & Htr & Ho & HP')
        end.
        exists r,
          ((e0 ++ e2 ++ [EvClosePage; EvCloseContext; EvCloseBrowser])
             ++ EvRestart :: ecb)%list, w'.
        split; [exact Hrun|]. split.
        { rewrite Htr. simpl. rewrite Htr1. trace_eq. }
        split; [| exact HP'].
        apply outcome_restart; [| exact Ho]. calm_parts.
    + rewrite bind_emit, add_events_add, bind_call.
      destruct (e_wait_for_url_nav e) as [[]|msg].
      * eapply (Hrest ((e0 ++ e2) ++ [EvWaitForUrl (timeout * 2)])%list);
          [calm_parts | exact HP1 | simpl; rewrite Htr1; trace_eq | now right].
      * eexists _, (e0 ++ e2 ++ [EvWaitForUrl (timeout * 2)])%list, _.
        split; [reflexivity|]. split; [simpl; rewrite Htr1; trace_eq|].
        split; [| exact HP1]. apply outcome_exn_calm. calm_parts.
  - eapply Hrest; [exact Hc2 | exact HP1 | exact Htr2 | now left].
Qed.

(** [_perform_search_with_browser] never raises. *)
Lemma perform_search_with_browser_runs (k nl : nat) (headless provided : bool)
    (restart_callback : M SearchResponse) (w : World) :
  (headless = true ->
   runs (fp_some G) restart_callback
        (fun evs r w' => outcome_ok G query limit env 0 nl evs r /\ fp_some G w')) ->
  fp_inv G w ->
  exists resp evs w',
    _perform_search_with_browser (env_host env) (env_attempt env k) query limit
      timeout state_file no_save_state locale fingerprint_file headless provided
      restart_callback w = Some (Ok resp, w') /\
    w_trace w' = (w_trace w ++ evs)%list /\
    outcome_ok G query limit env (if headless then 1 else 0)
               (if headless then nl else 0) evs (Ok resp) /\
    fp_inv G w' /\ (fp_some G w -> fp_some G w').
Proof.
  intros Hcb Hinv. unfold _perform_search_with_browser. set (e := env_attempt env k).
  destruct (create_context_runs e w Hinv)
    as (r0 & e0 & w0 & Hrun0 & Htr0 & Hq0 & Hinv0 & Hok0 & Hkeep0).
  apply (quiet_calm G) in Hq0.
  destruct r0 as [[]|msg].
  - specialize (Hok0 eq_refl).
    destruct (search_with_context_runs k nl headless provided restart_callback
                Hcb w0 Hok0) as (r1 & e1 & w1 & Hrun1 & Htr1 & Ho1 & HP1).
    destruct r1 as [resp|msg].
    + exists resp, (e0 ++ e1)%list, w1. split.
      { apply try_catch_ok. rewrite (bind_ok _ _ _ _ _ Hrun0).
        now apply try_catch_ok. }
      split; [rewrite Htr1, Htr0; trace_eq|].
      split; [now apply outcome_calm_l|].
      split; [now apply fp_some_inv | intros _; exact HP1].
    + destruct (on_search_error_runs G e query state_file no_save_state
                  fingerprint_file provided msg w1 HP1)
        as (r2 & e2 & w2 & Hrun2 & Htr2 & -> & Hc2 & HP2).
      exists (failure_response query msg), (e0 ++ e1 ++ e2)%list, w2. split.
      { apply try_catch_ok. rewrite (bind_ok _ _ _ _ _ Hrun0).
        rewrite (try_catch_exn _ _ _ _ _ Hrun1). exact Hrun2. }
      split; [rewrite Htr2, Htr1, Htr0; trace_eq|].
      split; [| split; [now apply fp_some_inv | intros _; exact HP2]].
      apply outcome_calm_l; [exact Hq0|].
      apply outcome_calm_r; [|exact Hc2]. now apply outcome_handle.
  - destruct (on_search_error_unbound e query state_file no_save_state
                fingerprint_file provided msg w0) as (e2 & Hrun2 & Hq2).
    exists (failure_response query msg), (e0 ++ e2)%list, (add_events w0 e2). split.
    { rewrite (try_catch_exn _ _ _ w0 msg); [exact Hrun2|].
      now rewrite (bind_exn _ _ _ _ _ Hrun0). }
    split; [simpl; rewrite Htr0; trace_eq|].
    split; [| split; [exact Hinv0 | exact Hkeep0]].
    apply outcome_handle, outcome_exn_calm. calm_parts.
Qed.

(** [_perform_search_internal] with fuel for this run, given that the
    restart of a headless run returns: at most one restart in a headless
    run, none in a headful one; only a failed launch raises, before any
    step. *)
Lemma perform_search_internal_runs (fuel k : nat) (headless existing : bool)
    (w : World) :
  (headless = true ->
   runs (fp_some G)
        (_perform_search_internal fuel env (S k) query limit timeout state_file
           no_save_state locale fingerprint_file false false)
        (fun evs r w' => outcome_ok G query limit env 0 1 evs r /\ fp_some G w')) ->
  fp_inv G w ->
  exists r evs w',
    _perform_search_internal (S fuel) env k query limit timeout state_file
      no_save_state locale fingerprint_file headless existing w = Some (r, w') /\
    w_trace w' = (w_trace w ++ evs)%list /\
    outcome_ok G query limit env (if headless then 1 else 0) 1 evs r /\
    (forall m, r = Exn m -> fail_msgs evs = []) /\
    fp_inv G w' /\ (fp_some G w -> fp_some G w') /\
    (existing = false ->
     exists rest,
       evs = ([EvStartPlaywright; EvStartPlaywright; EvLaunch headless (timeout * 2)]
                ++ rest)%list).
Proof.
  intros Hcb Hinv. simpl _perform_search_internal.
  set (cb := _perform_search_internal fuel env (S k) query limit timeout
               state_file no_save_state locale fingerprint_file false false) in *.
  destruct existing.
  - destruct (perform_search_with_browser_runs k 1 headless true cb w Hcb Hinv)
      as (resp & evs & w' & Hrun & Htr & Ho & Hinv' & Hkeep).
    exists (Ok resp), evs, w'. split; [now apply try_catch_ok|].
    split; [exact Htr|]. split.
    { eapply outcome_mono; [| | exact Ho]; destruct headless; lia. }
    split; [discriminate|]. split; [exact Hinv'|]. split; [exact Hkeep | discriminate].
  - rewrite bind_emit. unfold launch_browser.
    set (w0 := add_events w [EvStartPlaywright]).
    destruct (e_launch (env_attempt env k)) as [[]|msg].
    + destruct (perform_search_with_browser_runs k 1 headless false cb
                  (add_events w0 [EvStartPlaywright; EvLaunch headless (timeout * 2)]))
        as (resp & evs & w' & Hrun & Htr & Ho & Hinv' & Hkeep);
        [exact Hcb | exact Hinv |].
      exists (Ok resp),
        ([EvStartPlaywright; EvStartPlaywright; EvLaunch headless (timeout * 2)]
           ++ evs ++ [EvCloseBrowser; EvStopPlaywright])%list,
        (add_events (add_events w' [EvCloseBrowser]) [EvStopPlaywright]).
      split.
      { apply finally_emit.
        repeat first [rewrite bind_assoc | rewrite bind_emit].
        rewrite add_events_add, bind_call.
        now apply finally_emit. }
      split; [simpl; rewrite Htr; trace_eq|].
      split; [| split; [discriminate |
                        split; [exact Hinv' | split; [exact Hkeep | intros _; eauto]]]].
      rewrite app_assoc. apply outcome_calm_r; [| calm_parts].
      eapply outcome_mono;
        [| | apply outcome_prefix; [reflexivity | reflexivity | repeat constructor | exact Ho]];
        destruct headless; simpl; lia.
    + exists (Exn msg),
        [EvStartPlaywright; EvStartPlaywright; EvLaunch headless (timeout * 2);
         EvStopPlaywright],
        (add_events w [EvStartPlaywright; EvStartPlaywright;
                       EvLaunch headless (timeout * 2); EvStopPlaywright]).
      split.
      { erewrite finally_emit;
          [| repeat first [rewrite bind_assoc | rewrite bind_emit];
             rewrite add_events_add, bind_call; reflexivity].
        unfold w0. now rewrite !add_events_add. }
      split; [reflexivity|].
      split; [| split; [reflexivity |
                        split; [exact Hinv |
                                split; [auto | intros _; exists [EvStopPlaywright];
                                               reflexivity]]]].
      repeat split; try (destruct headless; unfold relaunches, headful_launches; simpl; lia);
        repeat constructor.
Qed.

(** A headful run returns with any fuel: it never calls the callback. *)
Lemma headful_run (fuel k : nat) (existing : bool) (w : World) :
  fp_inv G w ->
  exists r evs w',
    _perform_search_internal (S fuel) env k query limit timeout state_file
      no_save_state locale fingerprint_file false existing w = Some (r, w') /\
    w_trace w' = (w_trace w ++ evs)%list /\
    outcome_ok G query limit env 0 1 evs r /\
    (forall m, r = Exn m -> fail_msgs evs = []) /\
    fp_inv G w' /\ (fp_some G w -> fp_some G w') /\
    (existing = false ->
     exists rest,
       evs = ([EvStartPlaywright; EvStartPlaywright; EvLaunch false (timeout * 2)]
                ++ rest)%list).
Proof.
  intros Hinv.
  apply (perform_search_internal_runs fuel k false existing w); [discriminate | exact Hinv].
Qed.

(** A headless run returns with fuel for one restart. *)
Lemma headless_run (fuel k : nat) (existing : bool) (w : World) :
  fp_inv G w ->
  exists r evs w',
    _perform_search_internal (S (S fuel)) env k query limit timeout state_file
      no_save_state locale fingerprint_file true existing w = Some (r, w') /\
    w_trace w' = (w_trace w ++ evs)%list /\
    outcome_ok G query limit env 1 1 evs r /\
    (forall m, r = Exn m -> fail_msgs evs = []) /\
    fp_inv G w' /\ (fp_some G w -> fp_some G w') /\
    (existing = false ->
     exists rest,
       evs = ([EvStartPlaywright; EvStartPlaywright; EvLaunch true (timeout * 2)]
                ++ rest)%list).
Proof.
  intros Hinv.
  apply (perform_search_internal_runs (S fuel) k true existing w); [| exact Hinv].
  intros _ w0 HP0.
  destruct (headful_run fuel (S k) false w0 (fp_some_inv G w0 HP0))
    as (r & evs & w' & Hrun & Htr & Ho & _ & _ & Hkeep & _).
  exists r, evs, w'. auto.
Qed.

End Orchestration.

(** ** The whole call *)

(** [google_search] returns with fuel for one restart, and what it adds to
    the trace is the outcome of a headless run. *)
Lemma google_search_runs (G : FingerprintConfig -> Prop)
    (G_host : forall host user_locale, G (get_host_machine_config host user_locale))
    (fuel : nat) (env : Env) (files : gmap string file) (query : string)
    (options : option CommandOptions) (existing : bool) :
  fp_inv G (initial_world files options) ->
  exists r w',
    google_search (search_fuel + fuel) env files query options existing =
      Some (r, w') /\
    outcome_ok G query (effective_limit (default default_options options)) env
               1 1 (w_trace w') r /\
    (forall m, r = Exn m -> fail_msgs (w_trace w') = []).
Proof.
  intros Hinv. unfold google_search.
  destruct (headless_run G G_host env query
              (effective_limit (default default_options options))
              (effective_timeout (default default_options options))
              (effective_state_file (default default_options options))
              (effective_locale (default default_options options))
              (snd (load_saved_state files
                      (effective_state_file (default default_options options))))
              (effective_no_save_state (default default_options options))
              fuel 0 existing (initial_world files options) Hinv)
    as (r & evs & w' & Hrun & Htr & Ho & Hexn & _).
  exists r, w'. split; [exact Hrun|].
  simpl in Htr. rewrite Htr. now split.
Qed.

Lemma any_fp_host (host : Host) (user_locale : option string) :
  any_fp (get_host_machine_config host user_locale).
Proof. exact I. Qed.

Lemma fp_inv_any (w : World) : fp_inv any_fp w.
Proof. intros fp _. exact I. Qed.


(** ** A blocked navigation *)

Lemma random_choice_device (r : nat) :
  exists d, device_of (random_choice r device_list) = Ok d.
Proof.
  unfold random_choice. change (List.length device_list) with 4%nat.
  assert (H : (r mod 4 < 4)%nat) by (apply Nat.mod_upper_bound; lia).
  destruct (r mod 4)%nat as [|[|[|[|n]]]]; try lia; eexists; reflexivity.
Qed.

(** The device table answers every lookup [get_device_config] makes. *)
Lemma get_device_config_ok (fp : option FingerprintConfig) (r : nat) :
  exists dc, get_device_config fp r = Ok dc.
Proof.
  unfold get_device_config.
  destruct fp as [fp|];
    [destruct (nonempty (device_name fp) &&
               bool_decide (is_Some (assoc (device_name fp) playwright_devices))) eqn:E|].
  - apply andb_true_iff in E as [_ E]. apply bool_decide_eq_true in E as [d Hd].
    unfold device_of. rewrite Hd. eauto.
  - destruct (random_choice_device r) as [d ->]. eauto.
  - destruct (random_choice_device r) as [d ->]. eauto.
Qed.

(** When the browser makes the context, [create_context] returns and the
    state holds a fingerprint. *)
Lemma create_context_ok (host : Host) (e : Attempt) (state_file locale : string)
    (w : World) :
  e_new_context e = Ok tt ->
  exists opts w1,
    create_context host e state_file locale w = Some (Ok tt, w1) /\
    w_trace w1 = (w_trace w ++ [EvNewContext opts])%list /\
    fp_some any_fp w1.
Proof.
  intros Hctx. unfold create_context, bind, get_saved, get_files, set_saved,
    call, emit, ret.
  destruct (get_device_config_ok (fingerprint (w_saved w)) (e_random_device e))
    as [dc ->].
  destruct (fingerprint (w_saved w)) as [fp|] eqn:Hfp; simpl; rewrite Hctx;
    eexists _, _; (split; [reflexivity|]); (split; [reflexivity|]);
    eexists; simpl; (split; [eauto | exact I]).
Qed.

Lemma create_page_ok (e : Attempt) (w : World) :
  e_new_page e = Ok tt ->
  create_page e w = Some (Ok tt, add_events w [EvNewPage]).
Proof. intros H. unfold create_page. now rewrite bind_emit, H. Qed.

Lemma navigate_ok (e : Attempt) (d : string) (timeout : Z)
    (response : string * option string) (w : World) :
  e_goto e = Ok response ->
  in_step Navigate (emit (EvGoto d timeout) ;; call (e_goto e)) w =
  Some (Ok response, add_events w [EvGoto d timeout]).
Proof. intros H. unfold in_step, try_catch. now rewrite bind_emit, H. Qed.

(** With a context, a page and a navigation that lands on a blocked URL:
    a headless run that owns its browser closes page, context and browser
    and continues as [restart_callback]. *)
Lemma search_with_context_blocked_headless (e : Attempt) (query : string)
    (limit timeout : Z) (state_file : string) (no_save_state : bool)
    (fingerprint_file : string) (restart_callback : M SearchResponse)
    (response : string * option string) (w : World) :
  e_new_page e = Ok tt -> e_goto e = Ok response ->
  is_blocked_page (fst response) (snd response) = true ->
  exists d w1,
    w_trace w1 =
      (w_trace w ++ [EvNewPage; EvGoto d timeout; EvClosePage; EvCloseContext;
                     EvCloseBrowser; EvRestart])%list /\
    fingerprint (w_saved w1) = fingerprint (w_saved w) /\
    search_with_context e query limit timeout state_file no_save_state
      fingerprint_file true false restart_callback w = restart_callback w1.
Proof.
  intros Hpage Hgoto Hblocked. unfold search_with_context.
  rewrite (bind_ok _ _ _ _ _ (create_page_ok e w Hpage)).
  destruct (get_google_domain_runs e (add_events w [EvNewPage]))
    as (d & w1 & Hrun1 & Htr1 & Hfp1).
  rewrite (bind_ok _ _ _ _ _ Hrun1).
  rewrite (bind_ok _ _ _ _ _ (navigate_ok e d timeout response w1 Hgoto)).
  rewrite Hblocked, !bind_emit, !add_events_add.
  eexists d, _. split; [|split; [|reflexivity]].
  - simpl. rewrite Htr1. trace_eq.
  - exact Hfp1.
Qed.

(** In a headful run the same navigation waits for the URL to leave the
    blocked set, for twice the timeout, and goes on with the query. *)
Lemma search_with_context_blocked_headful (e : Attempt) (query : string)
    (limit timeout : Z) (state_file : string) (no_save_state : bool)
    (fingerprint_file : string) (provided : bool)
    (restart_callback : M SearchResponse)
    (response : string * option string) (w : World) :
  e_new_page e = Ok tt -> e_goto e = Ok response ->
  is_blocked_page (fst response) (snd response) = true ->
  exists d w1,
    w_trace w1 =
      (w_trace w ++ [EvNewPage; EvGoto d timeout; EvWaitForUrl (timeout * 2)])%list /\
    fingerprint (w_saved w1) = fingerprint (w_saved w) /\
    search_with_context e query limit timeout state_file no_save_state
      fingerprint_file false provided restart_callback w =
    (call (e_wait_for_url_nav e) ;;
     search_after_navigation e query limit timeout state_file no_save_state
       fingerprint_file false provided restart_callback) w1.
Proof.
  intros Hpage Hgoto Hblocked. unfold search_with_context.
  rewrite (bind_ok _ _ _ _ _ (create_page_ok e w Hpage)).
  destruct (get_google_domain_runs e (add_events w [EvNewPage]))
    as (d & w1 & Hrun1 & Htr1 & Hfp1).
  rewrite (bind_ok _ _ _ _ _ Hrun1).
  rewrite (bind_ok _ _ _ _ _ (navigate_ok e d timeout response w1 Hgoto)).
  rewrite Hblocked, !bind_emit, !add_events_add.
  eexists d, _. split; [|split; [|reflexivity]].
  - simpl. rewrite Htr1. trace_eq.
  - exact Hfp1.
Qed.

Lemma new_events_eq (w w' : World) (evs : list event) :
  w_trace w' = (w_trace w ++ evs)%list -> new_events w w' = evs.
Proof. intros H. unfold new_events. rewrite H. apply drop_app_length. Qed.

(** One unfolding of [_perform_search_internal] for a run that launches
    its own browser. *)
Lemma perform_search_internal_own (fuel : nat) (env : Env) (k : nat)
    (query : string) (limit timeout : Z) (state_file : string)
    (no_save_state : bool) (locale fingerprint_file : string) (headless : bool)
    (w : World) :
  _perform_search_internal (S fuel) env k query limit timeout state_file
    no_save_state locale fingerprint_file headless false w =
  finally
    (launch_browser (env_attempt env k) headless timeout ;;
     finally
       (_perform_search_with_browser (env_host env) (env_attempt env k) query
          limit timeout state_file no_save_state locale fingerprint_file
          headless false
          (_perform_search_internal fuel env (S k) query limit timeout
             state_file no_save_state locale fingerprint_file false false))
       (emit EvCloseBrowser))
    (emit EvStopPlaywright) (add_events w [EvStartPlaywright]).
Proof. reflexivity. Qed.

Section BlockedRuns.

Variable env : Env.
Variable query : string.
Variables limit timeout : Z.
Variables state_file locale fingerprint_file : string.
Variable no_save_state : bool.
Variable k : nat.
Variable response : string * option string.

Hypothesis Hlaunch : e_launch (env_attempt env k) = Ok tt.
Hypothesis Hcontext : e_new_context (env_attempt env k) = Ok tt.
Hypothesis Hpage : e_new_page (env_attempt env k) = Ok tt.
Hypothesis Hgoto : e_goto (env_attempt env k) = Ok response.
Hypothesis Hblocked : is_blocked_page (fst response) (snd response) = true.

(** A headless run that owns its browser and is blocked at the navigation
    closes page, context and browser, restarts once, and the restart
    launches a headful browser; nothing else in the run restarts or
    launches one. *)
Lemma blocked_headless_run (fuel : nat) (w : World) :
  exists r w' before after,
    _perform_search_internal (S (S fuel)) env k query limit timeout state_file
      no_save_state locale fingerprint_file true false w = Some (r, w') /\
    w_trace w' =
      (w_trace w ++ before ++
       [EvClosePage; EvCloseContext; EvCloseBrowser; EvRestart;
        EvStartPlaywright; EvStartPlaywright; EvLaunch false (timeout * 2)] ++
       after)%list /\
    relaunches before = 0%nat /\ headful_launches before = 0%nat /\
    relaunches after = 0%nat /\ headful_launches after = 0%nat.
Proof.
  set (e := env_attempt env k) in *.
  set (cb := _perform_search_internal (S fuel) env (S k) query limit timeout
               state_file no_save_state locale fingerprint_file false false).
  set (w0 := add_events w [EvStartPlaywright; EvStartPlaywright;
                           EvLaunch true (timeout * 2)]).
  destruct (create_context_ok (env_host env) e state_file locale w0 Hcontext)
    as (opts & w1 & Hcc & Htr1 & HP1).
  destruct (search_with_context_blocked_headless e query limit timeout state_file
              no_save_state fingerprint_file cb response w1 Hpage Hgoto Hblocked)
    as (d & w2 & Htr2 & Hfp2 & Hbody).
  assert (HP2 : fp_some any_fp w2).
  { destruct HP1 as (fp & Hfp & _). exists fp. split; [congruence | exact I]. }
  destruct (headful_run any_fp any_fp_host env query limit timeout state_file
              locale fingerprint_file no_save_state fuel (S k) false w2
              (fp_inv_any w2))
    as (r & ecb & w3 & Hrun & Htr3 & Ho & _ & _ & Hkeep & Hprefix).
  destruct (Hprefix eq_refl) as [rest ->]. clear Hprefix.
  destruct Ho as (Hr & Hl & _ & _).
  rewrite relaunches_app in Hr. rewrite headful_launches_app in Hl.
  change (headful_launches
            [EvStartPlaywright; EvStartPlaywright; EvLaunch false (timeout * 2)])
    with 1%nat in Hl.
  fold cb in Hrun. rewrite <- Hbody in Hrun.
  assert (Hpsb : exists resp w4 e3,
             _perform_search_with_browser (env_host env) e query limit timeout
               state_file no_save_state locale fingerprint_file true false cb w0 =
               Some (Ok resp, w4) /\
             w_trace w4 = (w_trace w3 ++ e3)%list /\ calm any_fp e3).
  { unfold _perform_search_with_browser. destruct r as [resp|msg].
    - exists resp, w3, []. split; [| split; [trace_eq | apply calm_nil]].
      apply try_catch_ok. rewrite (bind_ok _ _ _ _ _ Hcc).
      now apply try_catch_ok.
    - destruct (on_search_error_runs any_fp e query state_file no_save_state
                  fingerprint_file false msg w3 (Hkeep HP2))
        as (r4 & e3 & w4 & Hrun4 & Htr4 & -> & Hc4 & _).
      exists (failure_response query msg), w4, e3. split; [| now split].
      apply try_catch_ok. rewrite (bind_ok _ _ _ _ _ Hcc).
      now rewrite (try_catch_exn _ _ _ _ _ Hrun). }
  destruct Hpsb as (resp & w4 & e3 & Hpsb & Htr4 & (Hc1 & Hc2 & _ & _)).
  exists (Ok resp), (add_events (add_events w4 [EvCloseBrowser]) [EvStopPlaywright]),
    [EvStartPlaywright; EvStartPlaywright; EvLaunch true (timeout * 2);
     EvNewContext opts; EvNewPage; EvGoto d timeout],
    (rest ++ e3 ++ [EvCloseBrowser; EvStopPlaywright])%list.
  split.
  { rewrite perform_search_internal_own. apply finally_emit.
    unfold launch_browser.
    repeat first [rewrite bind_assoc | rewrite bind_emit].
    rewrite !add_events_add, bind_call. fold e. rewrite Hlaunch.
    apply finally_emit. exact Hpsb. }
  split.
  { simpl. rewrite Htr4, Htr3, Htr2, Htr1. unfold w0. trace_eq. }
  repeat split; try reflexivity.
  - rewrite !relaunches_app, Hc1. unfold relaunches at 2. simpl. lia.
  - rewrite !headful_launches_app, Hc2. unfold headful_launches at 2. simpl. lia.
Qed.

(** A headful run that is blocked at the navigation waits for the URL to
    leave the blocked set, for twice the timeout, and never restarts. *)
Lemma blocked_headful_run (fuel : nat) (w : World) :
  exists r w' before after,
    _perform_search_internal (S fuel) env k query limit timeout state_file
      no_save_state locale fingerprint_file false false w = Some (r, w') /\
    w_trace w' =
      (w_trace w ++ before ++ [EvWaitForUrl (timeout * 2)] ++ after)%list /\
    relaunches before = 0%nat /\ relaunches after = 0%nat.
Proof.
  set (e := env_attempt env k) in *.
  set (cb := _perform_search_internal fuel env (S k) query limit timeout
               state_file no_save_state locale fingerprint_file false false).
  set (w0 := add_events w [EvStartPlaywright; EvStartPlaywright;
                           EvLaunch false (timeout * 2)]).
  destruct (create_context_ok (env_host env) e state_file locale w0 Hcontext)
    as (opts & w1 & Hcc & Htr1 & HP1).
  destruct (search_with_context_blocked_headful e query limit timeout state_file
              no_save_state fingerprint_file false cb response w1 Hpage Hgoto Hblocked)
    as (d & w2 & Htr2 & Hfp2 & Hbody).
  assert (HP2 : fp_some any_fp w2).
  { destruct HP1 as (fp & Hfp & _). exists fp. split; [congruence | exact I]. }
  assert (Hrest : exists r e2 w3,
             search_with_context e query limit timeout state_file no_save_state
               fingerprint_file false false cb w1 = Some (r, w3) /\
             w_trace w3 = (w_trace w2 ++ e2)%list /\
             relaunches e2 = 0%nat /\ fp_some any_fp w3).
  { rewrite Hbody, bind_call. destruct (e_wait_for_url_nav e) as [[]|msg].
    - destruct (search_after_navigation_runs any_fp env query limit timeout
                  state_file fingerprint_file no_save_state k 0 false false cb
                  ltac:(discriminate) w2 HP2)
        as (r & e2 & w3 & Hrun & Htr3 & (Hr & _) & HP3).
      exists r, e2, w3. repeat split; try assumption. simpl in Hr. lia.
    - exists (Exn msg), [], w2. repeat split; [trace_eq | exact HP2]. }
  destruct Hrest as (r & e2 & w3 & Hrun & Htr3 & Hr2 & HP3).
  assert (Hpsb : exists resp w4 e3,
             _perform_search_with_browser (env_host env) e query limit timeout
               state_file no_save_state locale fingerprint_file false false cb w0 =
               Some (Ok resp, w4) /\
             w_trace w4 = (w_trace w3 ++ e3)%list /\ calm any_fp e3).
  { unfold _perform_search_with_browser. destruct r as [resp|msg].
    - exists resp, w3, []. split; [| split; [trace_eq | apply calm_nil]].
      apply try_catch_ok. rewrite (bind_ok _ _ _ _ _ Hcc).
      now apply try_catch_ok.
    - destruct (on_search_error_runs any_fp e query state_file no_save_state
                  fingerprint_file false msg w3 HP3)
        as (r4 & e3 & w4 & Hrun4 & Htr4 & -> & Hc4 & _).
      exists (failure_response query msg), w4, e3. split; [| now split].
      apply try_catch_ok. rewrite (bind_ok _ _ _ _ _ Hcc).
      now rewrite (try_catch_exn _ _ _ _ _ Hrun). }
  destruct Hpsb as (resp & w4 & e3 & Hpsb & Htr4 & (Hc1 & _)).
  exists (Ok resp), (add_events (add_events w4 [EvCloseBrowser]) [EvStopPlaywright]),
    [EvStartPlaywright; EvStartPlaywright; EvLaunch false (timeout * 2);
     EvNewContext opts; EvNewPage; EvGoto d timeout],
    (e2 ++ e3 ++ [EvCloseBrowser; EvStopPlaywright])%list.
  split.
  { rewrite perform_search_internal_own. apply finally_emit.
    unfold launch_browser.
    repeat first [rewrite bind_assoc | rewrite bind_emit].
    rewrite !add_events_add, bind_call. fold e. rewrite Hlaunch.
    apply finally_emit. exact Hpsb. }
  split.
  { simpl. rewrite Htr4, Htr3, Htr2, Htr1. unfold w0. trace_eq. }
  split; [reflexivity|].
  rewrite !relaunches_app, Hr2, Hc1. reflexivity.
Qed.

End BlockedRuns.

(** ** The claims on the whole call *)

(** C1. A call restarts itself at most once and launches at most one
    headful browser.  When the navigation of the headless run of a call
    that launched its browser lands on a blocked URL, the run closes page,
    context and browser, restarts once, and the restart launches a headful
    browser.  A headful run never restarts: blocked at the navigation, it
    waits for the URL to leave the blocked set for twice the timeout. *)
Theorem relaunch_at_most_once :
  (forall fuel env files query options existing,
      exists r w',
        google_search (search_fuel + fuel) env files query options existing =
          Some (r, w') /\
        (relaunches (w_trace w') <= 1)%nat /\
        (headful_launches (w_trace w') <= 1)%nat) /\
  (forall fuel env files query options response,
      e_launch (env_attempt env 0) = Ok tt ->
      e_new_context (env_attempt env 0) = Ok tt ->
      e_new_page (env_attempt env 0) = Ok tt ->
      e_goto (env_attempt env 0) = Ok response ->
      is_blocked_page (fst response) (snd response) = true ->
      exists r w' before after,
        google_search (search_fuel + fuel) env files query options false =
          Some (r, w') /\
        w_trace w' =
          (before ++
           [EvClosePage; EvCloseContext; EvCloseBrowser; EvRestart;
            EvStartPlaywright; EvStartPlaywright;
            EvLaunch false
              (effective_timeout (default default_options options) * 2)] ++
           after)%list /\
        relaunches before = 0%nat /\ headful_launches before = 0%nat /\
        relaunches after = 0%nat /\ headful_launches after = 0%nat) /\
  (forall fuel env k query limit timeout state_file no_save_state locale
          fingerprint_file existing w,
      exists r w',
        _perform_search_internal (S fuel) env k query limit timeout state_file
          no_save_state locale fingerprint_file false existing w = Some (r, w') /\
        relaunches (new_events w w') = 0%nat) /\
  (forall fuel env k query limit timeout state_file no_save_state locale
          fingerprint_file response w,
      e_launch (env_attempt env k) = Ok tt ->
      e_new_context (env_attempt env k) = Ok tt ->
      e_new_page (env_attempt env k) = Ok tt ->
      e_goto (env_attempt env k) = Ok response ->
      is_blocked_page (fst response) (snd response) = true ->
      exists r w',
        _perform_search_internal (S fuel) env k query limit timeout state_file
          no_save_state locale fingerprint_file false false w = Some (r, w') /\
        In (EvWaitForUrl (timeout * 2)) (new_events w w') /\
        relaunches (new_events w w') = 0%nat).
Proof.
  repeat apply conj.
  - intros fuel env files query options existing.
    destruct (google_search_runs any_fp any_fp_host fuel env files query options
                existing (fp_inv_any _)) as (r & w' & Hrun & (Hr & Hl & _) & _).
    exists r, w'. auto.
  - intros fuel env files query options response H1 H2 H3 H4 H5.
    unfold google_search.
    destruct (blocked_headless_run env query
                (effective_limit (default default_options options))
                (effective_timeout (default default_options options))
                (effective_state_file (default default_options options))
                (effective_locale (default default_options options))
                (snd (load_saved_state files
                        (effective_state_file (default default_options options))))
                (effective_no_save_state (default default_options options))
                0%nat response H1 H2 H3 H4 H5 fuel (initial_world files options))
      as (r & w' & before & after & Hrun & Htr & Hcount).
    exists r, w', before, after. split; [exact Hrun|]. split; [exact Htr | exact Hcount].
  - intros fuel env k query limit timeout state_file no_save_state locale
      fingerprint_file existing w.
    destruct (headful_run any_fp any_fp_host env query limit timeout state_file
                locale fingerprint_file no_save_state fuel k existing w
                (fp_inv_any w))
      as (r & evs & w' & Hrun & Htr & (Hr & _) & _).
    exists r, w'. split; [exact Hrun|].
    rewrite (new_events_eq w w' evs Htr). lia.
  - intros fuel env k query limit timeout state_file no_save_state locale
      fingerprint_file response w H1 H2 H3 H4 H5.
    destruct (blocked_headful_run env query limit timeout state_file locale
                fingerprint_file no_save_state k response H1 H2 H3 H4 H5 fuel w)
      as (r & w' & before & after & Hrun & Htr & Hb & Ha).
    exists r, w'. split; [exact Hrun|].
    rewrite (new_events_eq w w' _ Htr). split.
    + apply in_or_app. right. now left.
    + rewrite !relaunches_app, Hb, Ha. reflexivity.
Qed.

(** The headless run of [env_blocked] is blocked at the navigation. *)
Lemma relaunch_at_most_once_witness :
  exists r w' before after,
    google_search (search_fuel + 0) env_blocked ∅ "test" no_save false =
      Some (r, w') /\
    w_trace w' =
      (before ++
       [EvClosePage; EvCloseContext; EvCloseBrowser; EvRestart;
        EvStartPlaywright; EvStartPlaywright; EvLaunch false (60000 * 2)] ++
       after)%list /\
    relaunches before = 0%nat /\ headful_launches before = 0%nat /\
    relaunches after = 0%nat /\ headful_launches after = 0%nat.
Proof.
  apply (proj1 (proj2 relaunch_at_most_once) 0%nat env_blocked ∅ "test" no_save
           (sorry_url, Some sorry_url));
    reflexivity.
Defined.

(** With a caller-supplied browser, a block at the first navigation of the
    headless run is not restarted: the run raises, and its own [except]
    branch returns the failure response. *)
Lemma supplied_browser_block_at_navigation :
  exists w',
    google_search search_fuel env_blocked ∅ "test" no_save true =
      Some (Ok (failure_response "test" "需要以有头模式重新启动"), w') /\
    relaunches (w_trace w') = 0%nat.
Proof. eexists. split; [vm_compute; reflexivity | reflexivity]. Qed.


(** A step records its failure exactly when it raises. *)
Lemma in_step_raises {A} (s : step) (m : M A) (w w' : World) (msg : string) :
  m w = Some (Exn msg, w') ->
  in_step s m w = Some (Exn msg, add_events w' [EvFailed s msg]).
Proof. intros H. unfold in_step. now rewrite (try_catch_exn _ _ _ _ _ H). Qed.

Lemma in_step_returns {A} (s : step) (m : M A) (w w' : World) (a : A) :
  m w = Some (Ok a, w') -> in_step s m w = Some (Ok a, w').
Proof. intros H. unfold in_step. now apply try_catch_ok. Qed.

(** Each of the four steps can fail, and the call then returns the failure
    response. *)
Lemma navigation_failure :
  exists w',
    google_search search_fuel env_navigation_fails ∅ "test" no_save false =
      Some (Ok (failure_response "test" "Timeout 60000ms exceeded"), w') /\
    In (EvFailed Navigate "Timeout 60000ms exceeded") (w_trace w').
Proof. eexists. split; [vm_compute; reflexivity | simpl; tauto]. Qed.

Lemma query_failure :
  exists w',
    google_search search_fuel env_no_input ∅ "test" no_save false =
      Some (Ok (failure_response "test" "无法找到搜索框"), w') /\
    In (EvFailed ExecuteQuery "无法找到搜索框") (w_trace w').
Proof. eexists. split; [vm_compute; reflexivity | simpl; tauto]. Qed.

Lemma results_failure :
  exists w',
    google_search search_fuel env_no_results ∅ "test" no_save false =
      Some (Ok (failure_response "test" "无法找到搜索结果元素"), w') /\
    In (EvFailed WaitResults "无法找到搜索结果元素") (w_trace w').
Proof. eexists. split; [vm_compute; reflexivity | simpl; tauto]. Qed.

Lemma extraction_failure :
  exists w',
    google_search search_fuel env_script_fails ∅ "test" no_save false =
      Some (Ok (failure_response "test" "Execution context was destroyed"), w') /\
    In (EvFailed Extract "Execution context was destroyed") (w_trace w').
Proof. eexists. split; [vm_compute; reflexivity | simpl; tauto]. Qed.

(** ** The results of a response *)

Lemma convert_links (raw : list RawResult) :
  List.map link (convert_to_search_results raw) = List.map raw_link raw.
Proof.
  unfold convert_to_search_results. rewrite List.map_map. reflexivity.
Qed.

Lemma convert_length (raw : list RawResult) :
  List.length (convert_to_search_results raw) = List.length raw.
Proof. unfold convert_to_search_results. apply length_map. Qed.

(** The response built from the script on a document whose anchors
    resolve to http URLs. *)
Lemma extracted_response_wellformed (query : string) (limit : Z) (dom : Dom) :
  resolves_http dom ->
  links_wellformed
    (mkSearchResponse query (convert_to_search_results (extract_script limit dom))).
Proof.
  intros Hres. split; simpl.
  - unfold convert_to_search_results. apply Forall_forall.
    intros r Hr. apply list_elem_of_In, in_map_iff in Hr as (raw & <- & Hraw). simpl.
    destruct (extract_script_links limit dom raw Hres
                (proj2 (list_elem_of_In _ _) Hraw)) as (H1 & H2 & _).
    now split.
  - rewrite convert_links. apply extract_script_NoDup.
Qed.

(** C4, as stated, fails: the response of a failed search holds one result
    whose link is empty. *)
Lemma failure_response_has_empty_link :
  exists resp w',
    google_search search_fuel env_navigation_fails ∅ "test" no_save false =
      Some (Ok resp, w') /\
    ~ links_wellformed resp.
Proof.
  eexists _, _. split; [vm_compute; reflexivity|].
  intros [Hall _]. apply Forall_inv in Hall. simpl in Hall.
  destruct Hall as [Hne _]. discriminate.
Qed.

(** C4, amended. When the browser resolves the [href] of every anchor whose
    attribute begins with http to a URL that begins with http, every
    response of a call is the failure response or has links that are
    non-empty, begin with http and are pairwise distinct. *)
Theorem extracted_links_wellformed (fuel : nat) (env : Env)
    (files : gmap string file) (query : string) (options : option CommandOptions)
    (existing : bool)
    (Hresolve : forall k dom,
        e_evaluate (env_attempt env k) = Ok dom -> resolves_http dom) :
  exists r w',
    google_search (search_fuel + fuel) env files query options existing =
      Some (r, w') /\
    forall resp,
      r = Ok resp ->
      (exists msg, resp = failure_response query msg) \/ links_wellformed resp.
Proof.
  destruct (google_search_runs any_fp any_fp_host fuel env files query options
              existing (fp_inv_any _)) as (r & w' & Hrun & (_ & _ & _ & Ho) & _).
  exists r, w'. split; [exact Hrun|].
  intros resp ->. destruct Ho as [_ [Hfail | (k & dom & Hdom & ->)]].
  - now left.
  - right. apply extracted_response_wellformed. now apply (Hresolve k).
Qed.

Lemma two_results_resolves : resolves_http two_results.
Proof. intros el h Hin. inversion Hin. Qed.

Lemma extracted_links_wellformed_witness :
  exists r w',
    google_search (search_fuel + 0) env_two_results ∅ "rust" no_save false =
      Some (r, w') /\
    forall resp,
      r = Ok resp ->
      (exists msg, resp = failure_response "rust" msg) \/ links_wellformed resp.
Proof.
  apply (extracted_links_wellformed 0 env_two_results ∅ "rust" no_save false).
  intros k dom H. injection H as <-. exact two_results_resolves.
Defined.

(** C5, as stated, fails: a request whose limit is 0 is answered with the
    two results of the page. *)
Lemma limit_zero_is_exceeded :
  exists resp w',
    google_search search_fuel env_two_results ∅ "rust" (no_save_limit 0) false =
      Some (Ok resp, w') /\
    ~ (Z.of_nat (List.length (results resp)) <= 0).
Proof.
  eexists _, _. split; [vm_compute; reflexivity|]. simpl. lia.
Qed.

(** C5, amended. With [L] the limit after defaulting (the limit of the
    request, or 10 when it is absent or 0), a response holds at most
    [max 1 L] results, hence at most the limit of the request when that is
    at least 1; a response that is not the failure response holds what the
    script returned for [L], a subsequence of the candidates of the
    document in the order of their discovery. *)
Theorem results_within_limit :
  forall fuel env files query options existing,
    exists r w',
      google_search (search_fuel + fuel) env files query options existing =
        Some (r, w') /\
      forall resp,
        r = Ok resp ->
        Z.of_nat (List.length (results resp)) <=
          Z.max 1 (effective_limit (default default_options options)) /\
        ((exists msg, resp = failure_response query msg) \/
         exists k dom,
           e_evaluate (env_attempt env k) = Ok dom /\
           results resp =
             convert_to_search_results
               (extract_script (effective_limit (default default_options options))
                               dom) /\
           extract_script (effective_limit (default default_options options)) dom
             `sublist_of` discovery_order dom).
Proof.
  intros fuel env files query options existing.
  destruct (google_search_runs any_fp any_fp_host fuel env files query options
              existing (fp_inv_any _)) as (r & w' & Hrun & (_ & _ & _ & Ho) & _).
  exists r, w'. split; [exact Hrun|].
  intros resp ->. destruct Ho as [_ [(msg & ->) | (k & dom & Hdom & ->)]].
  - split; [simpl; lia | left; now exists msg].
  - split.
    + simpl. rewrite convert_length.
      pose proof (extract_script_length
                    (effective_limit (default default_options options)) dom).
      lia.
    + right. exists k, dom. split; [exact Hdom|]. split; [reflexivity|].
      apply extract_script_discovery_order.
Qed.

(** C7. Code and claim differ at this input: no result selector becomes
    visible in the headless run and the page is the sorry page.  The call
    returns the failure response and never restarts, where the same block
    found right after the query restarts the call in headful mode. *)
Theorem block_at_results_is_not_escalated :
  (exists w',
      google_search search_fuel env_block_at_results ∅ "test" no_save false =
        Some (Ok (failure_response "test" "检测到人机验证页面"), w') /\
      relaunches (w_trace w') = 0%nat /\
      headful_launches (w_trace w') = 0%nat /\
      In (EvFailed WaitResults "检测到人机验证页面") (w_trace w')) /\
  (exists resp w',
      google_search search_fuel env_block_after_query ∅ "test" no_save false =
        Some (Ok resp, w') /\
      relaunches (w_trace w') = 1%nat /\
      headful_launches (w_trace w') = 1%nat /\
      List.length (results resp) = 2%nat).
Proof.
  split.
  - eexists. split; [vm_compute; reflexivity|].
    split; [reflexivity|]. split; [reflexivity|]. simpl. tauto.
  - eexists _, _. split; [vm_compute; reflexivity|].
    split; [reflexivity|]. split; reflexivity.
Qed.

(** The result of waiting never restarts the call, whatever the page. *)
Lemma finish_search_never_restarts (env : Env) (k : nat) (query : string)
    (limit timeout : Z) (state_file : string) (no_save_state : bool)
    (fingerprint_file : string) (provided : bool) (w : World) :
  fp_some any_fp w ->
  exists r w',
    finish_search (env_attempt env k) query limit timeout state_file
      no_save_state fingerprint_file provided w = Some (r, w') /\
    relaunches (new_events w w') = 0%nat.
Proof.
  intros HP.
  destruct (finish_search_runs any_fp env query limit timeout state_file
              fingerprint_file no_save_state k provided w HP)
    as (r & evs & w' & Hrun & Htr & (Hr & _) & _).
  exists r, w'. split; [exact Hrun|]. rewrite (new_events_eq w w' evs Htr). lia.
Qed.

(** ** The fingerprint of a fresh session *)

Lemma is_chrome_host (host : Host) (user_locale : option string) :
  is_chrome (get_host_machine_config host user_locale).
Proof. reflexivity. Qed.

Lemma sidecar_ok_records_chrome (path : string) (data : json) :
  sidecar_ok is_chrome (EvWriteSidecar path data) -> records_chrome data.
Proof.
  intros (st & fp & -> & Hfp & HG). unfold records_chrome, fingerprint_data.
  rewrite Hfp. eexists. split; [reflexivity|]. simpl.
  unfold is_chrome in HG. now rewrite HG.
Qed.

(** C10. The fingerprint derived from the host names Desktop Chrome whatever
    the platform; [create_context] stores it in a state without
    fingerprint whatever device was drawn; and every write of the sidecar
    in a call that starts without saved fingerprint records Desktop
    Chrome. *)
Theorem fresh_session_records_chrome :
  (forall host user_locale,
      device_name (get_host_machine_config host user_locale) = "Desktop Chrome") /\
  (forall host e state_file locale w,
      fingerprint (w_saved w) = None ->
      exists r w' fp,
        create_context host e state_file locale w = Some (r, w') /\
        fingerprint (w_saved w') = Some fp /\
        device_name fp = "Desktop Chrome") /\
  (forall fuel env files query options existing,
      fingerprint (w_saved (initial_world files options)) = None ->
      exists r w',
        google_search (search_fuel + fuel) env files query options existing =
          Some (r, w') /\
        forall path data,
          In (EvWriteSidecar path data) (w_trace w') -> records_chrome data).
Proof.
  split; [reflexivity|]. split.
  - intros host e state_file locale w Hfresh.
    unfold create_context, bind, get_saved, get_files, set_saved, call, emit, ret.
    destruct (get_device_config_ok (fingerprint (w_saved w)) (e_random_device e))
      as [dc ->].
    rewrite Hfresh. simpl.
    destruct (e_new_context e) as [[]|m]; eexists _, _, _;
      (split; [reflexivity|]); split; reflexivity.
  - intros fuel env files query options existing Hfresh.
    assert (Hinv : fp_inv is_chrome (initial_world files options)).
    { intros fp Hfp. rewrite Hfresh in Hfp. discriminate. }
    destruct (google_search_runs is_chrome is_chrome_host fuel env files query
                options existing Hinv) as (r & w' & Hrun & (_ & _ & Hside & _) & _).
    exists r, w'. split; [exact Hrun|].
    intros path data Hin. rewrite Forall_forall in Hside.
    apply (sidecar_ok_records_chrome path).
    apply Hside. now apply list_elem_of_In.
Qed.

(** On a Linux host whose generator draws Desktop Firefox, the sidecar
    written after a first search names Desktop Chrome. *)
Lemma fresh_session_records_chrome_witness :
  exists r w',
    google_search (search_fuel + 0) env_firefox_draw ∅ "rust" None false =
      Some (r, w') /\
    forall path data,
      In (EvWriteSidecar path data) (w_trace w') -> records_chrome data.
Proof.
  apply (proj2 (proj2 fresh_session_records_chrome) 0%nat env_firefox_draw ∅
           "rust" None false).
  reflexivity.
Defined.

Lemma sidecar_after_first_search :
  exists r w' data,
    google_search search_fuel env_firefox_draw ∅ "rust" None false = Some (r, w') /\
    w_files w' !! "./browser-state-fingerprint.json" = Some (FJson data) /\
    records_chrome data.
Proof.
  eexists _, _, _. split; [vm_compute; reflexivity|].
  split; [vm_compute; reflexivity|].
  eexists. split; reflexivity.
Qed.

(** * Further properties

    ** Waiting for the results *)





(** ** Executing the query *)

Lemma find_search_input_result (e : Attempt) (selectors : list string) (w : World) :
  exists evs,
    find_search_input e selectors w =
      Some (Ok (existsb (fun s => match e_find_input e s with
                                  | Ok true => true
                                  | _ => false
                                  end) selectors),
            add_events w evs) /\
    Forall (fun ev => match ev with EvFindInput _ => True | _ => False end) evs.
Proof.
  revert w. induction selectors as [|s l IH]; intros w.
  - exists []. rewrite add_events_nil. split; [reflexivity | constructor].
  - simpl find_search_input. rewrite bind_emit. simpl existsb.
    destruct (e_find_input e s) as [[|]|m]; simpl.
    + exists [EvFindInput s]. split; [reflexivity | repeat constructor].
    + destruct (IH (add_events w [EvFindInput s])) as (e2 & Hrun & Hev).
      exists (EvFindInput s :: e2). rewrite Hrun, add_events_add.
      split; [reflexivity | now constructor].
    + destruct (IH (add_events w [EvFindInput s])) as (e2 & Hrun & Hev).
      exists (EvFindInput s :: e2). rewrite Hrun, add_events_add.
      split; [reflexivity | now constructor].
Qed.

Ltac in_cases Hno :=
  repeat match goal with
  | H : In _ (_ ++ _) |- _ => apply in_app_or in H; destruct H as [H|H]
  | H : In _ [_] |- _ => destruct H as [H|[]]
  | H : In _ _ |- _ => apply Hno in H; contradiction
  end.

Ltac in_goal := rewrite ?in_app_iff; simpl; tauto.

Lemma bind_ret {A B} (a : A) (f : A -> M B) (w : World) :
  bind (ret a) f w = f a w.
Proof. reflexivity. Qed.

(** X2. [execute_search] raises the no-input message, and types nothing,
    when no input selector finds an element.  With an input it returns
    exactly when one of Enter, the submit button and the form submit
    leaves the page on a URL that is not blocked; a later way is tried only
    when the earlier ones did not; when all three fail the message tells
    whether the page ended on a blocked URL. *)
Theorem execute_search_outcome (e : Attempt) (query : string) (w : World) :
  exists evs,
    execute_search e query w = Some (execute_search_result e, add_events w evs) /\
    (In (EvTypeQuery query) evs <-> input_found e = true) /\
    (In EvPressEnter evs <-> input_found e = true /\ e_type_query e = Ok tt) /\
    (In EvClickButton evs <->
     input_found e = true /\ e_type_query e = Ok tt /\ by_enter e = false) /\
    (In EvSubmitForm evs <->
     input_found e = true /\ e_type_query e = Ok tt /\ by_enter e = false /\
     by_button e = false).
Proof.
  destruct (find_search_input_result e search_input_selectors w)
    as (e0 & Hrun & Hev).
  fold (input_found e) in Hrun.
  assert (Hno : forall ev, In ev e0 ->
                  match ev with EvFindInput _ => True | _ => False end).
  { now apply List.Forall_forall. }
  clear Hev.
  assert (Hs1 : submitted match e_press_enter e with
                       | Ok u => Ok (Some u)
                       | Exn m => Exn m
                       end = by_enter e).
  { unfold by_enter. now destruct (e_press_enter e). }
  unfold execute_search, execute_search_result.
  rewrite (bind_ok _ _ _ _ _ Hrun), Hs1.
  fold (by_button e). fold (by_form e).
  destruct (input_found e) eqn:Hin; cbn [negb]; cbv iota.
  2: { exists e0. split; [reflexivity|].
       (split; [|split; [|split]]); (split; [intros H; in_cases Hno | intros H; intuition congruence]). }
  rewrite bind_emit, add_events_add, bind_call.
  destruct (e_type_query e) as [[]|m] eqn:Htype.
  2: { exists (e0 ++ [EvTypeQuery query])%list. split; [reflexivity|].
       (split; [|split; [|split]]);
         (split; [intros H; in_cases Hno; try discriminate; auto
                 | intros H; first [in_goal | intuition congruence]]). }
  rewrite bind_emit, add_events_add.
  destruct (by_enter e) eqn:Henter; cbn [negb orb]; cbv iota.
  { exists ((e0 ++ [EvTypeQuery query]) ++ [EvPressEnter])%list.
    split; [reflexivity|].
    (split; [|split; [|split]]);
      (split; [intros H; in_cases Hno; try discriminate; auto
              | intros H; first [in_goal | intuition congruence]]). }
  rewrite bind_assoc, bind_emit, add_events_add, bind_ret.
  destruct (by_button e) eqn:Hbutton; cbn [negb orb]; cbv iota.
  { exists (((e0 ++ [EvTypeQuery query]) ++ [EvPressEnter]) ++ [EvClickButton])%list.
    split; [reflexivity|].
    (split; [|split; [|split]]);
      (split; [intros H; in_cases Hno; try discriminate; auto
              | intros H; first [in_goal | intuition congruence]]). }
  rewrite bind_assoc, bind_emit, add_events_add, bind_ret.
  exists ((((e0 ++ [EvTypeQuery query]) ++ [EvPressEnter]) ++ [EvClickButton])
            ++ [EvSubmitForm])%list.
  split.
  { destruct (by_form e); simpl; [reflexivity|].
    now destruct (is_blocked_page (e_url_after_submit e) None). }
  (split; [|split; [|split]]);
    (split; [intros H; in_cases Hno; try discriminate; auto
            | intros H; first [in_goal | intuition congruence]]).
Qed.

(** ** The script in closed form *)

Lemma scan_offers_closed (n : Z) (offers : list (option RawResult)) (st : Scan) :
  sc_results (scan_offers n offers st) =
  (sc_results st ++
   take (Z.to_nat n - List.length (sc_results st))
        (first_by_link (sc_seen st) (omap id offers)))%list.
Proof.
  revert st. induction offers as [|o l IH]; intros st.
  - simpl. now rewrite take_nil, app_nil_r.
  - simpl scan_offers. unfold reached. destruct (Z.leb_spec n (Z.of_nat (List.length (sc_results st)))) as [Hle|Hlt].
    + replace (Z.to_nat n - List.length (sc_results st))%nat with 0%nat by lia.
      now rewrite take_0, app_nil_r.
    + rewrite IH. destruct o as [r|]; simpl; [|reflexivity].
      destruct (bool_decide (raw_link r ∈ sc_seen st)); [reflexivity|].
      simpl. rewrite length_app. simpl.
      replace (Z.to_nat n - List.length (sc_results st))%nat
        with (S (Z.to_nat n - (List.length (sc_results st) + 1)))%nat by lia.
      simpl. now rewrite <- app_assoc.
Qed.

Lemma extract_script_take (maxResults : Z) (dom : Dom) :
  extract_script maxResults dom =
  take (Z.to_nat maxResults) (first_by_link ∅ (discovery_order dom)).
Proof.
  unfold extract_script. rewrite scan_document_offers, scan_offers_closed.
  simpl sc_results. simpl sc_seen. rewrite app_nil_l, Nat.sub_0_r.
  fold (discovery_order dom). unfold js_slice_to.
  destruct (Z.ltb_spec maxResults 0) as [Hneg|Hpos].
  - replace (Z.to_nat maxResults) with 0%nat by lia. now rewrite take_0, take_nil.
  - rewrite take_take. f_equal. lia.
Qed.

(** X3. The script returns the first [maxResults] candidates of the
    discovery order after the candidates that repeat the link of an earlier
    one are dropped: the structural candidates come before the anchors, and
    the loops that stop early lose nothing.  For a limit of zero or less it
    returns nothing. *)
Theorem extract_script_closed_form (maxResults : Z) (dom : Dom) :
  extract_script maxResults dom =
  take (Z.to_nat maxResults)
       (first_by_link ∅ (omap id (structural_offers dom selectorSets ++
                                  List.map anchor_candidate (http_anchors dom))%list)) /\
  (maxResults <= 0 -> extract_script maxResults dom = []).
Proof.
  split; [apply extract_script_take|].
  intros H. rewrite extract_script_take.
  replace (Z.to_nat maxResults) with 0%nat by lia. apply take_0.
Qed.

(** X4. Asking for more results keeps the earlier ones: the results for
    a limit are the first results for any larger limit. *)
Theorem extract_script_monotone (n m : Z) (dom : Dom) :
  n <= m -> extract_script n dom = take (Z.to_nat n) (extract_script m dom).
Proof.
  intros Hle. rewrite !extract_script_take, take_take.
  f_equal. lia.
Qed.

Lemma extract_script_monotone_witness :
  1 <= 2 /\
  extract_script 1 two_results = take (Z.to_nat 1) (extract_script 2 two_results).
Proof. split; [lia | apply extract_script_monotone; lia]. Defined.

(** ** The footprint of a call *)

(** ** What the device table and the draws give *)

Lemma get_device_config_device (fp : option FingerprintConfig) (r : nat)
    (name : string) (d : DeviceDescriptor) :
  get_device_config fp r = Ok (name, d) ->
  device_of name = Ok d /\
  (forall fp0 d0, fp = Some fp0 -> device_of (device_name fp0) = Ok d0 ->
                  name = device_name fp0 /\ d0 = d).
Proof.
  unfold get_device_config. intros H.
  assert (Hrandom : forall x : string,
            match device_of x with
            | Ok d1 => Ok (x, d1)
            | Exn m => Exn m
            end = Ok (name, d) -> device_of name = Ok d).
  { intros x Hx. destruct (device_of x) as [d1|m] eqn:E; [|discriminate].
    injection Hx as <- <-. exact E. }
  destruct fp as [fp|].
  - destruct (nonempty (device_name fp) &&
              bool_decide (is_Some (assoc (device_name fp) playwright_devices))) eqn:E.
    + split; [now apply (Hrandom (device_name fp))|].
      intros fp0 d0 [= <-] Hd0. rewrite Hd0 in H. now injection H as <- <-.
    + split; [now apply (Hrandom (random_choice r device_list))|].
      intros fp0 d0 [= <-] Hd0. exfalso.
      unfold device_of in Hd0.
      destruct (assoc (device_name fp) playwright_devices) as [d1|] eqn:Ha;
        [|discriminate].
      apply andb_false_iff in E as [E|E].
      * destruct (device_name fp); [discriminate Ha | discriminate E].
      * apply bool_decide_eq_false in E. apply E. now exists d1.
  - split; [now apply (Hrandom (random_choice r device_list))|].
    intros fp0 d0 [=].
Qed.

Lemma host_device_config (name : string) (d d0 : DeviceDescriptor) :
  device_of name = Ok d -> device_of "Desktop Chrome" = Ok d0 ->
  (if negb (String.eqb "Desktop Chrome" name)
   then default d (assoc "Desktop Chrome" playwright_devices)
   else d) = d0.
Proof.
  intros Hname Hd0.
  destruct (String.eqb_spec "Desktop Chrome" name) as [<-|Hne]; simpl.
  - congruence.
  - vm_compute in Hd0. now injection Hd0 as <-.
Qed.

Lemma random_choice_In (r : nat) (l : list string) :
  l <> [] -> In (random_choice r l) l.
Proof.
  intros Hl. unfold random_choice. apply nth_In.
  apply Nat.mod_upper_bound. destruct l; [congruence | discriminate].
Qed.

Lemma google_domains_nonempty (d : string) :
  In d google_domains -> nonempty d = true.
Proof. simpl. intros [<-|[<-|[<-|[<-|[]]]]]; reflexivity. Qed.

(** [get_google_domain] returns the domain of the state it leaves, which
    is not empty. *)
Lemma get_google_domain_result (e : Attempt) (w w' : World) (r : result string) :
  get_google_domain e w = Some (r, w') ->
  exists d, r = Ok d /\ google_domain (w_saved w') = Some d /\ nonempty d = true /\
            w_trace w' = w_trace w /\ w_files w' = w_files w /\
            fingerprint (w_saved w') = fingerprint (w_saved w) /\
            (w' = w \/
             (google_domain (w_saved w) = None \/ google_domain (w_saved w) = Some "") /\
             In d google_domains).
Proof.
  unfold get_google_domain, bind, get_saved, set_saved, ret.
  assert (Hin : In (random_choice (e_random_domain e) google_domains) google_domains).
  { now apply random_choice_In. }
  destruct (google_domain (w_saved w)) as [d|] eqn:Hd.
  - destruct (nonempty d) eqn:Hne.
    + intros [= <- <-]. exists d. repeat split; auto.
    + intros [= <- <-]. eexists. repeat split; simpl; auto.
      * now apply google_domains_nonempty.
      * right. split; [|exact Hin]. right. destruct d; [reflexivity | discriminate].
  - intros [= <- <-]. eexists. repeat split; simpl; auto.
    now apply google_domains_nonempty.
Qed.


Section Footprint.
Variable c : SearchArgs.

Lemma fits_ret {A} (a : A) (w : World) : fits_at c w (ret a).
Proof. intros r w' [= <- <-]. apply rtc_refl. Qed.

Lemma fits_raise {A} (msg : string) (w : World) : fits_at c w (@raise A msg).
Proof. intros r w' [= <- <-]. apply rtc_refl. Qed.

Lemma fits_call {A} (x : result A) (w : World) : fits_at c w (call x).
Proof. intros r w' [= <- <-]. apply rtc_refl. Qed.

Lemma fits_out_of_fuel {A} (w : World) : fits_at c w (@out_of_fuel A).
Proof. intros r w' [=]. Qed.

Lemma fits_get_saved (w : World) : fits_at c w get_saved.
Proof. intros r w' [= <- <-]. apply rtc_refl. Qed.

Lemma fits_get_files (w : World) : fits_at c w get_files.
Proof. intros r w' [= <- <-]. apply rtc_refl. Qed.

Lemma fits_emit (ev : event) (w : World) : allowed c w ev -> fits_at c w (emit ev).
Proof. intros H r w' [= <- <-]. apply rtc_once. now apply atom_emit. Qed.

Lemma fits_bind {A B} (m : M A) (f : A -> M B) (w : World) :
  fits_at c w m ->
  (forall a w', m w = Some (Ok a, w') -> fits_at c w' (f a)) ->
  fits_at c w (bind m f).
Proof.
  intros Hm Hf r w'. unfold bind.
  destruct (m w) as [[[a|msg] w1]|] eqn:E; [| |discriminate].
  - intros H. etransitivity; [exact (Hm _ _ E) | exact (Hf a w1 eq_refl _ _ H)].
  - intros [= <- <-]. exact (Hm _ _ E).
Qed.

Lemma fits_try_catch {A} (m : M A) (h : string -> M A) (w : World) :
  fits_at c w m ->
  (forall msg w', m w = Some (Exn msg, w') -> fits_at c w' (h msg)) ->
  fits_at c w (try_catch m h).
Proof.
  intros Hm Hh r w'. unfold try_catch.
  destruct (m w) as [[[a|msg] w1]|] eqn:E; [| |discriminate].
  - intros [= <- <-]. exact (Hm _ _ E).
  - intros H. etransitivity; [exact (Hm _ _ E) | exact (Hh msg w1 eq_refl _ _ H)].
Qed.

Lemma fits_finally {A} (m : M A) (cleanup : M unit) (w : World) :
  fits_at c w m ->
  (forall r w', m w = Some (r, w') -> fits_at c w' cleanup) ->
  fits_at c w (finally m cleanup).
Proof.
  intros Hm Hc r w'. unfold finally.
  destruct (m w) as [[r1 w1]|] eqn:E; [|discriminate].
  destruct (cleanup w1) as [[[u|msg] w2]|] eqn:E2; [| |discriminate].
  - intros [= <- <-]. etransitivity; [exact (Hm _ _ E) | exact (Hc r1 w1 eq_refl _ _ E2)].
  - intros [= <- <-]. etransitivity; [exact (Hm _ _ E) | exact (Hc r1 w1 eq_refl _ _ E2)].
Qed.

Lemma fits_in_step {A} (s : step) (m : M A) (w : World) :
  fits_at c w m -> fits_at c w (in_step s m).
Proof.
  intros Hm. apply fits_try_catch; [exact Hm|]. intros msg w' _.
  apply fits_bind; [now apply fits_emit | intros; apply fits_raise].
Qed.

(** Composition of computations whose events do not depend on the state. *)
Ltac fits_step :=
  first
    [ apply fits_ret | apply fits_raise | apply fits_call | apply fits_out_of_fuel
    | apply fits_get_saved | apply fits_get_files
    | apply fits_emit; simpl; auto
    | apply fits_in_step
    | apply fits_bind; [|intros ? ? _]
    | apply fits_try_catch; [|intros ? ? _]
    | apply fits_finally; [|intros ? ? _] ].

Lemma fits_find_search_input (e : Attempt) (selectors : list string) (w : World) :
  (forall s, In s selectors -> In s search_input_selectors) ->
  fits_at c w (find_search_input e selectors).
Proof.
  revert w. induction selectors as [|s l IH]; intros w Hsub; simpl.
  - apply fits_ret.
  - apply fits_bind; [apply fits_emit; simpl; apply Hsub; now left|].
    intros [] w' _.
    assert (Hl : fits_at c w' (find_search_input e l)).
    { apply IH. intros x Hx. apply Hsub. now right. }
    destruct (e_find_input e s) as [[|]|m]; [apply fits_ret | exact Hl | exact Hl].
Qed.

Lemma fits_execute_search (e : Attempt) (w : World) :
  fits_at c w (execute_search e (sa_query c)).
Proof.
  unfold execute_search.
  apply fits_bind; [now apply fits_find_search_input|]. intros found w1 _.
  destruct (negb found); [apply fits_raise|].
  repeat fits_step.
  - destruct (negb _); repeat fits_step.
  - destruct (negb _); repeat fits_step.
  - destruct (negb _); [destruct (is_blocked_page _ _)|]; repeat fits_step.
Qed.

Lemma fits_selector_rounds (fuel : nat) (e : Attempt) (selector : string)
    (attempts selector_timeout : Z) (w : World) :
  In selector search_result_selectors ->
  In selector_timeout [5000; 10000; 15000] ->
  fits_at c w (selector_rounds fuel e selector attempts selector_timeout).
Proof.
  intros Hsel. revert attempts selector_timeout w.
  induction fuel as [|fuel IH]; intros attempts t w Ht; simpl;
    destruct (attempts <? max_attempts); try apply fits_ret;
    [apply fits_out_of_fuel|].
  apply fits_bind; [apply fits_emit; now split|]. intros [] w1 _.
  destruct (e_wait_selector e selector (Z.to_nat attempts) t); [apply fits_ret|].
  destruct (max_attempts <=? attempts + 1); [apply fits_raise|].
  apply fits_bind; [now apply fits_emit|]. intros [] w2 _.
  apply IH. simpl in Ht. simpl.
  destruct Ht as [<-|[<-|[<-|[]]]]; vm_compute; tauto.
Qed.

Lemma fits_wait_selectors (e : Attempt) (selectors : list string) (w : World) :
  (forall s, In s selectors -> In s search_result_selectors) ->
  fits_at c w (wait_selectors e selectors).
Proof.
  revert w. induction selectors as [|s l IH]; intros w Hsub.
  - apply fits_ret.
  - change (wait_selectors e (s :: l)) with
      (bind (try_catch (selector_rounds (Z.to_nat max_attempts) e s 0 5000)
                       (fun _ => ret false))
            (fun results_found =>
               if results_found then ret true else wait_selectors e l)).
    apply fits_bind.
    + apply fits_try_catch; [|intros; apply fits_ret].
      apply fits_selector_rounds; [apply Hsub; now left | now left].
    + intros [|] w' _; [apply fits_ret|].
      apply IH. intros x Hx. apply Hsub. now right.
Qed.

Lemma fits_wait_for_search_results (e : Attempt) (w : World) :
  fits_at c w (wait_for_search_results e (sa_timeout c)).
Proof.
  unfold wait_for_search_results.
  apply fits_bind; [now apply fits_wait_selectors|]. intros found w1 _.
  destruct (negb found); [destruct (is_blocked_page _ _)|]; repeat fits_step.
Qed.

Lemma fits_extract_search_results (e : Attempt) (w : World) :
  fits_at c w (extract_search_results e (sa_limit c)).
Proof. unfold extract_search_results. repeat fits_step. Qed.

Lemma fits_launch_browser (e : Attempt) (headless : bool) (w : World) :
  fits_at c w (launch_browser e headless (sa_timeout c)).
Proof. unfold launch_browser. repeat fits_step. Qed.

Lemma fits_create_page (e : Attempt) (w : World) : fits_at c w (create_page e).
Proof. unfold create_page. repeat fits_step. Qed.

Lemma fits_close_own_browser (provided : bool) (w : World) :
  fits_at c w (close_own_browser provided).
Proof. unfold close_own_browser. destruct (negb provided); repeat fits_step. Qed.


Lemma fits_get_google_domain (e : Attempt) (w : World) :
  fits_at c w (get_google_domain e).
Proof.
  intros r w' H.
  destruct (get_google_domain_result _ _ _ _ H)
    as (d & _ & Hd & _ & Htr & Hfiles & Hfp & [->|[Hnone Hin]]);
    [apply rtc_refl|].
  apply rtc_once.
  replace w' with (mkWorld (mkSavedState (fingerprint (w_saved w)) (Some d))
                           (w_files w) (w_trace w)).
  - now apply atom_domain.
  - destruct w' as [[fp' d'] files' tr']. simpl in *. congruence.
Qed.

Lemma fits_create_context (e : Attempt) (w : World) :
  fits_at c w (create_context (sa_host c) e (sa_state_file c) (sa_locale c)).
Proof.
  intros r w'. unfold create_context, bind, get_saved, get_files, call.
  destruct (get_device_config (fingerprint (w_saved w)) (e_random_device e))
    as [[name d]|m] eqn:Hdev; [|intros [= <- <-]; apply rtc_refl].
  destruct (get_device_config_device _ _ _ _ Hdev) as [Hname Hreuse].
  simpl fst. simpl snd.
  set (storage := if nonempty (sa_state_file c) &&
                     bool_decide (is_Some (w_files w !! sa_state_file c))
                  then Some (sa_state_file c) else None).
  assert (Hstorage : storage = None \/ storage = Some (sa_state_file c)).
  { unfold storage. destruct (_ && _); auto. }
  clearbody storage.
  destruct (fingerprint (w_saved w)) as [fp|] eqn:Hfp.
  - unfold ret. rewrite emit_add.
    intros H.
    assert (Hw : rtc (atom c) w
                   (add_events w [EvNewContext (context_options d fp storage)])).
    { apply rtc_once, atom_emit. exists fp. split; [exact Hfp|].
      repeat split; auto. intros d0 Hd0.
      now destruct (Hreuse fp d0 eq_refl Hd0) as [_ ->]. }
    injection H as <- <-. exact Hw.
  - unfold set_saved, ret. rewrite emit_add.
    set (host_config := get_host_machine_config (sa_host c) (Some (sa_locale c))).
    intros [= <- <-].
    etransitivity; [apply rtc_once, atom_fingerprint; exact Hfp|].
    apply rtc_once.
    match goal with
    | |- atom c ?w0 (add_events _ [?ev]) => apply (atom_emit c w0 ev)
    end.
    exists host_config. split; [reflexivity|].
    repeat split; auto. intros d0 Hd0.
    exact (host_device_config name d d0 Hname Hd0).
Qed.

Lemma fits_storage_state (e : Attempt) (w : World) :
  sa_no_save_state c = false ->
  fits_at c w (storage_state e (sa_state_file c)).
Proof.
  intros saving. unfold storage_state. apply fits_bind; [now apply fits_emit|].
  intros [] w1 _. apply fits_bind; [apply fits_call|]. intros blob w2 _.
  intros r w' [= <- <-]. apply rtc_once. now apply atom_state_file.
Qed.

Lemma fits_dump_fingerprint (e : Attempt) (w : World) :
  sa_no_save_state c = false ->
  fits_at c w (dump_fingerprint e (sa_fingerprint_file c)).
Proof.
  intros saving r w'. unfold dump_fingerprint, bind, get_saved, call, write_file.
  rewrite emit_add.
  assert (H1 : rtc (atom c) w
                 (add_events w [EvWriteSidecar (sa_fingerprint_file c)
                                               (fingerprint_data (w_saved w))])).
  { apply rtc_once, atom_emit. now repeat split. }
  destruct (e_write_sidecar e); intros [= <- <-]; [|exact H1].
  etransitivity; [exact H1|]. apply rtc_once.
  match goal with
  | |- atom c ?w0 _ => apply (atom_sidecar c w0 saving)
  end.
Qed.


Lemma fits_save_browser_state (e : Attempt) (w : World) :
  fits_at c w (save_browser_state e (sa_state_file c) (sa_fingerprint_file c)
                                  (sa_no_save_state c)).
Proof.
  unfold save_browser_state.
  destruct (sa_no_save_state c) eqn:Hs; cbn [negb]; cbv iota.
  - repeat fits_step.
  - apply fits_try_catch; [|intros; apply fits_ret].
    apply fits_bind; [now apply fits_storage_state|]. intros [] w1 _.
    apply fits_try_catch; [now apply fits_dump_fingerprint | intros; apply fits_ret].
Qed.

Lemma fits_on_search_error (e : Attempt) (provided context_bound : bool)
    (error : string) (w : World) :
  fits_at c w (on_search_error e (sa_query c) (sa_state_file c) (sa_no_save_state c)
                               (sa_fingerprint_file c) provided context_bound error).
Proof.
  unfold on_search_error.
  apply fits_bind; [|intros [] w1 _].
  - destruct (sa_no_save_state c) eqn:Hs; cbn [negb]; cbv iota.
    + repeat fits_step.
    + apply fits_try_catch; [|intros; apply fits_ret].
      apply fits_bind.
      * destruct context_bound; [now apply fits_storage_state | apply fits_raise].
      * intros [] w1 _.
        apply fits_try_catch; [now apply fits_dump_fingerprint | intros; apply fits_ret].
  - apply fits_bind; [apply fits_close_own_browser | intros; apply fits_ret].
Qed.

Lemma fits_finish_search (e : Attempt) (provided : bool) (w : World) :
  fits_at c w (finish_search e (sa_query c) (sa_limit c) (sa_timeout c)
                             (sa_state_file c) (sa_no_save_state c)
                             (sa_fingerprint_file c) provided).
Proof.
  unfold finish_search.
  apply fits_bind; [apply fits_in_step, fits_wait_for_search_results|].
  intros ? w1 _.
  apply fits_bind; [apply fits_in_step, fits_extract_search_results|].
  intros raw w2 _.
  apply fits_bind; [apply fits_save_browser_state|]. intros [] w3 _.
  apply fits_bind; [apply fits_close_own_browser | intros; apply fits_ret].
Qed.

Section Restart.
Variable restart_callback : M SearchResponse.
Hypothesis fits_restart : forall w, fits_at c w restart_callback.

Lemma fits_search_after_navigation (e : Attempt) (headless provided : bool)
    (w : World) :
  fits_at c w (search_after_navigation e (sa_query c) (sa_limit c) (sa_timeout c)
                 (sa_state_file c) (sa_no_save_state c) (sa_fingerprint_file c)
                 headless provided restart_callback).
Proof.
  unfold search_after_navigation.
  apply fits_bind; [apply fits_in_step, fits_execute_search|]. intros ? w1 _.
  apply fits_bind; [now apply fits_emit|]. intros [] w2 _.
  apply fits_bind; [apply fits_call|]. intros [] w3 _.
  destruct (is_blocked_page (e_search_url e) None); [|apply fits_finish_search].
  destruct headless.
  - apply fits_bind; [now apply fits_emit|]. intros [] w4 _.
    apply fits_bind; [now apply fits_emit|]. intros [] w5 _.
    apply fits_bind; [apply fits_close_own_browser|]. intros [] w6 _.
    apply fits_bind; [now apply fits_emit|]. intros [] w7 _.
    apply fits_restart.
  - apply fits_bind; [now apply fits_emit|]. intros [] w4 _.
    apply fits_bind; [apply fits_call|]. intros [] w5 _.
    apply fits_finish_search.
Qed.

Lemma fits_search_with_context (e : Attempt) (headless provided : bool) (w : World) :
  fits_at c w (search_with_context e (sa_query c) (sa_limit c) (sa_timeout c)
                 (sa_state_file c) (sa_no_save_state c) (sa_fingerprint_file c)
                 headless provided restart_callback).
Proof.
  unfold search_with_context.
  apply fits_bind; [apply fits_create_page|]. intros [] w1 _.
  apply fits_bind; [apply fits_get_google_domain|]. intros d w2 Hd.
  destruct (get_google_domain_result _ _ _ _ Hd)
    as (d' & [= <-] & Hsaved & Hne & _).
  apply fits_bind.
  { apply fits_in_step. apply fits_bind; [|intros; apply fits_call].
    apply fits_emit. now repeat split. }
  intros response w3 _.
  destruct (is_blocked_page response.1 response.2);
    [|apply fits_search_after_navigation].
  destruct headless.
  - apply fits_bind; [now apply fits_emit|]. intros [] w4 _.
    apply fits_bind; [now apply fits_emit|]. intros [] w5 _.
    destruct provided; [apply fits_raise|].
    apply fits_bind; [now apply fits_emit|]. intros [] w6 _.
    apply fits_bind; [now apply fits_emit|]. intros [] w7 _.
    apply fits_restart.
  - apply fits_bind; [now apply fits_emit|]. intros [] w4 _.
    apply fits_bind; [apply fits_call|]. intros [] w5 _.
    apply fits_search_after_navigation.
Qed.

Lemma fits_perform_search_with_browser (e : Attempt) (headless provided : bool)
    (w : World) :
  fits_at c w (_perform_search_with_browser (sa_host c) e (sa_query c) (sa_limit c)
                 (sa_timeout c) (sa_state_file c) (sa_no_save_state c) (sa_locale c)
                 (sa_fingerprint_file c) headless provided restart_callback).
Proof.
  unfold _perform_search_with_browser.
  apply fits_try_catch; [|intros; apply fits_on_search_error].
  apply fits_bind; [apply fits_create_context|]. intros [] w1 _.
  apply fits_try_catch; [apply fits_search_with_context|].
  intros; apply fits_on_search_error.
Qed.

End Restart.

Lemma fits_perform_search_internal (fuel : nat) (env : Env) (attempt : nat)
    (headless existing : bool) (w : World) :
  sa_host c = env_host env ->
  fits_at c w (_perform_search_internal fuel env attempt (sa_query c) (sa_limit c)
                 (sa_timeout c) (sa_state_file c) (sa_no_save_state c) (sa_locale c)
                 (sa_fingerprint_file c) headless existing).
Proof.
  intros Hhost. revert attempt headless existing w.
  induction fuel as [|fuel IH]; intros attempt headless existing w.
  - apply fits_out_of_fuel.
  - cbn [_perform_search_internal]. rewrite <- Hhost.
    destruct existing.
    + apply fits_try_catch; [|intros; apply fits_raise].
      apply fits_perform_search_with_browser. intros w0. apply IH.
    + apply fits_bind; [now apply fits_emit|]. intros [] w1 _.
      apply fits_finally; [|intros; now apply fits_emit].
      apply fits_bind; [apply fits_launch_browser|]. intros [] w2 _.
      apply fits_finally; [|intros; now apply fits_emit].
      apply fits_perform_search_with_browser. intros w0. apply IH.
Qed.


(** *** What the changes preserve *)

Lemma footprint_events (P : event -> Prop) (w w' : World) :
  (forall w0 ev, allowed c w0 ev -> P ev) ->
  rtc (atom c) w w' -> Forall P (w_trace w) -> Forall P (w_trace w').
Proof.
  intros HP H. induction H as [w|w w1 w2 Hatom _ IH]; [auto|].
  intros Hw. apply IH. destruct Hatom; simpl; try exact Hw.
  apply Forall_app. split; [exact Hw|]. constructor; [|constructor]. eauto.
Qed.



Lemma atom_session_fingerprint (w w' : World) :
  atom c w w' -> session_fingerprint c w' = session_fingerprint c w.
Proof.
  intros [w0 ev _|w0 Hnone|w0 d _ _|w0 blob _|w0 _]; unfold session_fingerprint;
    simpl; try reflexivity.
  now rewrite Hnone.
Qed.

Lemma footprint_contexts (w w' : World) :
  rtc (atom c) w w' ->
  (forall opts, In (EvNewContext opts) (w_trace w) ->
                context_of c (session_fingerprint c w) opts) ->
  session_fingerprint c w' = session_fingerprint c w /\
  (forall fp, fingerprint (w_saved w) = Some fp -> fingerprint (w_saved w') = Some fp) /\
  (forall opts, In (EvNewContext opts) (w_trace w') ->
                context_of c (session_fingerprint c w') opts).
Proof.
  intros H. induction H as [w|w w1 w2 Hatom _ IH]; [auto|].
  intros Hw.
  assert (H1 : forall opts, In (EvNewContext opts) (w_trace w1) ->
                            context_of c (session_fingerprint c w1) opts).
  { intros opts. rewrite (atom_session_fingerprint _ _ Hatom).
    destruct Hatom as [w0 ev Hev|w0 Hnone|w0 d _ _|w0 blob _|w0 _]; simpl; auto.
    intros [Hin|[Hin|[]]]%in_app_or; [auto|]. subst ev.
    destruct Hev as (fp & Hfp & Hctx). unfold session_fingerprint.
    now rewrite Hfp. }
  destruct (IH H1) as (Hfp & Hkeep & Hctx).
  split; [now rewrite Hfp, (atom_session_fingerprint _ _ Hatom)|].
  split; [|exact Hctx].
  intros fp Hsome. apply Hkeep.
  destruct Hatom as [w0 ev Hev|w0 Hnone|w0 d _ _|w0 blob _|w0 _]; simpl; auto.
  congruence.
Qed.

Lemma footprint_domain (w w' : World) :
  rtc (atom c) w w' ->
  (forall url t, In (EvGoto url t) (w_trace w) ->
                 google_domain (w_saved w) = Some url /\ nonempty url = true) ->
  (google_domain (w_saved w') = google_domain (w_saved w) \/
   (google_domain (w_saved w) = None \/ google_domain (w_saved w) = Some "") /\
   exists d, In d google_domains /\ google_domain (w_saved w') = Some d) /\
  (forall url t, In (EvGoto url t) (w_trace w') ->
                 google_domain (w_saved w') = Some url /\ nonempty url = true).
Proof.
  intros H. induction H as [w|w w1 w2 Hatom _ IH]; [auto|].
  intros Hw.
  assert (H1 : forall url t, In (EvGoto url t) (w_trace w1) ->
                 google_domain (w_saved w1) = Some url /\ nonempty url = true).
  { intros url t.
    destruct Hatom as [w0 ev Hev|w0 Hnone|w0 d Hunset Hd|w0 blob _|w0 _]; simpl; eauto.
    - intros [Hin|[Hin|[]]]%in_app_or; [eauto|]. subst ev. now destruct Hev.
    - intros Hin. destruct (Hw url t Hin) as [Hsome Hne]. exfalso.
      destruct Hunset as [Hn|Hn]; rewrite Hn in Hsome; [discriminate|].
      injection Hsome as <-. discriminate. }
  destruct (IH H1) as (Hdom & Hgoto). split; [|exact Hgoto].
  destruct Hatom as [w0 ev Hev|w0 Hnone|w0 d Hunset Hd|w0 blob _|w0 _];
    simpl in *; auto.
  right. split; [exact Hunset|].
  destruct Hdom as [Hsame|[[Hn|Hn] _]]; [eauto|discriminate|].
  injection Hn as ->. apply google_domains_nonempty in Hd. discriminate.
Qed.

End Footprint.


(** Every call returns, and what it did is within its footprint. *)
Lemma google_search_footprint (fuel : nat) (env : Env) (files : gmap string file)
    (query : string) (options : option CommandOptions) (existing : bool) :
  exists r w',
    google_search (search_fuel + fuel) env files query options existing =
      Some (r, w') /\
    rtc (atom (search_args env files query options))
        (initial_world files options) w'.
Proof.
  destruct (google_search_runs any_fp any_fp_host fuel env files query options
              existing (fp_inv_any _)) as (r & w' & Hrun & _).
  exists r, w'. split; [exact Hrun|].
  exact (fits_perform_search_internal (search_args env files query options)
           (search_fuel + fuel) env 0 true existing (initial_world files options)
           eq_refl r w' Hrun).
Qed.

(** X6. The only text a call types is its query, the script always runs
    with the limit of the call, and every selector it waits for comes from
    the list of input selectors or the list of result selectors. *)
Theorem google_search_inputs (fuel : nat) (env : Env) (files : gmap string file)
    (query : string) (options : option CommandOptions) (existing : bool) :
  exists r w',
    google_search (search_fuel + fuel) env files query options existing =
      Some (r, w') /\
    Forall (inputs_ok query (effective_limit (default default_options options)))
           (w_trace w').
Proof.
  destruct (google_search_footprint fuel env files query options existing)
    as (r & w' & Hrun & Hfoot).
  exists r, w'. split; [exact Hrun|].
  refine (footprint_events _ _ _ _ _ Hfoot _); [|constructor].
  intros w0 [] H; simpl in *; tauto.
Qed.




(** X9. Every browser context of a call, the one of a restart included,
    carries the fingerprint of the session: the one the sidecar gave, or
    the host's when it gave none.  Its locale, timezone and colour settings
    are those of that fingerprint, so the locale option has no effect once
    a fingerprint is saved; it is never a mobile or touch device; and a
    loaded fingerprint is still the saved one when the call ends. *)
Theorem contexts_carry_session_fingerprint (fuel : nat) (env : Env)
    (files : gmap string file) (query : string) (options : option CommandOptions)
    (existing : bool) :
  exists r w',
    google_search (search_fuel + fuel) env files query options existing =
      Some (r, w') /\
    (forall opts,
        In (EvNewContext opts) (w_trace w') ->
        context_of (search_args env files query options)
          (default
             (get_host_machine_config (env_host env)
                (Some (effective_locale (default default_options options))))
             (fingerprint (w_saved (initial_world files options))))
          opts) /\
    (forall fp,
        fingerprint (w_saved (initial_world files options)) = Some fp ->
        fingerprint (w_saved w') = Some fp).
Proof.
  destruct (google_search_footprint fuel env files query options existing)
    as (r & w' & Hrun & Hfoot).
  exists r, w'. split; [exact Hrun|].
  destruct (footprint_contexts (search_args env files query options) _ _ Hfoot) as (Hfp & Hkeep & Hctx).
  { intros opts []. }
  split; [|exact Hkeep].
  intros opts Hin. specialize (Hctx opts Hin). rewrite Hfp in Hctx. exact Hctx.
Qed.

(** X10. All navigations of a call, the one of a restart included, go to
    one domain: the domain the sidecar gave when it is not empty, else one
    of the four Google domains. *)
Theorem one_domain_per_call (fuel : nat) (env : Env) (files : gmap string file)
    (query : string) (options : option CommandOptions) (existing : bool) :
  exists r w' d,
    google_search (search_fuel + fuel) env files query options existing =
      Some (r, w') /\
    (loaded_domain files options = Some d /\ nonempty d = true \/
     In d google_domains /\
     (loaded_domain files options = None \/ loaded_domain files options = Some "")) /\
    forall url t, In (EvGoto url t) (w_trace w') -> url = d.
Proof.
  destruct (google_search_footprint fuel env files query options existing)
    as (r & w' & Hrun & Hfoot).
  destruct (footprint_domain (search_args env files query options) _ _ Hfoot) as (Hdom & Hgoto).
  { intros url t []. }
  fold (loaded_domain files options) in Hdom.
  exists r, w'.
  destruct Hdom as [Hsame|(Hunset & d & Hd & Hfinal)].
  - destruct (loaded_domain files options) as [d0|] eqn:Hl.
    + destruct (nonempty d0) eqn:Hne.
      * exists d0. split; [exact Hrun|]. split; [now left|].
        intros url t Hin. destruct (Hgoto url t Hin) as [Hs _]. congruence.
      * exists "https://www.google.com". split; [exact Hrun|]. split.
        { right. split; [now left|]. right. destruct d0; [reflexivity|discriminate]. }
        intros url t Hin. destruct (Hgoto url t Hin) as [Hs Hn].
        rewrite Hsame in Hs. injection Hs as <-. congruence.
    + exists "https://www.google.com". split; [exact Hrun|]. split.
      { right. split; [now left | now left]. }
      intros url t Hin. destruct (Hgoto url t Hin) as [Hs _]. congruence.
  - exists d. split; [exact Hrun|]. split; [now right|].
    intros url t Hin. destruct (Hgoto url t Hin) as [Hs _]. congruence.
Qed.

(** ** The fingerprint of the host, the device and the domain *)

(** X11. For a host [k] whole hours east of UTC the fingerprint names
    Europe/London for [k = 0], Europe/Berlin for [k = 1], America/New_York
    for [k = 5], Asia/Bangkok for [k = -7], Asia/Tokyo for [k <= -10] and
    Asia/Shanghai for every other [k], 8 and 9 included. *)
Theorem host_timezone_by_utc_offset (host : Host) (user_locale : option string)
    (k : Z) :
  h_timezone host = -3600 * k ->
  timezone_id (get_host_machine_config host user_locale) =
  if k =? 0 then "Europe/London"
  else if k =? 1 then "Europe/Berlin"
  else if k =? 5 then "America/New_York"
  else if k =? -7 then "Asia/Bangkok"
  else if k <=? -10 then "Asia/Tokyo"
  else "Asia/Shanghai".
Proof.
  intros H. unfold get_host_machine_config. cbn [timezone_id]. rewrite H.
  replace (- (-3600 * k) / 60) with (60 * k)
    by (replace (- (-3600 * k)) with (60 * k * 60) by lia;
        now rewrite Z.div_mul by lia).
  repeat match goal with
         | |- context [?a <? ?b] => destruct (Z.ltb_spec a b)
         | |- context [?a <=? ?b] => destruct (Z.leb_spec a b)
         | |- context [?a =? ?b] => destruct (Z.eqb_spec a b)
         end; cbn [andb]; try reflexivity; lia.
Qed.

Lemma host_timezone_by_utc_offset_witness :
  h_timezone a_host = -3600 * 8 /\
  timezone_id (get_host_machine_config a_host None) = "Asia/Shanghai".
Proof.
  split; [reflexivity|].
  exact (host_timezone_by_utc_offset a_host None 8 eq_refl).
Defined.

(** X12. [get_device_config] never raises: it returns a device of the
    table with its descriptor, which is neither mobile nor touch.  It is
    the saved device whenever the table has that one, and a device of the
    desktop list otherwise. *)
Theorem get_device_config_total (fp : option FingerprintConfig) (r : nat) :
  exists name d,
    get_device_config fp r = Ok (name, d) /\
    assoc name playwright_devices = Some d /\
    is_mobile d = false /\ has_touch d = false /\
    match fp with
    | Some saved =>
        match assoc (device_name saved) playwright_devices with
        | Some _ => name = device_name saved
        | None => In name device_list
        end
    | None => In name device_list
    end.
Proof.
  assert (Hrandom : forall x, In x device_list ->
            exists d, device_of x = Ok d /\ assoc x playwright_devices = Some d /\
                      is_mobile d = false /\ has_touch d = false).
  { intros x Hx. simpl in Hx.
    destruct Hx as [<-|[<-|[<-|[<-|[]]]]]; eexists; repeat split. }
  assert (Hdraw : In (random_choice r device_list) device_list).
  { now apply random_choice_In. }
  unfold get_device_config.
  destruct fp as [saved|].
  - destruct (assoc (device_name saved) playwright_devices) as [d|] eqn:Ha.
    + assert (Hin : In (device_name saved) device_list).
      { revert Ha. simpl.
        repeat match goal with
               | |- context [String.eqb ?a ?b] =>
                   destruct (String.eqb_spec a b) as [->|_]; [simpl; tauto|]
               end.
        discriminate. }
      destruct (Hrandom _ Hin) as (d' & Hd & Ha' & Hm & Ht).
      assert (Hne : nonempty (device_name saved) = true).
      { destruct (device_name saved); [discriminate Ha | reflexivity]. }
      rewrite Hne, bool_decide_eq_true_2 by now exists d. simpl. rewrite Hd.
      exists (device_name saved), d'. now repeat split.
    + destruct (Hrandom _ Hdraw) as (d' & Hd & Ha' & Hm & Ht).
      rewrite bool_decide_eq_false_2, andb_false_r by now intros [? [=]].
      rewrite Hd. exists (random_choice r device_list), d'. now repeat split.
  - destruct (Hrandom _ Hdraw) as (d' & Hd & Ha' & Hm & Ht).
    rewrite Hd. exists (random_choice r device_list), d'. now repeat split.
Qed.

(** X13. [get_google_domain] always returns a non-empty domain and records
    it: a saved non-empty domain is returned as it is, otherwise one of the
    four Google domains is drawn; a later call returns the same domain
    whatever it would draw, and changes nothing. *)
Theorem get_google_domain_sticky (e e' : Attempt) (w : World) :
  exists d w1,
    get_google_domain e w = Some (Ok d, w1) /\
    nonempty d = true /\
    google_domain (w_saved w1) = Some d /\
    (google_domain (w_saved w) = Some d \/ In d google_domains) /\
    get_google_domain e' w1 = Some (Ok d, w1).
Proof.
  destruct (get_google_domain e w) as [[r w1]|] eqn:Hrun.
  2: { unfold get_google_domain, bind, get_saved in Hrun.
       destruct (google_domain (w_saved w)) as [d|]; [destruct (nonempty d)|];
         discriminate. }
  destruct (get_google_domain_result _ _ _ _ Hrun)
    as (d & -> & Hsaved & Hne & _ & _ & _ & Hfrom).
  exists d, w1. split; [reflexivity|]. split; [exact Hne|]. split; [exact Hsaved|].
  split.
  - destruct Hfrom as [->|[_ Hin]]; [now left | now right].
  - unfold get_google_domain, bind, get_saved. now rewrite Hsaved, Hne.
Qed.

(** ** Loading and saving: the edges *)

Lemma replace_from_absent (old new s : string) :
  contains old s = false -> replace_from old new 0 s = s.
Proof.
  induction s as [|ch s IH]; [reflexivity|].
  rewrite contains_unfold. intros [Hp Hc]%orb_false_iff.
  cbn [replace_from]. rewrite Hp. now rewrite IH.
Qed.

Lemma sidecar_path_without_json (state_file : string) :
  contains ".json" state_file = false -> sidecar_path state_file = state_file.
Proof. apply replace_from_absent. Qed.

(** X14. When the path of the state file does not contain [.json], the
    sidecar has the same path, and a successful save leaves the
    fingerprint dictionary in the state file: the storage state written
    first is overwritten.  When the two paths differ, the state file holds
    the storage state and the sidecar holds the dictionary. *)
Theorem sidecar_overwrites_state_file (e : Attempt) (w : World) (state_file : string)
    (blob : json) :
  e_storage_state e = Ok blob ->
  e_write_sidecar e = Ok tt ->
  exists w',
    save_browser_state e state_file (sidecar_path state_file) false w =
      Some (Ok tt, w') /\
    w_files w' !! sidecar_path state_file =
      Some (FJson (fingerprint_data (w_saved w))) /\
    (contains ".json" state_file = false ->
     w_files w' !! state_file = Some (FJson (fingerprint_data (w_saved w)))) /\
    (sidecar_path state_file <> state_file ->
     w_files w' !! state_file = Some (FJson blob)).
Proof.
  intros Hstorage Hsidecar.
  unfold save_browser_state, storage_state, dump_fingerprint, try_catch, bind,
    call, emit, write_file, get_saved.
  simpl. rewrite Hstorage, Hsidecar. simpl.
  eexists. split; [reflexivity|]. simpl. split; [apply lookup_insert_eq|]. split.
  - intros Habsent. rewrite (sidecar_path_without_json _ Habsent).
    apply lookup_insert_eq.
  - intros Hne. rewrite lookup_insert_ne by exact Hne. apply lookup_insert_eq.
Qed.

Lemma sidecar_overwrites_state_file_witness :
  exists w',
    save_browser_state (env_attempt env_two_results 0) "./state"
      (sidecar_path "./state") false (initial_world ∅ None) = Some (Ok tt, w') /\
    w_files w' !! sidecar_path "./state" =
      Some (FJson (fingerprint_data (w_saved (initial_world ∅ None)))) /\
    (contains ".json" "./state" = false ->
     w_files w' !! "./state" =
       Some (FJson (fingerprint_data (w_saved (initial_world ∅ None))))) /\
    (sidecar_path "./state" <> "./state" ->
     w_files w' !! "./state" = Some (FJson JNull)).
Proof.
  apply (sidecar_overwrites_state_file (env_attempt env_two_results 0)
           (initial_world ∅ None) "./state" JNull); reflexivity.
Defined.

Lemma FingerprintConfig_of_incomplete (fields : list (string * json)) (k : string) :
  In k fingerprint_fields -> assoc k fields = None ->
  exists m, FingerprintConfig_of (JObj fields) = Exn m.
Proof.
  intros Hk Hnone. unfold FingerprintConfig_of.
  destruct (forallb _ fields); [|eauto].
  assert (Hf : exists m, str_field fields k = Exn m).
  { unfold str_field. rewrite Hnone. eauto. }
  destruct Hf as [m Hf]. simpl in Hk.
  destruct (str_field fields "device_name") eqn:E1; [|simpl; eauto].
  destruct (str_field fields "locale") eqn:E2; [|simpl; eauto].
  destruct (str_field fields "timezone_id") eqn:E3; [|simpl; eauto].
  destruct (str_field fields "color_scheme") eqn:E4; [|simpl; eauto].
  destruct (str_field fields "reduced_motion") eqn:E5; [|simpl; eauto].
  destruct (str_field fields "forced_colors") eqn:E6; [|simpl; eauto].
  destruct Hk as [<-|[<-|[<-|[<-|[<-|[<-|[]]]]]]]; congruence.
Qed.

(** X15. Loading is all or nothing: when the fingerprint object of the
    sidecar lacks one of the six fields, the whole sidecar is dropped, the
    saved domain included, while the state file is still used. *)
Theorem incomplete_fingerprint_drops_sidecar (files : gmap string file)
    (state_file : string) (v : json) (fields : list (string * json)) (k : string) :
  is_Some (files !! state_file) ->
  files !! sidecar_path state_file = Some (FJson v) ->
  dict_get v "fingerprint" = Ok (JObj fields) ->
  fields <> [] ->
  In k fingerprint_fields ->
  assoc k fields = None ->
  load_saved_state files state_file =
  (Some state_file, mkSavedState None None, sidecar_path state_file).
Proof.
  intros [f Hs] Hside Hfp Hne Hk Hnone.
  destruct (FingerprintConfig_of_incomplete fields k Hk Hnone) as [m Hm].
  unfold load_saved_state. fold (sidecar_path state_file).
  assert (Ht : json_truthy (JObj fields) = true).
  { destruct fields; [congruence | reflexivity]. }
  rewrite Hs, Hside. cbn [json_load result_bind]. unfold saved_state_of.
  rewrite Hfp. cbn [result_bind]. rewrite Ht, Hm. reflexivity.
Qed.

Lemma incomplete_fingerprint_drops_sidecar_witness :
  load_saved_state
    (<["./s.json" := FJson JNull]>
       (<["./s-fingerprint.json" :=
            FJson (JObj [("fingerprint", JObj [("device_name", JStr "Desktop Chrome")]);
                         ("google_domain", JStr "https://www.google.ca")])]> ∅))
    "./s.json" =
  (Some "./s.json", mkSavedState None None, sidecar_path "./s.json").
Proof.
  apply (incomplete_fingerprint_drops_sidecar _ "./s.json"
           (JObj [("fingerprint", JObj [("device_name", JStr "Desktop Chrome")]);
                  ("google_domain", JStr "https://www.google.ca")])
           [("device_name", JStr "Desktop Chrome")] "locale").
  - now rewrite lookup_insert_eq.
  - reflexivity.
  - reflexivity.
  - discriminate.
  - simpl. tauto.
  - reflexivity.
Defined.

(** ** The life of an own browser *)


Lemma finally_emit_inv {A} (m : M A) (ev : event) (w w' : World) (r : result A) :
  finally m (emit ev) w = Some (r, w') ->
  exists w1, m w = Some (r, w1) /\ w' = add_events w1 [ev].
Proof.
  unfold finally. destruct (m w) as [[r1 w1]|]; [|discriminate].
  rewrite emit_add. intros [= <- <-]. now exists w1.
Qed.


(** * The capture of the results page *)

(** ** The generated file name *)

Lemma str_take_length (n : nat) (s : string) :
  (String.length (str_take n s) <= n)%nat.
Proof.
  revert s. induction n as [|n IH]; intros [|c s]; simpl; try lia.
  specialize (IH s). lia.
Qed.

Lemma str_take_forallb (p : Ascii.ascii -> bool) (n : nat) (s : string) :
  string_forallb p s = true -> string_forallb p (str_take n s) = true.
Proof.
  revert s. induction n as [|n IH]; intros [|c s]; simpl; auto.
  intros [Hc Hs]%andb_true_iff. rewrite Hc. now apply IH.
Qed.

Lemma str_take_all (n : nat) (s : string) :
  (String.length s <= n)%nat -> str_take n s = s.
Proof.
  revert s. induction n as [|n IH]; intros [|c s]; simpl; auto; try lia.
  intros H. f_equal. apply IH. lia.
Qed.

Lemma sanitize_name_chars (s : string) :
  string_forallb name_char (sanitize s) = true.
Proof.
  induction s as [|c s IH]; [reflexivity|]. cbn [sanitize].
  destruct (is_alnum c) eqn:Ha; [|destruct (is_continuation c)];
    cbn [string_forallb].
  - rewrite IH. unfold name_char. now rewrite Ha.
  - exact IH.
  - rewrite IH. reflexivity.
Qed.

Lemma sanitize_alnum (s : string) :
  string_forallb is_alnum s = true -> sanitize s = s.
Proof.
  induction s as [|c s IH]; [reflexivity|]. simpl.
  intros [Hc Hs]%andb_true_iff. rewrite Hc. f_equal. now apply IH.
Qed.

(** X17. The part of a generated file name that comes from the query has
    at most 50 characters, all of them ASCII letters, digits or
    underscores, whatever the query holds; a query of at most 50 letters
    and digits is kept as it is. *)
Theorem sanitized_query_is_safe (query : string) :
  (String.length (sanitized_query query) <= 50)%nat /\
  string_forallb name_char (sanitized_query query) = true /\
  (string_forallb is_alnum query = true -> (String.length query <= 50)%nat ->
   sanitized_query query = query).
Proof.
  unfold sanitized_query. split; [apply str_take_length|]. split.
  - apply str_take_forallb, sanitize_name_chars.
  - intros Ha Hl. rewrite (sanitize_alnum _ Ha). now apply str_take_all.
Qed.

(** ** What a capture adds to the trace *)

















(** ** A capture whose page steps succeed *)

Lemma html_select_domain_result (x : HtmlAttempt) (w : HWorld) :
  exists d,
    html_select_domain x w =
      (Ok d, mkHWorld (mkSavedState (fingerprint (hw_saved w)) (Some d))
                      (hw_files w) (hw_trace w)) /\
    nonempty d = true /\
    (google_domain (hw_saved w) = Some d \/ In d html_google_domains).
Proof.
  unfold html_select_domain, hbind, hget_saved, hset_saved, hret.
  assert (Hin : In (random_choice (x_random_domain x) html_google_domains)
                   html_google_domains).
  { now apply random_choice_In. }
  assert (Hne : nonempty (random_choice (x_random_domain x) html_google_domains) = true).
  { now apply google_domains_nonempty. }
  destruct w as [[fp [d|]] files tr]; simpl.
  - destruct (nonempty d) eqn:Hd; eexists; (split; [reflexivity|]); auto.
  - eexists; (split; [reflexivity|]); auto.
Qed.

Lemma html_capture_page (L : Library) (x : HtmlAttempt) (query : string)
    (timeout : Z) (state_file : string) (no_save_state : bool)
    (fingerprint_file : string) (save_to_file : bool) (output_path : option string)
    (full_html : string) (w : HWorld) :
  page_ok x full_html ->
  exists d evs,
    nonempty d = true /\
    (google_domain (hw_saved w) = Some d \/ In d html_google_domains) /\
    In (HvGoto d timeout) evs /\
    Forall (fun ev => hpersists ev = false) evs /\
    html_capture L x query timeout state_file no_save_state fingerprint_file
                 save_to_file output_path w =
    hbind (if save_to_file
           then html_save_files L x query (clean_html L full_html) output_path
           else hret (None, None))
          (fun paths =>
             hbind (html_save_state x state_file fingerprint_file no_save_state)
                   (fun _ =>
                      hret (mkHtmlResponse query (clean_html L full_html) (x_url x)
                                           (fst paths) (snd paths)
                                           (Some (py_len full_html)))))
          (mkHWorld (mkSavedState (fingerprint (hw_saved w)) (Some d))
                    (hw_files w) (hw_trace w ++ HvNewContext :: HvNewPage :: evs)).
Proof.
  intros (_ & Hctx & Hpage & Hgoto & Hinput & Hclick & Htype & Henter & Hl1 & Hl2 &
          Hcontent).
  unfold html_capture.
  unfold hbind at 1 2 3 4 5, hemit at 1 2, hcall at 1 2. rewrite Hctx, Hpage.
  cbn [hw_saved hw_files hw_trace].
  match goal with
  | |- context [html_select_domain x ?w0] =>
      destruct (html_select_domain_result x w0) as (d & Hsel & Hne & Hfrom);
      rewrite Hsel
  end.
  exists d. eexists. split; [exact Hne|]. split; [exact Hfrom|].
  unfold hbind, hemit, hcall.
  rewrite Hgoto, Hinput, Hclick, Htype, Henter, Hl1, Hl2, Hcontent.
  cbn [hw_saved hw_files hw_trace fingerprint].
  rewrite <- !app_assoc. cbn [app].
  split; [|split; [|reflexivity]].
  - left. reflexivity.
  - repeat constructor.
Qed.
Lemma html_save_state_ok (x : HtmlAttempt) (state_file fingerprint_file : string)
    (no_save_state : bool) (w : HWorld) :
  exists w', html_save_state x state_file fingerprint_file no_save_state w = (Ok tt, w') /\
             hw_saved w' = hw_saved w.
Proof.
  unfold html_save_state, htry, hbind, hemit, hcall, hwrite, hget_saved, hret.
  destruct no_save_state; simpl; [eauto|].
  destruct (x_storage_state x); simpl; [|eauto].
  destruct (x_write_sidecar x) as [[]|]; simpl; eauto.
Qed.

(** X19. A capture that is not saved to a file returns the cleaned page,
    the URL of the page and the length of the page before cleaning,
    whatever happens when the storage state and the sidecar are saved: a
    failure to save is never a failure of the capture. *)
Theorem capture_survives_persistence (L : Library) (x : HtmlAttempt)
    (query : string) (timeout : Z) (state_file : string) (no_save_state : bool)
    (fingerprint_file : string) (output_path : option string) (full_html : string)
    (w : HWorld) :
  page_ok x full_html ->
  exists w',
    extract_html L x query timeout state_file no_save_state fingerprint_file
                 false output_path w =
    (Ok (mkHtmlResponse query (clean_html L full_html) (x_url x) None None
                        (Some (py_len full_html))), w').
Proof.
  intros Hok.
  destruct (html_capture_page L x query timeout state_file no_save_state
              fingerprint_file false output_path full_html
              (mkHWorld (hw_saved w) (hw_files w)
                        (hw_trace w ++ [HvLaunch true (timeout * 2)])) Hok)
    as (d & evs & _ & _ & _ & _ & Hrun).
  destruct Hok as (Hlaunch & _).
  unfold extract_html, hbind at 1 2, hemit at 1, hcall at 1. rewrite Hlaunch.
  unfold hfinally, htry. rewrite Hrun. unfold hbind, hret.
  match goal with
  | |- context [html_save_state x state_file fingerprint_file no_save_state ?w0] =>
      destruct (html_save_state_ok x state_file fingerprint_file no_save_state w0)
        as (w1 & Hsave & _)
  end.
  rewrite Hsave. simpl. eauto.
Qed.

Lemma capture_survives_persistence_witness :
  exists w',
    extract_html plain_library (capture_ok (Exn "no screenshot")) "rust" 60000
      "./browser-state.json" false "./browser-state-fingerprint.json" false None
      (mkHWorld (mkSavedState None None) ∅ []) =
    (Ok (mkHtmlResponse "rust"
           (clean_html plain_library "<html><body>rust</body></html>")
           (x_url (capture_ok (Exn "no screenshot"))) None None
           (Some (py_len "<html><body>rust</body></html>"))), w').
Proof.
  apply (capture_survives_persistence plain_library (capture_ok (Exn "no screenshot"))
           "rust" 60000 "./browser-state.json" false
           "./browser-state-fingerprint.json" None
           "<html><body>rust</body></html>").
  repeat split.
Defined.



Lemma html_output_path_resolved (L : Library) (x : HtmlAttempt) (query : string)
    (output_path : option string) (w : HWorld) :
  (forall p, x_mkdir x p = Ok tt) ->
  exists evs,
    html_output_path L x query output_path w =
      (Ok (resolved_path L x query output_path),
       mkHWorld (hw_saved w) (hw_files w) (hw_trace w ++ evs)) /\
    Forall (fun ev => hpersists ev = false) evs.
Proof.
  intros Hmk. unfold html_output_path, resolved_path, hbind, hemit, hcall, hret.
  destruct output_path as [[|c p]|]; rewrite ?Hmk; cbn.
  - eexists. split; [reflexivity|]. repeat constructor.
  - destruct (x_is_dir x (path_of L (String c p))); cbn.
    + exists []. rewrite app_nil_r. destruct w. split; [reflexivity|constructor].
    + destruct (negb (nonempty (path_suffix L (path_of L (String c p))))); cbn.
      * eexists. split; [reflexivity|]. repeat constructor.
      * exists []. rewrite app_nil_r. destruct w. split; [reflexivity|constructor].
  - eexists. split; [reflexivity|]. repeat constructor.
Qed.



(** X22. The path of the screenshot is the path of the page with every
    [.html] replaced by [.png]: when the path of the page does not contain
    [.html], the two are the same path, the capture succeeds, and the file
    holds the image, not the page. *)
Theorem screenshot_overwrites_page (L : Library) (x : HtmlAttempt)
    (query : string) (timeout : Z) (state_file fingerprint_file : string)
    (output_path : option string) (full_html image : string) (w : HWorld) :
  page_ok x full_html ->
  (forall p, x_mkdir x p = Ok tt) ->
  x_write_html x = Ok tt ->
  x_screenshot x = Ok image ->
  contains ".html" (resolved_path L x query output_path) = false ->
  exists w',
    extract_html L x query timeout state_file true fingerprint_file
                 true output_path w =
    (Ok (mkHtmlResponse query (clean_html L full_html) (x_url x)
           (Some (resolved_path L x query output_path))
           (Some (resolved_path L x query output_path))
           (Some (py_len full_html))), w') /\
    hw_files w' = <[resolved_path L x query output_path := FText image]> (hw_files w).
Proof.
  intros Hok Hmk Hwrite Hshot Hplain.
  destruct (html_capture_page L x query timeout state_file true
              fingerprint_file true output_path full_html
              (mkHWorld (hw_saved w) (hw_files w)
                        (hw_trace w ++ [HvLaunch true (timeout * 2)])) Hok)
    as (d & evs & _ & _ & _ & Hevs & Hrun).
  destruct Hok as (Hlaunch & _).
  unfold extract_html, hbind at 1 2, hemit at 1, hcall at 1. rewrite Hlaunch.
  unfold hfinally, htry. rewrite Hrun. clear Hrun.
  unfold html_save_files. unfold hbind at 1 2.
  match goal with
  | |- context [html_output_path L x query output_path ?w0] =>
      destruct (html_output_path_resolved L x query output_path w0 Hmk)
        as (e2 & Hpath & He2)
  end.
  rewrite Hpath. unfold html_save_state, htry, hbind, hemit, hcall, hwrite, hret.
  rewrite Hmk, Hwrite, Hshot.
  unfold str_replace. rewrite (replace_from_absent _ _ _ Hplain). cbn.
  eexists. split; [reflexivity|]. apply insert_insert_eq.
Qed.

Lemma screenshot_overwrites_page_witness :
  exists w',
    extract_html plain_library (capture_ok (Ok "PNG")) "rust" 60000
      "./browser-state.json" true "./browser-state-fingerprint.json" true
      (Some "out/page.txt") (mkHWorld (mkSavedState None None) ∅ []) =
    (Ok (mkHtmlResponse "rust"
           (clean_html plain_library "<html><body>rust</body></html>")
           (x_url (capture_ok (Ok "PNG")))
           (Some (resolved_path plain_library (capture_ok (Ok "PNG")) "rust"
                    (Some "out/page.txt")))
           (Some (resolved_path plain_library (capture_ok (Ok "PNG")) "rust"
                    (Some "out/page.txt")))
           (Some (py_len "<html><body>rust</body></html>"))), w') /\
    hw_files w' =
      <[resolved_path plain_library (capture_ok (Ok "PNG")) "rust"
          (Some "out/page.txt") := FText "PNG"]> ∅.
Proof.
  apply (screenshot_overwrites_page plain_library (capture_ok (Ok "PNG")) "rust"
           60000 "./browser-state.json" "./browser-state-fingerprint.json"
           (Some "out/page.txt") "<html><body>rust</body></html>" "PNG");
    [repeat split | reflexivity | reflexivity | reflexivity | reflexivity].
Defined.

(** ** What reaches the caller *)

Lemma never_raises_ret {A} (a : A) : never_raises (ret a).
Proof. intros w r w' [= <- <-]. eauto. Qed.

Lemma never_raises_emit (ev : event) : never_raises (emit ev).
Proof. intros w r w' [= <- <-]. eauto. Qed.

Lemma never_raises_bind {A B} (m : M A) (f : A -> M B) :
  never_raises m -> (forall a, never_raises (f a)) -> never_raises (bind m f).
Proof.
  intros Hm Hf w r w'. unfold bind.
  destruct (m w) as [[[a|msg] w1]|] eqn:E; [| |discriminate].
  - apply Hf.
  - destruct (Hm _ _ _ E) as [a [=]].
Qed.

Lemma never_raises_try_catch {A} (m : M A) (h : string -> M A) :
  (forall msg, never_raises (h msg)) -> never_raises (try_catch m h).
Proof.
  intros Hh w r w'. unfold try_catch.
  destruct (m w) as [[[a|msg] w1]|]; [| |discriminate].
  - intros [= <- <-]. eauto.
  - apply Hh.
Qed.

Lemma never_raises_close_own_browser (provided : bool) :
  never_raises (close_own_browser provided).
Proof.
  unfold close_own_browser.
  destruct (negb provided); [apply never_raises_emit | apply never_raises_ret].
Qed.

Lemma never_raises_on_search_error (e : Attempt) (query state_file : string)
    (no_save_state : bool) (fingerprint_file : string)
    (provided context_bound : bool) (error : string) :
  never_raises (on_search_error e query state_file no_save_state fingerprint_file
                                provided context_bound error).
Proof.
  unfold on_search_error. apply never_raises_bind.
  - apply never_raises_try_catch. intros _. apply never_raises_ret.
  - intros _. apply never_raises_bind; [apply never_raises_close_own_browser|].
    intros _. apply never_raises_ret.
Qed.

Lemma never_raises_perform_search_with_browser (host : Host) (e : Attempt)
    (query : string) (limit timeout : Z) (state_file : string)
    (no_save_state : bool) (locale fingerprint_file : string)
    (headless provided : bool) (restart_callback : M SearchResponse) :
  never_raises (_perform_search_with_browser host e query limit timeout state_file
                  no_save_state locale fingerprint_file headless provided
                  restart_callback).
Proof.
  unfold _perform_search_with_browser. apply never_raises_try_catch.
  intros msg. apply never_raises_on_search_error.
Qed.

Lemma raw_candidates_titled (dom : Dom) (r : RawResult) :
  r ∈ discovery_order dom ->
  nonempty (raw_title r) = true /\ nonempty (raw_link r) = true.
Proof.
  unfold discovery_order, document_offers.
  intros (o & Hin & Ho)%list_elem_of_omap. simpl in Ho. subst o.
  apply list_elem_of_In, in_app_or in Hin as [Hin|Hin].
  - unfold structural_offers in Hin. apply in_flat_map in Hin as (sel & _ & Hin).
    apply in_map_iff in Hin as (c & Hc & _). unfold container_candidate in Hc.
    destruct (c_title c); [|discriminate].
    destruct (nonempty _ && _ && nonempty _) eqn:E; [|discriminate].
    injection Hc as <-. simpl.
    apply andb_true_iff in E as [[E1 _]%andb_true_iff E2]. auto.
  - apply in_map_iff in Hin as (el & Hc & _). unfold anchor_candidate in Hc.
    destruct (nonempty _ && nonempty _ && _) eqn:E; [|discriminate].
    injection Hc as <-. simpl.
    apply andb_true_iff in E as [[E1 E2]%andb_true_iff _]. auto.
Qed.

Lemma shape_titled (asked : string) (limit : Z) (env : Env) (resp : SearchResponse) :
  shape asked limit env resp ->
  query resp = asked /\
  Forall (fun item => nonempty (title item) = true) (results resp).
Proof.
  intros [[msg ->]|(k & dom & _ & ->)]; (split; [reflexivity|]).
  - repeat constructor.
  - simpl. unfold convert_to_search_results. apply Forall_map.
    apply Forall_forall. intros r Hr. simpl.
    apply (raw_candidates_titled dom).
    eapply elem_of_sublist; [exact Hr | apply extract_script_discovery_order].
Qed.

(** X23. [google_search] raises in one case only: it launches the browser
    itself and the launch of the first run fails.  Every other failure, a
    failed launch of the headful restart included, comes back as a
    response; a response names the query it was asked, and every result in
    it has a title. *)
Theorem google_search_raises_only_on_launch (fuel : nat) (env : Env)
    (files : gmap string file) (asked : string) (options : option CommandOptions)
    (existing : bool) :
  exists r w',
    google_search (search_fuel + fuel) env files asked options existing =
      Some (r, w') /\
    match r with
    | Ok resp =>
        query resp = asked /\
        Forall (fun item => nonempty (title item) = true) (results resp)
    | Exn msg =>
        existing = false /\ e_launch (env_attempt env 0) = Exn msg
    end.
Proof.
  destruct (google_search_runs any_fp any_fp_host fuel env files asked options
              existing (fp_inv_any _)) as (r & w' & Hrun & (_ & _ & _ & Hr) & _).
  exists r, w'. split; [exact Hrun|].
  destruct r as [resp|msg]; [destruct Hr as [_ Hshape]; exact (shape_titled _ _ _ _ Hshape)|].
  clear Hr. unfold google_search in Hrun.
  change (search_fuel + fuel)%nat with (S (S fuel)) in Hrun.
  destruct existing.
  - exfalso. cbn [_perform_search_internal] in Hrun.
    unfold try_catch at 1 in Hrun.
    match type of Hrun with
    | match ?m ?w with _ => _ end = _ =>
        destruct (m w) as [[[resp|msg'] w1]|] eqn:E; [discriminate| |discriminate]
    end.
    destruct (never_raises_perform_search_with_browser _ _ _ _ _ _ _ _ _ _ _ _
                _ _ _ E) as [a [=]].
  - split; [reflexivity|].
    rewrite perform_search_internal_own in Hrun.
    apply finally_emit_inv in Hrun as (w1 & Hrun & ->).
    unfold launch_browser in Hrun.
    repeat first [rewrite bind_assoc in Hrun | rewrite bind_emit in Hrun].
    rewrite !add_events_add, bind_call in Hrun.
    destruct (e_launch (env_attempt env 0)) as [[]|msg0]; [|congruence].
    exfalso. apply finally_emit_inv in Hrun as (w2 & Hrun & ->).
    destruct (never_raises_perform_search_with_browser _ _ _ _ _ _ _ _ _ _ _ _
                _ _ _ Hrun) as [a [=]].
Qed.

(** * Closing down *)

Lemma append_assoc (a b c : string) : (a +:+ b) +:+ c = a +:+ (b +:+ c).
Proof.
  induction a as [|ch a IH]; [reflexivity|].
  change (String ch ((a +:+ b) +:+ c) = String ch (a +:+ b +:+ c)).
  now rewrite IH.
Qed.

Lemma contains_trans (a b s : string) :
  contains a b = true -> contains b s = true -> contains a s = true.
Proof.
  intros (x & y & ->)%contains_spec (u & v & ->)%contains_spec.
  apply contains_spec. exists (u +:+ x), (y +:+ v).
  now rewrite !append_assoc.
Qed.

(** X24. [safe_close_browser] warns about a failed close unless the
    message is one the platform is known for.  A broken pipe is reported at
    debug level on Linux and on Windows, a reset connection on Linux and on
    macOS; on any other platform every failure is a warning; a close that
    succeeds logs no warning. *)
Theorem safe_close_browser_levels (lower : string -> string) (e : string) :
  (forall system, In LogWarn (safe_close_browser system lower (Ok tt)) -> False) /\
  (forall system,
      system <> "windows" -> system <> "darwin" -> system <> "linux" ->
      safe_close_browser system lower (Exn e) = [LogInfo; LogWarn]) /\
  (contains "broken pipe" (lower e) = true ->
   safe_close_browser "linux" lower (Exn e) = [LogInfo; LogDebug] /\
   safe_close_browser "windows" lower (Exn e) = [LogInfo; LogDebug]) /\
  (contains "connection reset" (lower e) = true ->
   safe_close_browser "linux" lower (Exn e) = [LogInfo; LogDebug] /\
   safe_close_browser "darwin" lower (Exn e) = [LogInfo; LogDebug]).
Proof.
  split; [|split; [|split]].
  - intros system [H|[H|[]]]; discriminate.
  - intros system Hw Hm Hl. unfold safe_close_browser, is_windows, is_macos, is_linux.
    apply String.eqb_neq in Hw, Hm, Hl. now rewrite Hw, Hm, Hl.
  - intros H.
    assert (Hpipe : contains "pipe" (lower e) = true).
    { now apply (contains_trans "pipe" "broken pipe"). }
    unfold safe_close_browser. cbn [is_windows is_macos is_linux].
    change ("linux" =? "windows")%string with false.
    change ("linux" =? "darwin")%string with false.
    change ("linux" =? "linux")%string with true.
    change ("windows" =? "windows")%string with true.
    now rewrite H, Hpipe.
  - intros H. unfold safe_close_browser. cbn [is_windows is_macos is_linux].
    change ("linux" =? "windows")%string with false.
    change ("linux" =? "darwin")%string with false.
    change ("linux" =? "linux")%string with true.
    change ("darwin" =? "windows")%string with false.
    change ("darwin" =? "darwin")%string with true.
    rewrite H, !orb_true_r. now split.
Qed.
